(** * Single-file pipeline loading (diffusers/loaders/single_file.py)

    A shallow embedding of [load_single_file_sub_model],
    [_legacy_load_safety_checker], [_map_component_types_to_config_dict] and
    [FromSingleFileMixin.from_single_file], and the properties of the
    component-resolution engine proved about them.

    Python values are a small sum type; keyword-argument bags and the
    constructor keyword set are finite maps; the manifest and the dictionary
    of components to load are insertion-ordered association lists, because
    the loading loop walks them in order.  Every call that leaves the module
    and touches the file system, the network, the logger or a constructor is
    recorded in a trace, and a raised exception ends the computation. *)

From Stdlib Require Import Ascii.
From stdpp Require Import gmap strings list.

Open Scope string_scope.
Open Scope list_scope.
Open Scope nat_scope.

(** ** Python values *)

Inductive pyval : Type :=
| PNone
| PBool (b : bool)
| PInt (n : Z)
| PStr (s : string)
| PPair (library_name class_name : option string)
    (* a two-element JSON array [library, class]; [None] is JSON null *)
| PObj (label : string).
    (* any other object: a model, a scheduler, a parsed config, a dtype *)

#[global] Instance pyval_eq_dec : EqDecision pyval.
Proof. solve_decision. Defined.

(** [v is None] *)
Definition is_None (v : pyval) : bool :=
  match v with PNone => true | _ => false end.

(** [bool(v)] *)
Definition truthy (v : pyval) : bool :=
  match v with
  | PNone => false
  | PBool b => b
  | PInt n => negb (n =? 0)%Z
  | PStr s => negb (String.eqb s "")
  | PPair _ _ => true
  | PObj _ => true
  end.

(** ** Exceptions *)

(** The text of the [ValueError]s this module raises itself, with the
    interpolated values as fields. *)
Inductive message : Type :=
| OnlyOneOfConfig
    (* "Only one of `config` and `original_config` can be provided." *)
| NeitherPathNorRepoId (pretrained_model_name_or_path : string)
| NoSupportedLoadingMethod (class_name : string)
| PipelineExpected (pipeline_class : string) (expected_modules passed_modules : gset string)
| CannotUnpack.
    (* raised by the interpreter when a sequence of the wrong length is
       unpacked into [(library_name, class_name)] *)

Inductive exc : Type :=
| ValueError (m : message)
| TypeError
| IndexError
| NameError (variable : string)
| LocalEntryNotFoundError
| OtherError (what : string).

#[global] Instance message_eq_dec : EqDecision message.
Proof. solve_decision. Defined.
#[global] Instance exc_eq_dec : EqDecision exc.
Proof. solve_decision. Defined.

(** ** Insertion-ordered dictionaries *)

Module Dict.
Section Dict.
Context {V : Type}.

(** [d.get(k)] *)
Fixpoint get (k : string) (d : list (string * V)) : option V :=
  match d with
  | [] => None
  | (k', v) :: d' => if String.eqb k k' then Some v else get k d'
  end.

(** [d.pop(k, None)], keeping only the dictionary *)
Fixpoint remove (k : string) (d : list (string * V)) : list (string * V) :=
  match d with
  | [] => []
  | (k', v) :: d' => if String.eqb k k' then remove k d' else (k', v) :: remove k d'
  end.

(** [d[k] = v]: an existing key keeps its place, a new one goes last *)
Fixpoint set (k : string) (v : V) (d : list (string * V)) : list (string * V) :=
  match d with
  | [] => [(k, v)]
  | (k', v') :: d' => if String.eqb k k' then (k, v) :: d' else (k', v') :: set k v d'
  end.

Definition keys (d : list (string * V)) : list string := map fst d.
End Dict.
End Dict.

(** [kwargs.pop(k, None)] on a keyword bag: the value and the bag without [k] *)
Definition pop (k : string) (kwargs : gmap string pyval) : pyval * gmap string pyval :=
  (default PNone (kwargs !! k), delete k kwargs).

(** [kwargs.pop(k, False)] *)
Definition pop_or (k : string) (d : pyval) (kwargs : gmap string pyval)
  : pyval * gmap string pyval :=
  (default d (kwargs !! k), delete k kwargs).

(** [{k: kwargs.pop(k) for k in names if k in kwargs}]: the entries taken and
    what is left of the bag *)
Definition pop_all (names : gset string) (kwargs : gmap string pyval)
  : gmap string pyval * gmap string pyval :=
  (filter (λ kv, kv.1 ∈ names) kwargs, filter (λ kv, kv.1 ∉ names) kwargs).

(** [s.count("/")] *)
Fixpoint count_slash (s : string) : nat :=
  match s with
  | EmptyString => 0
  | String c s' => (if Ascii.eqb c "/"%char then 1 else 0) + count_slash s'
  end.

(** ** Classes, as far as the loader inspects them *)

(** What [issubclass], [hasattr] and [__name__] tell about a class object. *)
Record class_obj : Type := {
  cname : string;                       (* [__name__] *)
  sub_PreTrainedModel : bool;           (* [issubclass(c, PreTrainedModel)] *)
  sub_PreTrainedTokenizer : bool;       (* [issubclass(c, PreTrainedTokenizer)] *)
  sub_FromOriginalModelMixin : bool;    (* [issubclass(c, FromOriginalModelMixin)] *)
  sub_ModelMixin : bool;                (* [issubclass(c, ModelMixin)] *)
  sub_SchedulerMixin : bool;            (* [issubclass(c, SchedulerMixin)] *)
  sub_nn_Module : bool;                 (* [issubclass(c, torch.nn.Module)] *)
  has_from_pretrained : bool            (* [hasattr(c, "from_pretrained")] *)
}.

(** A pipeline class: its name and the class attributes read here. *)
Record pipeline_class : Type := {
  pipe_name : string;                   (* [__name__] *)
  config_name : string;
  optional_components : list string     (* [_optional_components] *)
}.

(** The checkpoint, seen as its tensor keys; it is only handed on. *)
Definition checkpoint : Type := list string.

(** ** Calls that leave the module *)

Inductive warning : Type :=
| FallbackToPretrained (name class_name : string) (pretrained_model_name_or_path : pyval)
| InferredComponents (pretrained_model_name_or_path : string).

Inductive event : Type :=
| EvDeprecate (argument : string)
| EvWarning (msg : warning)
| EvFetchOriginalConfig (original_config local_files_only : pyval)
| EvLoadCheckpoint (pretrained_model_link_or_path : string) (transport : gmap string pyval)
| EvFetchDiffusersConfig
| EvIsDir (path : string)
| EvHubDownload (repo filename : string) (transport : gmap string pyval)
| EvDictFromJsonFile (config_file : string)
| EvLoadConfig (path : string)
| EvExtractInitDict (config_dict : list (string * pyval)) (kwargs : gmap string pyval)
| EvFromSingleFile (class_name subfolder : string)
    (original_config config torch_dtype local_files_only : pyval) (kwargs : gmap string pyval)
| EvClipFromLdm (class_name subfolder : string)
    (config torch_dtype local_files_only : pyval) (is_legacy_loading : bool)
| EvFromPretrained (class_name subfolder : string)
    (pretrained_model_name_or_path local_files_only use_safetensors : pyval)
    (loading_kwargs : gmap string pyval)
| EvLegacyFeatureExtractor (local_files_only : pyval)
| EvLegacySafetyChecker (local_files_only torch_dtype : pyval)
| EvLegacyScheduler (pipeline_class_name : option string)
    (original_config scheduler_type prediction_type : pyval)
| EvConstruct (pipeline : string) (init_kwargs : gmap string pyval)
| EvTo (dtype : pyval).

#[global] Instance warning_eq_dec : EqDecision warning.
Proof. solve_decision. Defined.
#[global] Instance event_eq_dec : EqDecision event.
Proof. solve_decision. Defined.

(** A computation: the calls made so far, and an exception or a value. *)
Definition M (A : Type) : Type := list event * (exc + A).

Definition ret {A} (a : A) : M A := ([], inr a).
Definition raise {A} (e : exc) : M A := ([], inl e).
Definition lift {A} (r : exc + A) : M A := ([], r).
Definition emit (ev : event) : M unit := ([ev], inr tt).
Definition bind {A B} (m : M A) (f : A → M B) : M B :=
  match m with
  | (t, inl e) => (t, inl e)
  | (t, inr a) => (t ++ (f a).1, (f a).2)
  end.

Definition trace {A} (m : M A) : list event := m.1.
Definition outcome {A} (m : M A) : exc + A := m.2.

Notation "'let!' x ':=' c1 'in' c2" := (bind c1 (λ x, c2))
  (at level 10, x pattern, c1 at level 100, c2 at level 200).
Notation "c1 ';;' c2" := (bind c1 (λ _, c2))
  (at level 100, c2 at level 200, right associativity).

(** The three loading strategies of a component. *)
Definition is_component_load (ev : event) : bool :=
  match ev with
  | EvFromSingleFile _ _ _ _ _ _ _ | EvClipFromLdm _ _ _ _ _ _
  | EvFromPretrained _ _ _ _ _ _ => true
  | _ => false
  end.

(** The component a loading call is for: its [subfolder] argument. *)
Definition loads_component (name : string) (ev : event) : bool :=
  match ev with
  | EvFromSingleFile _ n _ _ _ _ _ | EvClipFromLdm _ n _ _ _ _
  | EvFromPretrained _ n _ _ _ _ => String.eqb n name
  | _ => false
  end.

(** The calls of the two deprecated paths. *)
Definition is_legacy_call (ev : event) : bool :=
  match ev with
  | EvLegacyFeatureExtractor _ | EvLegacySafetyChecker _ _
  | EvLegacyScheduler _ _ _ _ => true
  | _ => false
  end.

(** Fetching the manifest from the hub. *)
Definition is_manifest_fetch (ev : event) : bool :=
  match ev with
  | EvHubDownload _ _ _ | EvDictFromJsonFile _ => true
  | _ => false
  end.

(** Everything but a notice on the logger reads a file, reaches the network
    or builds an object. *)
Definition is_notice (ev : event) : bool :=
  match ev with
  | EvDeprecate _ | EvWarning _ => true
  | _ => false
  end.

(** ** The collaborators *)

(** Everything [from_single_file] calls and does not define: the hub, the
    file system, reflection on classes, the sub-model loaders and the
    pipeline constructor.  Each field is what the call returns or raises. *)
Record World : Type := {
  transformers_available : bool;        (* [is_transformers_available()] *)
  transformers_version_ok : bool;       (* base version [>= 4.20.0] *)
  is_pipeline_module : string → bool;   (* [hasattr(pipelines, library_name)] *)
  pipeline_module_class : string → option string → exc + class_obj;
    (* [getattr(getattr(pipelines, library_name), class_name)] *)
  library_class : string → option string → exc + class_obj;
    (* [getattr(importlib.import_module(library_name), class_name)] *)
  is_clip_model_in_single_file : class_obj → checkpoint → bool;
  invoke : event → exc + pyval;
    (* the object a loader, a constructor or a fetch returns *)
  get_pipeline_class : pipeline_class → exc + pipeline_class;
  load_single_file_checkpoint : string → gmap string pyval → exc + checkpoint;
  fetch_diffusers_config : checkpoint → exc + pyval;
    (* the entry ["pretrained_model_name_or_path"] of the inferred config *)
  isdir : string → bool;                (* [os.path.isdir] *)
  hf_hub_download : string → string → gmap string pyval → exc + string;
  dict_from_json_file : pipeline_class → string → exc + list (string * pyval);
  load_config : pipeline_class → string → exc + list (string * pyval);
  get_signature_types : pipeline_class → list (string * list class_obj);
  get_signature_keys : pipeline_class → pipeline_class → gset string * gset string;
    (* [pipeline_class._get_signature_keys(cls)]: expected modules, optional kwargs *)
  extract_init_dict :
    pipeline_class → list (string * pyval) → gmap string pyval → exc + list (string * pyval);
    (* the first component of the triple [extract_init_dict] returns *)
  legacy_load_scheduler_from_scheduler_type :
    option string → checkpoint → pyval → pyval → pyval → exc + gmap string pyval
}.

Section Loader.
Context (w : World).

(** A call whose result is an object: recorded, then answered by the world. *)
Definition call (ev : event) : M pyval := ([ev], invoke w ev).

(** ** [load_single_file_sub_model] (lines 40-140) *)

Definition is_transformers_model (c : class_obj) : bool :=
  transformers_available w && sub_PreTrainedModel c && transformers_version_ok w.

Definition is_transformers_tokenizer (c : class_obj) : bool :=
  transformers_available w && sub_PreTrainedTokenizer c && transformers_version_ok w.

(** Lines 55-61: the class object behind [(library_name, class_name)]. *)
Definition resolve_class_obj (is_pipeline_mod : bool)
    (library_name : string) (class_name : option string) : exc + class_obj :=
  if is_pipeline_mod
  then pipeline_module_class w library_name class_name
  else library_class w library_name class_name.

Definition load_single_file_sub_model
    (library_name : string) (class_name : option string)
    (pretrained_model_name_or_path : pyval) (name : string) (ckpt : checkpoint)
    (is_pipeline_mod : bool)
    (original_config local_files_only torch_dtype use_safetensors : pyval)
    (is_legacy_loading : bool) (kwargs : gmap string pyval) : M pyval :=
  let! c := lift (resolve_class_obj is_pipeline_mod library_name class_name) in
  let is_diffusers_single_file_model := sub_FromOriginalModelMixin c in
  let is_diffusers_model := sub_ModelMixin c in
  if is_diffusers_single_file_model then
    let pretrained_model_name_or_path :=
      if truthy original_config then PNone else pretrained_model_name_or_path in
    call (EvFromSingleFile (cname c) name original_config
            pretrained_model_name_or_path torch_dtype local_files_only kwargs)
  else if is_transformers_model c && is_clip_model_in_single_file w c ckpt then
    call (EvClipFromLdm (cname c) name pretrained_model_name_or_path
            torch_dtype local_files_only is_legacy_loading)
  else
    if negb (has_from_pretrained c) then
      raise (ValueError (NoSupportedLoadingMethod (cname c)))
    else
      (if is_diffusers_model
       then emit (EvWarning (FallbackToPretrained name (cname c) pretrained_model_name_or_path))
       else ret tt) ;;
      let loading_kwargs : gmap string pyval :=
        if sub_nn_Module c then {[ "torch_dtype" := torch_dtype ]} else ∅ in
      call (EvFromPretrained (cname c) name pretrained_model_name_or_path
              local_files_only use_safetensors loading_kwargs).

(** ** [_legacy_load_safety_checker] (lines 143-156) *)

Definition _legacy_load_safety_checker (local_files_only torch_dtype : pyval)
  : M (gmap string pyval) :=
  let! feature_extractor := call (EvLegacyFeatureExtractor local_files_only) in
  let! safety_checker := call (EvLegacySafetyChecker local_files_only torch_dtype) in
  ret (<[ "feature_extractor" := feature_extractor ]>
       (<[ "safety_checker" := safety_checker ]> ∅)).

(** ** [_map_component_types_to_config_dict] (lines 159-206) *)

(** The branch of the [if]/[elif] chain taken for one component type. *)
Inductive branch : Type :=
| BrDiffusersModel | BrSchedulerEnum | BrScheduler | BrTransformers
| BrSafetyChecker | BrUnknown
| BrNoAssignment.   (* the inner [if]/[elif] with both tests false: nothing is stored *)

Definition component_branch (c : class_obj) : branch :=
  let is_diffusers_model := sub_ModelMixin c in
  let is_scheduler_enum := String.eqb (cname c) "KarrasDiffusionSchedulers" in
  let is_scheduler := sub_SchedulerMixin c in
  if is_diffusers_model then BrDiffusersModel
  else if is_scheduler_enum || is_scheduler then
    (if is_scheduler_enum then BrSchedulerEnum
     else if is_scheduler then BrScheduler
     else BrNoAssignment)
  else if is_transformers_model c || is_transformers_tokenizer c then BrTransformers
  else if is_transformers_model c && String.eqb (cname c) "StableDiffusionSafetyChecker"
    then BrSafetyChecker
  else BrUnknown.

(** What the branch stores in [config_dict[component_name]]. *)
Definition branch_spec (b : branch) (c : class_obj) : option pyval :=
  match b with
  | BrDiffusersModel => Some (PPair (Some "diffusers") (Some (cname c)))
  | BrSchedulerEnum => Some (PPair (Some "diffusers") (Some "DDIMScheduler"))
  | BrScheduler => Some (PPair (Some "diffusers") (Some (cname c)))
  | BrTransformers => Some (PPair (Some "transformers") (Some (cname c)))
  | BrSafetyChecker => Some (PPair (Some "stable_diffusion") (Some (cname c)))
  | BrUnknown => Some (PPair None None)
  | BrNoAssignment => None
  end.

Fixpoint map_component_types
    (items : list (string * list class_obj)) (config_dict : list (string * pyval))
  : exc + list (string * pyval) :=
  match items with
  | [] => inr config_dict
  | (component_name, component_value) :: rest =>
      match component_value with
      | [] => inl IndexError            (* [component_value[0]] on an empty tuple *)
      | c :: _ =>
          map_component_types rest
            (match branch_spec (component_branch c) c with
             | Some spec => Dict.set component_name spec config_dict
             | None => config_dict
             end)
      end
  end.

Definition _map_component_types_to_config_dict
    (component_types : list (string * list class_obj)) : exc + list (string * pyval) :=
  map_component_types (Dict.remove "self" component_types) [].

(** ** [FromSingleFileMixin.from_single_file] (lines 216-528) *)

(** A call whose result is not an object: recorded, then answered. *)
Definition ask {A} (ev : event) (r : exc + A) : M A := ([ev], r).

(** [try: m  except LocalEntryNotFoundError: handler] *)
Definition except_local_entry_not_found {A} (m handler : M A) : M A :=
  match m with
  | (t, inl LocalEntryNotFoundError) => (t ++ handler.1, handler.2)
  | _ => m
  end.

(** The named arguments popped off [kwargs] (lines 317-338), and the rest. *)
Record arguments : Type := {
  original_config_file : pyval;
  config : pyval;
  original_config : pyval;
  resume_download : pyval;
  force_download : pyval;
  proxies : pyval;
  token : pyval;
  cache_dir : pyval;
  local_files_only : pyval;
  revision : pyval;
  torch_dtype : pyval;
  local_dir : pyval;
  use_safetensors : pyval;
  rest : gmap string pyval
}.

Definition parse_arguments (kwargs : gmap string pyval) : arguments :=
  let '(original_config_file, kwargs) := pop "original_config_file" kwargs in
  let '(config, kwargs) := pop "config" kwargs in
  let '(original_config, kwargs) := pop "original_config" kwargs in
  let '(resume_download, kwargs) := pop_or "resume_download" (PBool false) kwargs in
  let '(force_download, kwargs) := pop_or "force_download" (PBool false) kwargs in
  let '(proxies, kwargs) := pop "proxies" kwargs in
  let '(token, kwargs) := pop "token" kwargs in
  let '(cache_dir, kwargs) := pop "cache_dir" kwargs in
  let '(local_files_only, kwargs) := pop_or "local_files_only" (PBool false) kwargs in
  let '(revision, kwargs) := pop "revision" kwargs in
  let '(torch_dtype, kwargs) := pop "torch_dtype" kwargs in
  let '(local_dir, kwargs) := pop "local_dir" kwargs in
  let '(use_safetensors, kwargs) := pop "use_safetensors" kwargs in
  {| original_config_file := original_config_file; config := config;
     original_config := original_config; resume_download := resume_download;
     force_download := force_download; proxies := proxies; token := token;
     cache_dir := cache_dir; local_files_only := local_files_only;
     revision := revision; torch_dtype := torch_dtype; local_dir := local_dir;
     use_safetensors := use_safetensors; rest := kwargs |}.

(** [original_config] once the deprecated alias has been folded in (line 327) *)
Definition effective_original_config (a : arguments) : pyval :=
  if is_None (original_config_file a) then original_config a else original_config_file a.

Definition checkpoint_transport (a : arguments) : gmap string pyval :=
  <[ "resume_download" := resume_download a ]>
  (<[ "force_download" := force_download a ]>
  (<[ "proxies" := proxies a ]>
  (<[ "token" := token a ]>
  (<[ "cache_dir" := cache_dir a ]>
  (<[ "local_files_only" := local_files_only a ]>
  (<[ "revision" := revision a ]>
  (<[ "local_dir" := local_dir a ]> ∅))))))).

Definition hub_transport (a : arguments) : gmap string pyval :=
  <[ "cache_dir" := cache_dir a ]>
  (<[ "revision" := revision a ]>
  (<[ "proxies" := proxies a ]>
  (<[ "force_download" := force_download a ]>
  (<[ "resume_download" := resume_download a ]>
  (<[ "local_files_only" := local_files_only a ]>
  (<[ "token" := token a ]> ∅)))))).

(** [deprecate(name, ...)] when the argument was given *)
Definition deprecate_if_given (name : string) (v : pyval) : M unit :=
  if is_None v then ret tt else emit (EvDeprecate name).

(** Lines 321-376: the alias, the exclusion check, the deprecation notices,
    the original config, the pipeline class and the checkpoint. *)
Definition acquire (cls : pipeline_class) (pretrained_model_link_or_path : string)
    (a : arguments) : M (pyval * pipeline_class * checkpoint) :=
  deprecate_if_given "original_config_file" (original_config_file a) ;;
  let original_config := effective_original_config a in
  if negb (is_None (config a)) && negb (is_None original_config) then
    raise (ValueError OnlyOneOfConfig)
  else
    deprecate_if_given "scaling_factor" (default PNone (rest a !! "scaling_factor")) ;;
    deprecate_if_given "prediction_type" (default PNone (rest a !! "prediction_type")) ;;
    let! original_config :=
      (if negb (is_None original_config)
       then call (EvFetchOriginalConfig original_config (local_files_only a))
       else ret original_config) in
    let! pipeline_cls := lift (get_pipeline_class w cls) in
    let! ckpt :=
      ask (EvLoadCheckpoint pretrained_model_link_or_path (checkpoint_transport a))
          (load_single_file_checkpoint w pretrained_model_link_or_path
             (checkpoint_transport a)) in
    ret (original_config, pipeline_cls, ckpt).

(** The [except LocalEntryNotFoundError] block (lines 405-420). *)
Definition synthesize_config_dict (cls pipeline_cls : pipeline_class)
    (default_pretrained_model_name_or_path : string) : M (list (string * pyval) * bool) :=
  emit (EvWarning (InferredComponents default_pretrained_model_name_or_path)) ;;
  let component_types := get_signature_types w pipeline_cls in
  let component_types :=
    filter (λ kv, kv.1 ∉ optional_components pipeline_cls) component_types in
  let! config_dict := lift (_map_component_types_to_config_dict component_types) in
  ret (Dict.set "_class_name" (PStr (pipe_name pipeline_cls)) config_dict, true).

(** Lines 380-381: the identity of the pretrained config, the caller's
    [config] when it is truthy and the one inferred from the checkpoint
    otherwise. *)
Definition inferred_identity (a : arguments) (ckpt : checkpoint) : M pyval :=
  if truthy (config a) then ret (config a)
  else ask EvFetchDiffusersConfig (fetch_diffusers_config w ckpt).

(** The [try] block (lines 391-402). *)
Definition fetch_manifest (cls pipeline_cls : pipeline_class) (a : arguments)
    (default_pretrained_model_name_or_path : string) : M (list (string * pyval) * bool) :=
  let! config_file :=
    ask (EvHubDownload default_pretrained_model_name_or_path
           (config_name cls) (hub_transport a))
        (hf_hub_download w default_pretrained_model_name_or_path
           (config_name cls) (hub_transport a)) in
  let! config_dict :=
    ask (EvDictFromJsonFile config_file)
        (dict_from_json_file w pipeline_cls config_file) in
  ret (config_dict, false).

(** Lines 380-427: the identity of the pretrained config and its manifest.
    A name that is not a string fails in [os.path.isdir] or in [.count];
    which exception that is depends on the object, so it is an [OtherError]. *)
Definition resolve_config_dict (cls pipeline_cls : pipeline_class) (a : arguments)
    (ckpt : checkpoint) : M (string * list (string * pyval) * bool) :=
  let! name_or_path := inferred_identity a ckpt in
  match name_or_path with
  | PStr default_pretrained_model_name_or_path =>
      let! is_dir := ask (EvIsDir default_pretrained_model_name_or_path)
                         (inr (isdir w default_pretrained_model_name_or_path)) in
      let! (config_dict, is_legacy_loading) :=
        (if negb is_dir then
           if (1 <? count_slash default_pretrained_model_name_or_path)%nat then
             raise (ValueError (NeitherPathNorRepoId default_pretrained_model_name_or_path))
           else
             except_local_entry_not_found
               (fetch_manifest cls pipeline_cls a default_pretrained_model_name_or_path)
               (synthesize_config_dict cls pipeline_cls
                  default_pretrained_model_name_or_path)
         else
           let! config_dict :=
             ask (EvLoadConfig default_pretrained_model_name_or_path)
                 (load_config w pipeline_cls default_pretrained_model_name_or_path) in
           ret (config_dict, false)) in
      ret (default_pretrained_model_name_or_path,
           Dict.remove "_ignore_files" config_dict, is_legacy_loading)
  | _ => raise (OtherError "pretrained_model_name_or_path is not a string")
  end.

(** [value[0] is None], for a manifest value.  A JSON scalar other than a
    string is not subscriptable; objects are taken not to be either. *)
Definition first_is_None (value : pyval) : exc + bool :=
  match value with
  | PPair library_name _ => inr (if library_name is None then true else false)
  | PStr EmptyString => inl IndexError
  | PStr _ => inr false
  | _ => inl TypeError
  end.

(** The local function [load_module] (lines 443-448). *)
Definition load_module (passed_class_obj : gmap string pyval)
    (name : string) (value : pyval) : exc + bool :=
  match first_is_None value with
  | inl e => inl e
  | inr true => inr false
  | inr false =>
      match passed_class_obj !! name with
      | Some PNone => inr false
      | _ => inr true
      end
  end.

(** [{k: v for k, v in init_dict.items() if load_module(k, v)}] (line 450) *)
Fixpoint loadable (passed_class_obj : gmap string pyval)
    (init_dict : list (string * pyval)) : exc + list (string * pyval) :=
  match init_dict with
  | [] => inr []
  | (k, v) :: init_dict' =>
      match load_module passed_class_obj k v with
      | inl e => inl e
      | inr keep =>
          match loadable passed_class_obj init_dict' with
          | inl e => inl e
          | inr kept => inr (if keep then (k, v) :: kept else kept)
          end
      end
  end.

(** What is known before the loading loop starts (lines 429-450). *)
Record selection : Type := {
  expected_modules : gset string;
  optional_kwargs : gset string;
  passed_class_obj : gmap string pyval;
  remaining_kwargs : gmap string pyval;
  extracted : list (string * pyval);    (* [init_dict] as [extract_init_dict] returned it *)
  init_dict : list (string * pyval);    (* [init_dict] after line 450 *)
  init_kwargs : gmap string pyval
}.

Definition taken_as_kwarg (cls : pipeline_class) (optional_kwargs : gset string)
    (kv : string * pyval) : Prop :=
  kv.1 ∈ optional_kwargs ∧ kv.1 ∉ optional_components cls.

#[local] Instance taken_as_kwarg_dec cls optional_kwargs kv :
  Decision (taken_as_kwarg cls optional_kwargs kv).
Proof. unfold taken_as_kwarg. apply _. Defined.

Definition select_components (cls pipeline_cls : pipeline_class)
    (config_dict : list (string * pyval)) (kwargs : gmap string pyval) : M selection :=
  let '(expected_modules, optional_kwargs) := get_signature_keys w pipeline_cls cls in
  let '(passed_class_obj, kwargs) := pop_all expected_modules kwargs in
  let '(passed_pipe_kwargs, kwargs) := pop_all optional_kwargs kwargs in
  let! extracted :=
    ask (EvExtractInitDict config_dict kwargs)
        (extract_init_dict w pipeline_cls config_dict kwargs) in
  let init_kwargs : gmap string pyval :=
    list_to_map (filter (taken_as_kwarg cls optional_kwargs) extracted) in
  let init_dict := filter (λ kv, ¬ taken_as_kwarg cls optional_kwargs kv) extracted in
  let init_kwargs := passed_pipe_kwargs ∪ init_kwargs in
  let! init_dict := lift (loadable passed_class_obj init_dict) in
  ret {| expected_modules := expected_modules; optional_kwargs := optional_kwargs;
         passed_class_obj := passed_class_obj; remaining_kwargs := kwargs;
         extracted := extracted; init_dict := init_dict; init_kwargs := init_kwargs |}.

(** Unpacking a manifest value into [(library_name, class_name)] (line 452).
    A two-character string unpacks into its characters. *)
Definition unpack_spec (value : pyval) : exc + (option string * option string) :=
  match value with
  | PPair library_name class_name => inr (library_name, class_name)
  | PStr (String c1 (String c2 EmptyString)) =>
      inr (Some (String c1 EmptyString), Some (String c2 EmptyString))
  | PStr _ => inl (ValueError CannotUnpack)
  | _ => inl TypeError
  end.

(** The keywords the call of lines 460-474 gives by name. *)
Definition sub_model_keywords : list string :=
  ["checkpoint"; "library_name"; "class_name"; "pretrained_model_name_or_path";
   "is_pipeline_module"; "pipelines"; "name"; "torch_dtype"; "original_config";
   "local_files_only"; "use_safetensors"; "is_legacy_loading"].

(** [f(k=v, **kwargs)] with [k] in [kwargs]: the interpreter raises
    [TypeError] for the keyword given twice, before [f] is entered. *)
Definition given_twice (keywords : list string) (kwargs : gmap string pyval) : bool :=
  bool_decide (Exists (λ k, is_Some (kwargs !! k)) keywords).

(** The loading loop (lines 452-476).  [class_name] is the loop variable: it
    is unbound until the first iteration and keeps its last value after. *)
Fixpoint load_components (a : arguments) (ckpt : checkpoint)
    (default_pretrained_model_name_or_path : string) (original_config : pyval)
    (is_legacy_loading : bool) (passed_class_obj kwargs : gmap string pyval)
    (init_dict : list (string * pyval)) (init_kwargs : gmap string pyval)
    (class_name_var : option (option string))
  : M (gmap string pyval * option (option string)) :=
  match init_dict with
  | [] => ret (init_kwargs, class_name_var)
  | (name, value) :: init_dict' =>
      let! (library_name, class_name) := lift (unpack_spec value) in
      match library_name with
      | None => raise TypeError           (* [hasattr(pipelines, None)] *)
      | Some library_name =>
          let is_pipeline_mod := is_pipeline_module w library_name in
          let! loaded_sub_model :=
            match passed_class_obj !! name with
            | Some instance => ret instance
            | None =>
                if given_twice sub_model_keywords kwargs then raise TypeError
                else
                  load_single_file_sub_model library_name class_name
                    (PStr default_pretrained_model_name_or_path) name ckpt
                    is_pipeline_mod original_config (local_files_only a)
                    (torch_dtype a) (use_safetensors a) is_legacy_loading kwargs
            end in
          load_components a ckpt default_pretrained_model_name_or_path original_config
            is_legacy_loading passed_class_obj kwargs init_dict'
            (<[ name := loaded_sub_model ]> init_kwargs) (Some class_name)
      end
  end.

(** [for module in missing_modules: init_kwargs[module] = passed_class_obj.get(module, None)] *)
Definition fill_missing (passed_class_obj : gmap string pyval)
    (missing_modules : list string) (init_kwargs : gmap string pyval) : gmap string pyval :=
  foldr (λ module acc, <[ module := default PNone (passed_class_obj !! module) ]> acc)
        init_kwargs missing_modules.

(** [set(expected_modules) - set(init_kwargs.keys())] (line 478) *)
Definition missing_modules (sel : selection) (init_kwargs : gmap string pyval)
  : gset string :=
  expected_modules sel ∖ dom init_kwargs.

(** Lines 478-489. *)
Definition check_missing_modules (pipeline_cls : pipeline_class) (sel : selection)
    (init_kwargs : gmap string pyval) : M (gmap string pyval) :=
  let missing_modules : gset string := missing_modules sel init_kwargs in
  let passed_modules : gset string := dom (passed_class_obj sel) in
  let optional_modules : gset string := list_to_set (optional_components pipeline_cls) in
  if bool_decide (0 < size missing_modules)
     && bool_decide (missing_modules ⊆ passed_modules ∪ optional_modules) then
    ret (fill_missing (passed_class_obj sel) (elements missing_modules) init_kwargs)
  else if bool_decide (0 < size missing_modules) then
    let passed_modules : gset string :=
      (dom init_kwargs ∪ dom (passed_class_obj sel)) ∖ optional_kwargs sel in
    raise (ValueError (PipelineExpected (pipe_name pipeline_cls)
                         (expected_modules sel) passed_modules))
  else ret init_kwargs.

(** Lines 491-503: the deprecated [load_safety_checker] argument. *)
Definition legacy_safety_checker (a : arguments) (kwargs init_kwargs : gmap string pyval)
  : M (gmap string pyval) :=
  let load_safety_checker := default PNone (kwargs !! "load_safety_checker") in
  if negb (is_None load_safety_checker) then
    emit (EvDeprecate "load_safety_checker") ;;
    let! safety_checker_components :=
      _legacy_load_safety_checker (local_files_only a) (torch_dtype a) in
    ret (safety_checker_components ∪ init_kwargs)
  else ret init_kwargs.

(** Lines 505-521: the deprecated [scheduler_type] argument.  The first
    argument of the legacy constructor is the loop variable [class_name]. *)
Definition legacy_scheduler (ckpt : checkpoint) (original_config prediction_type : pyval)
    (class_name_var : option (option string)) (kwargs init_kwargs : gmap string pyval)
  : M (gmap string pyval) :=
  let scheduler_type := default PNone (kwargs !! "scheduler_type") in
  if negb (is_None scheduler_type) then
    emit (EvDeprecate "scheduler_type") ;;
    match class_name_var with
    | None => raise (NameError "class_name")
    | Some class_name =>
        let! scheduler_components :=
          ask (EvLegacyScheduler class_name original_config scheduler_type prediction_type)
              (legacy_load_scheduler_from_scheduler_type w class_name ckpt
                 original_config scheduler_type prediction_type) in
        ret (scheduler_components ∪ init_kwargs)
    end
  else ret init_kwargs.

(** Lines 523-528. *)
Definition construct (pipeline_cls : pipeline_class) (a : arguments)
    (init_kwargs : gmap string pyval) : M pyval :=
  let! pipe := call (EvConstruct (pipe_name pipeline_cls) init_kwargs) in
  (if negb (is_None (torch_dtype a)) then call (EvTo (torch_dtype a)) else ret PNone) ;;
  ret pipe.

(** What lines 317-450 establish: the arguments, the pipeline class, the
    checkpoint, the fetched original config, the identity and provenance of
    the manifest, and the components selected for loading. *)
Record plan : Type := {
  args : arguments;
  pipeline_cls : pipeline_class;
  ckpt : checkpoint;
  fetched_original_config : pyval;
  default_pretrained_model_name_or_path : string;
  is_legacy_loading : bool;
  sel : selection
}.

Definition prepare (cls : pipeline_class) (pretrained_model_link_or_path : string)
    (kwargs : gmap string pyval) : M plan :=
  let a := parse_arguments kwargs in
  let! (original_config, pipeline_cls, ckpt) :=
    acquire cls pretrained_model_link_or_path a in
  let! (default_pretrained_model_name_or_path, config_dict, is_legacy_loading) :=
    resolve_config_dict cls pipeline_cls a ckpt in
  let! sel := select_components cls pipeline_cls config_dict (rest a) in
  ret {| args := a; pipeline_cls := pipeline_cls; ckpt := ckpt;
         fetched_original_config := original_config;
         default_pretrained_model_name_or_path := default_pretrained_model_name_or_path;
         is_legacy_loading := is_legacy_loading; sel := sel |}.

(** The loading loop on the selected components. *)
Definition load_plan (pl : plan) : M (gmap string pyval * option (option string)) :=
  load_components (args pl) (ckpt pl) (default_pretrained_model_name_or_path pl)
    (fetched_original_config pl) (is_legacy_loading pl)
    (passed_class_obj (sel pl)) (remaining_kwargs (sel pl))
    (init_dict (sel pl)) (init_kwargs (sel pl)) None.

(** [prediction_type = kwargs.get("prediction_type", None)] (line 352) *)
Definition prediction_type (a : arguments) : pyval :=
  default PNone (rest a !! "prediction_type").

(** Lines 491-528: the two deprecated paths, then the constructor. *)
Definition finish (pl : plan) (class_name_var : option (option string))
    (init_kwargs : gmap string pyval) : M pyval :=
  let! init_kwargs :=
    legacy_safety_checker (args pl) (remaining_kwargs (sel pl)) init_kwargs in
  let! init_kwargs :=
    legacy_scheduler (ckpt pl) (fetched_original_config pl) (prediction_type (args pl))
      class_name_var (remaining_kwargs (sel pl)) init_kwargs in
  construct (pipeline_cls pl) (args pl) init_kwargs.

(** Lines 452-528. *)
Definition assemble (pl : plan) : M pyval :=
  let! (init_kwargs, class_name_var) := load_plan pl in
  let! init_kwargs := check_missing_modules (pipeline_cls pl) (sel pl) init_kwargs in
  finish pl class_name_var init_kwargs.

Definition from_single_file (cls : pipeline_class)
    (pretrained_model_link_or_path : string) (kwargs : gmap string pyval) : M pyval :=
  let! pl := prepare cls pretrained_model_link_or_path kwargs in
  assemble pl.

End Loader.

(** ** A sample world: a Stable-Diffusion-like pipeline *)

Module Sample.

Definition mk_class (name : string) (ptm tok fom mm sm nn fp : bool) : class_obj :=
  {| cname := name; sub_PreTrainedModel := ptm; sub_PreTrainedTokenizer := tok;
     sub_FromOriginalModelMixin := fom; sub_ModelMixin := mm; sub_SchedulerMixin := sm;
     sub_nn_Module := nn; has_from_pretrained := fp |}.

Definition UNet2DConditionModel := mk_class "UNet2DConditionModel" false false true true false true true.
Definition AutoencoderKL := mk_class "AutoencoderKL" false false true true false true true.
Definition CLIPTextModel := mk_class "CLIPTextModel" true false false false false true true.
Definition CLIPTokenizer := mk_class "CLIPTokenizer" false true false false false false true.
Definition PNDMScheduler := mk_class "PNDMScheduler" false false false false true false true.
Definition DDIMScheduler := mk_class "DDIMScheduler" false false false false true false true.
Definition KarrasDiffusionSchedulers :=
  mk_class "KarrasDiffusionSchedulers" false false false false false false false.
Definition StableDiffusionSafetyChecker :=
  mk_class "StableDiffusionSafetyChecker" true false false false false true true.
Definition CLIPImageProcessor := mk_class "CLIPImageProcessor" false false false false false false true.
Definition CLIPVisionModelWithProjection :=
  mk_class "CLIPVisionModelWithProjection" true false false false false true true.
Definition python_bool := mk_class "bool" false false false false false false false.
(** A class with no loading method at all. *)
Definition PlainObject := mk_class "PlainObject" false false false false false false false.
(** A transformer block kept as a diffusers model without single-file support. *)
Definition PriorTransformer := mk_class "PriorTransformer" false false false true false true true.

Definition classes : list class_obj :=
  [UNet2DConditionModel; AutoencoderKL; CLIPTextModel; CLIPTokenizer; PNDMScheduler;
   DDIMScheduler; StableDiffusionSafetyChecker; CLIPImageProcessor;
   CLIPVisionModelWithProjection; PlainObject; PriorTransformer].

Definition find_class (class_name : option string) : exc + class_obj :=
  match class_name with
  | None => inl TypeError
  | Some n =>
      match List.find (λ c, String.eqb (cname c) n) classes with
      | Some c => inr c
      | None => inl (OtherError "AttributeError")
      end
  end.

Definition StableDiffusionPipeline : pipeline_class :=
  {| pipe_name := "StableDiffusionPipeline"; config_name := "model_index.json";
     optional_components := ["safety_checker"; "feature_extractor"; "image_encoder"] |}.

Definition sd_expected : gset string :=
  list_to_set ["vae"; "text_encoder"; "tokenizer"; "unet"; "scheduler";
               "safety_checker"; "feature_extractor"; "image_encoder"].
Definition sd_optional : gset string := {[ "requires_safety_checker" ]}.

Definition sd_manifest : list (string * pyval) :=
  [("_class_name", PStr "StableDiffusionPipeline");
   ("_ignore_files", PStr "x");
   ("feature_extractor", PPair (Some "transformers") (Some "CLIPImageProcessor"));
   ("image_encoder", PPair None None);
   ("requires_safety_checker", PBool true);
   ("safety_checker", PPair (Some "stable_diffusion") (Some "StableDiffusionSafetyChecker"));
   ("scheduler", PPair (Some "diffusers") (Some "PNDMScheduler"));
   ("text_encoder", PPair (Some "transformers") (Some "CLIPTextModel"));
   ("tokenizer", PPair (Some "transformers") (Some "CLIPTokenizer"));
   ("unet", PPair (Some "diffusers") (Some "UNet2DConditionModel"));
   ("vae", PPair (Some "diffusers") (Some "AutoencoderKL"))].

(** The same manifest with a null spec for the UNet. *)
Definition sd_manifest_null_unet : list (string * pyval) :=
  Dict.set "unet" (PPair None None) sd_manifest.

Definition sd_signature_types : list (string * list class_obj) :=
  [("vae", [AutoencoderKL]); ("text_encoder", [CLIPTextModel]);
   ("tokenizer", [CLIPTokenizer]); ("unet", [UNet2DConditionModel]);
   ("scheduler", [KarrasDiffusionSchedulers]);
   ("safety_checker", [StableDiffusionSafetyChecker]);
   ("feature_extractor", [CLIPImageProcessor]);
   ("image_encoder", [CLIPVisionModelWithProjection]);
   ("requires_safety_checker", [python_bool])].

(** Modelled from the spec: [ConfigMixin.extract_init_dict] is not among the
    sources.  The manifest maps component names to [library, class] pairs and
    is partitioned by the constructor's declared signature, so the sample
    keeps the manifest entries named in the signature, in manifest order. *)
Definition sample_extract_init_dict (init_keys : gset string)
    (config_dict : list (string * pyval)) : list (string * pyval) :=
  filter (λ kv, kv.1 ∈ init_keys) config_dict.

Definition clip_key : string :=
  "cond_stage_model.transformer.text_model.embeddings.position_embedding.weight".

Definition sd_checkpoint : checkpoint := [clip_key; "model.diffusion_model.x"].

Definition answer (ev : event) : exc + pyval :=
  match ev with
  | EvFetchOriginalConfig _ _ => inr (PObj "original_config")
  | EvFromSingleFile c n _ _ _ _ _ => inr (PObj ("from_single_file:" +:+ c))
  | EvClipFromLdm c n _ _ _ _ => inr (PObj ("clip_from_ldm:" +:+ c))
  | EvFromPretrained c n _ _ _ _ => inr (PObj ("from_pretrained:" +:+ c))
  | EvLegacyFeatureExtractor _ => inr (PObj "default_feature_extractor")
  | EvLegacySafetyChecker _ _ => inr (PObj "default_safety_checker")
  | EvConstruct p _ => inr (PObj p)
  | _ => inr PNone
  end.

(** [cached] tells whether the hub cache holds the manifest; [manifest] is
    the manifest found in directories and in the cache. *)
Definition world (cached : bool) (manifest : list (string * pyval)) : World :=
  {| transformers_available := true;
     transformers_version_ok := true;
     is_pipeline_module := λ l, String.eqb l "stable_diffusion";
     pipeline_module_class := λ _ c, find_class c;
     library_class := λ _ c, find_class c;
     is_clip_model_in_single_file :=
       λ c ckpt, String.eqb (cname c) "CLIPTextModel" && bool_decide (clip_key ∈ ckpt);
     invoke := answer;
     get_pipeline_class := λ cls, inr cls;
     load_single_file_checkpoint := λ _ _, inr sd_checkpoint;
     fetch_diffusers_config := λ _, inr (PStr "runwayml/stable-diffusion-v1-5");
     isdir := λ p, String.eqb p "./models/sd/v1-5";
     hf_hub_download :=
       λ _ f _, if cached then inr f else inl LocalEntryNotFoundError;
     dict_from_json_file := λ _ _, inr manifest;
     load_config := λ _ _, inr manifest;
     get_signature_types := λ _, sd_signature_types;
     get_signature_keys := λ _ _, (sd_expected, sd_optional);
     extract_init_dict :=
       λ _ d _, inr (sample_extract_init_dict (sd_expected ∪ sd_optional) d);
     legacy_load_scheduler_from_scheduler_type :=
       λ _ _ _ _ _, inr {[ "scheduler" := PObj "legacy_scheduler" ]} |}.

End Sample.

(** ** Vocabulary of the properties *)

(** A library name the synthesis can produce. *)
Definition synthesized_library (v : pyval) : Prop :=
  ∃ library_name class_name, v = PPair library_name class_name ∧
    (library_name = Some "diffusers" ∨ library_name = Some "transformers"
     ∨ library_name = None).

(** The strings a [ValueError] message of this module names. *)
Definition mentions (m : message) (s : string) : Prop :=
  match m with
  | OnlyOneOfConfig | CannotUnpack => False
  | NeitherPathNorRepoId p => s = p
  | NoSupportedLoadingMethod class_name => s = class_name
  | PipelineExpected pipeline expected passed =>
      s = pipeline ∨ s ∈ expected ∨ s ∈ passed
  end.

(** The component sets a [ValueError] message of this module prints. *)
Definition printed_sets (m : message) : list (gset string) :=
  match m with
  | PipelineExpected _ expected passed => [expected; passed]
  | _ => []
  end.

(** The calls made while acquiring: notices, the original config, the checkpoint. *)
Definition is_acquisition (ev : event) : bool :=
  match ev with
  | EvDeprecate _ | EvFetchOriginalConfig _ _ | EvLoadCheckpoint _ _ => true
  | _ => false
  end.

(** The calls made before the loading loop (lines 317-450). *)
Definition is_preparation (ev : event) : bool :=
  match ev with
  | EvDeprecate a =>
      bool_decide (a ∈ ["original_config_file"; "scaling_factor"; "prediction_type"])
  | EvWarning (InferredComponents _)
  | EvFetchOriginalConfig _ _ | EvLoadCheckpoint _ _ | EvFetchDiffusersConfig
  | EvIsDir _ | EvHubDownload _ _ _ | EvDictFromJsonFile _ | EvLoadConfig _
  | EvExtractInitDict _ _ => true
  | _ => false
  end.

(** The calls made by the loading loop (lines 452-476). *)
Definition is_loading (ev : event) : bool :=
  match ev with
  | EvWarning (FallbackToPretrained _ _ _) => true
  | _ => is_component_load ev
  end.

(** The calls made after the missing-modules check (lines 491-528). *)
Definition is_finishing (ev : event) : bool :=
  match ev with
  | EvDeprecate a => bool_decide (a ∈ ["load_safety_checker"; "scheduler_type"])
  | EvConstruct _ _ | EvTo _ => true
  | _ => is_legacy_call ev
  end.




(** The keyword sets of the constructor calls of a trace. *)
Fixpoint constructed (t : list event) : list (gmap string pyval) :=
  match t with
  | [] => []
  | EvConstruct _ init_kwargs :: t' => init_kwargs :: constructed t'
  | _ :: t' => constructed t'
  end.

(** The value a computation ends with, or [d] if it raises. *)
Definition value_or {A} (d : A) (m : M A) : A :=
  match m.2 with inr a => a | inl _ => d end.

Module Runs.
Import Sample.

(** A plan to stand for the plan of a preparation that raised. *)
Definition no_plan : plan :=
  {| args := parse_arguments ∅; pipeline_cls := StableDiffusionPipeline; ckpt := [];
     fetched_original_config := PNone; default_pretrained_model_name_or_path := "";
     is_legacy_loading := false;
     sel := {| expected_modules := ∅; optional_kwargs := ∅; passed_class_obj := ∅;
               remaining_kwargs := ∅; extracted := []; init_dict := [];
               init_kwargs := ∅ |} |}.

(** The stages of a call in a sample world, up to the constructor. *)
Section Stages.
Context (w : World) (kwargs : gmap string pyval).

Definition prepared : M plan :=
  prepare w StableDiffusionPipeline "./v1-5-pruned-emaonly" kwargs.
Definition the_plan : plan := value_or no_plan prepared.
Definition loaded : M (gmap string pyval * option (option string)) :=
  load_plan w the_plan.
Definition loaded_kwargs : gmap string pyval := (value_or (∅, None) loaded).1.
Definition loop_variable : option (option string) := (value_or (∅, None) loaded).2.
Definition checked : M (gmap string pyval) :=
  check_missing_modules (pipeline_cls the_plan) (sel the_plan) loaded_kwargs.
Definition checked_kwargs : gmap string pyval := value_or ∅ checked.
Definition safety_checked : M (gmap string pyval) :=
  legacy_safety_checker w (args the_plan) (remaining_kwargs (sel the_plan)) checked_kwargs.
End Stages.
End Runs.

(** ** Vocabulary of the further properties *)

(** The spec the synthesis gives a class, read as one precedence list:
    a diffusers model, then the scheduler enum, then a scheduler, then a
    transformers model or tokenizer, else the null spec. *)
Definition component_spec (w : World) (c : class_obj) : pyval :=
  if sub_ModelMixin c then PPair (Some "diffusers") (Some (cname c))
  else if String.eqb (cname c) "KarrasDiffusionSchedulers"
    then PPair (Some "diffusers") (Some "DDIMScheduler")
  else if sub_SchedulerMixin c then PPair (Some "diffusers") (Some (cname c))
  else if is_transformers_model w c || is_transformers_tokenizer w c
    then PPair (Some "transformers") (Some (cname c))
  else PPair None None.

(** The keywords [from_single_file] pops for itself (lines 317-338). *)
Definition named_arguments : list string :=
  ["original_config_file"; "config"; "original_config"; "resume_download";
   "force_download"; "proxies"; "token"; "cache_dir"; "local_files_only";
   "revision"; "torch_dtype"; "local_dir"; "use_safetensors"].

(** The component a loading call is for. *)
Definition loaded_component (ev : event) : option string :=
  match ev with
  | EvFromSingleFile _ n _ _ _ _ _ | EvClipFromLdm _ n _ _ _ _
  | EvFromPretrained _ n _ _ _ _ => Some n
  | _ => None
  end.

(** The sub-model call of the loading loop for the component [name] (lines 460-474). *)
Definition sub_model_call (w : World) (pl : plan) (name library_name : string)
    (class_name : option string) : M pyval :=
  load_single_file_sub_model w library_name class_name
    (PStr (default_pretrained_model_name_or_path pl)) name (ckpt pl)
    (is_pipeline_module w library_name) (fetched_original_config pl)
    (local_files_only (args pl)) (torch_dtype (args pl)) (use_safetensors (args pl))
    (is_legacy_loading pl) (remaining_kwargs (sel pl)).


(** The constructor call and the cast that follows it (lines 523-526). *)
Definition is_construction (ev : event) : bool :=
  match ev with
  | EvConstruct _ _ | EvTo _ => true
  | _ => false
  end.

(** The [local_files_only] argument of a call that takes one, by name or
    inside its transport keywords. *)
Definition local_files_only_of (ev : event) : option pyval :=
  match ev with
  | EvFetchOriginalConfig _ l | EvFromSingleFile _ _ _ _ _ l _
  | EvClipFromLdm _ _ _ _ l _ | EvFromPretrained _ _ _ l _ _
  | EvLegacyFeatureExtractor l | EvLegacySafetyChecker l _ => Some l
  | EvLoadCheckpoint _ transport | EvHubDownload _ _ transport =>
      transport !! "local_files_only"
  | _ => None
  end.

(** The calls that are given [local_files_only]. *)
Definition takes_local_files_only (ev : event) : bool :=
  match ev with
  | EvFetchOriginalConfig _ _ | EvFromSingleFile _ _ _ _ _ _ _
  | EvClipFromLdm _ _ _ _ _ _ | EvFromPretrained _ _ _ _ _ _
  | EvLegacyFeatureExtractor _ | EvLegacySafetyChecker _ _
  | EvLoadCheckpoint _ _ | EvHubDownload _ _ _ => true
  | _ => false
  end.

(** The same world on an installation without [transformers]. *)
Definition without_transformers (w : World) : World :=
  {| transformers_available := false;
     transformers_version_ok := transformers_version_ok w;
     is_pipeline_module := is_pipeline_module w;
     pipeline_module_class := pipeline_module_class w;
     library_class := library_class w;
     is_clip_model_in_single_file := is_clip_model_in_single_file w;
     invoke := invoke w;
     get_pipeline_class := get_pipeline_class w;
     load_single_file_checkpoint := load_single_file_checkpoint w;
     fetch_diffusers_config := fetch_diffusers_config w;
     isdir := isdir w;
     hf_hub_download := hf_hub_download w;
     dict_from_json_file := dict_from_json_file w;
     load_config := load_config w;
     get_signature_types := get_signature_types w;
     get_signature_keys := get_signature_keys w;
     extract_init_dict := extract_init_dict w;
     legacy_load_scheduler_from_scheduler_type :=
       legacy_load_scheduler_from_scheduler_type w |}.

(** The same world with a hub that answers every download with [e]. *)
Definition with_hub_error (e : exc) (w : World) : World :=
  {| transformers_available := transformers_available w;
     transformers_version_ok := transformers_version_ok w;
     is_pipeline_module := is_pipeline_module w;
     pipeline_module_class := pipeline_module_class w;
     library_class := library_class w;
     is_clip_model_in_single_file := is_clip_model_in_single_file w;
     invoke := invoke w;
     get_pipeline_class := get_pipeline_class w;
     load_single_file_checkpoint := load_single_file_checkpoint w;
     fetch_diffusers_config := fetch_diffusers_config w;
     isdir := isdir w;
     hf_hub_download := λ _ _ _, inl e;
     dict_from_json_file := dict_from_json_file w;
     load_config := load_config w;
     get_signature_types := get_signature_types w;
     get_signature_keys := get_signature_keys w;
     extract_init_dict := extract_init_dict w;
     legacy_load_scheduler_from_scheduler_type :=
       legacy_load_scheduler_from_scheduler_type w |}.

(** * Properties *)

(** ** Computations *)

Section Computations.
Context {A B : Type}.
Implicit Types (m : M A) (f : A → M B).

Lemma bind_raise m f t e : m = (t, inl e) → bind m f = (t, inl e).
Proof. by intros ->. Qed.

Lemma bind_value m f t a : m = (t, inr a) → bind m f = (t ++ (f a).1, (f a).2).
Proof. by intros ->. Qed.

Lemma bind_value_inv m f t b :
  bind m f = (t, inr b) →
  ∃ t1 a t2, m = (t1, inr a) ∧ f a = (t2, inr b) ∧ t = t1 ++ t2.
Proof.
  destruct m as [t1 [e|a]]; simpl; [by intros [=]|].
  intros [= <- Hb]. exists t1, a, (f a).1. split_and!; [done| |done].
  rewrite <- Hb. by destruct (f a).
Qed.

Lemma elem_of_trace_bind ev m f :
  ev ∈ trace (bind m f) ↔
  ev ∈ trace m ∨ ∃ a, outcome m = inr a ∧ ev ∈ trace (f a).
Proof.
  destruct m as [t [e|a]]; unfold trace, outcome; simpl.
  - split; [by left|]. intros [?|(a & [=] & _)]; done.
  - rewrite elem_of_app. split.
    + intros [?|?]; [by left|right; by exists a].
    + intros [?|(a' & [= <-] & ?)]; [by left|by right].
Qed.

Lemma trace_bind_prefix m f : trace m `prefix_of` trace (bind m f).
Proof.
  destruct m as [t [e|a]]; unfold trace; simpl; [done|]. by apply prefix_app_r.
Qed.
End Computations.

Section TraceInvariants.
Context (P : event → Prop).

Lemma Forall_trace_bind {A B} (m : M A) (f : A → M B) :
  Forall P (trace m) → (∀ a, outcome m = inr a → Forall P (trace (f a))) →
  Forall P (trace (bind m f)).
Proof.
  intros Hm Hf. rewrite Forall_forall. intros ev [?|(a & Ha & ?)]%elem_of_trace_bind.
  - rewrite Forall_forall in Hm. by apply Hm.
  - specialize (Hf a Ha). rewrite Forall_forall in Hf. by apply Hf.
Qed.

Lemma Forall_trace_ret {A} (a : A) : Forall P (trace (ret a)).
Proof. constructor. Qed.

Lemma Forall_trace_raise {A} e : Forall P (trace (@raise A e)).
Proof. constructor. Qed.

Lemma Forall_trace_lift {A} (r : exc + A) : Forall P (trace (lift r)).
Proof. constructor. Qed.

Lemma Forall_trace_emit ev : P ev → Forall P (trace (emit ev)).
Proof. by repeat constructor. Qed.

Lemma Forall_trace_ask {A} ev (r : exc + A) : P ev → Forall P (trace (ask ev r)).
Proof. by repeat constructor. Qed.

Lemma Forall_trace_call w ev : P ev → Forall P (trace (call w ev)).
Proof. by repeat constructor. Qed.
End TraceInvariants.

(** Walks a computation and leaves one goal for each call it can make. *)
Ltac walk_trace :=
  repeat first
    [ apply Forall_trace_ret | apply Forall_trace_raise | apply Forall_trace_lift
    | apply Forall_trace_emit | apply Forall_trace_ask | apply Forall_trace_call
    | apply Forall_trace_bind; [|intros ? _]
    | match goal with
      | |- Forall _ (trace (if ?b then _ else _)) => destruct b
      | |- Forall _ (trace (match ?x with _ => _ end)) => destruct x
      end ].

Lemma surjective_M {A} (m : M A) : m = (trace m, outcome m).
Proof. by destruct m. Qed.

(** ** Manifest synthesis *)

Section Synthesis.
Context (w : World).

Lemma elem_of_dict_set {V} k (v : V) d kv :
  kv ∈ Dict.set k v d → kv = (k, v) ∨ kv ∈ d.
Proof.
  induction d as [|[k' v'] d IH]; simpl.
  - intros ?%list_elem_of_singleton. by left.
  - destruct (String.eqb k k').
    + intros [->|?]%elem_of_cons; [by left|right; by constructor].
    + intros [->|[->|?]%IH]%elem_of_cons;
        [right; by constructor|by left|right; by constructor].
Qed.

Lemma component_branch_not_safety_checker c :
  component_branch w c ≠ BrSafetyChecker.
Proof.
  unfold component_branch.
  destruct (sub_ModelMixin c); [done|].
  destruct (String.eqb (cname c) "KarrasDiffusionSchedulers"); [done|].
  destruct (sub_SchedulerMixin c); [done|]. simpl.
  destruct (is_transformers_model w c); simpl; [done|].
  by destruct (is_transformers_tokenizer w c).
Qed.

Lemma branch_spec_library c spec :
  branch_spec (component_branch w c) c = Some spec → synthesized_library spec.
Proof.
  pose proof (component_branch_not_safety_checker c) as Hdead.
  destruct (component_branch w c); simpl; intros [= <-]; try done;
    eexists _, _; split; eauto.
Qed.

Lemma map_component_types_library items acc config_dict :
  (∀ kv, kv ∈ acc → synthesized_library kv.2) →
  map_component_types w items acc = inr config_dict →
  ∀ kv, kv ∈ config_dict → synthesized_library kv.2.
Proof.
  revert acc. induction items as [|[k tys] items IH]; intros acc Hacc; simpl.
  - by intros [= <-].
  - destruct tys as [|c tys]; [done|]. apply IH.
    destruct (branch_spec (component_branch w c) c) as [spec|] eqn:Hspec; [|done].
    intros kv [->|?]%elem_of_dict_set; [|by apply Hacc].
    by apply branch_spec_library in Hspec.
Qed.

(** C9. In [_map_component_types_to_config_dict] the guard of the
    [StableDiffusionSafetyChecker] branch implies the guard of the [elif]
    before it, so that branch is taken for no class, and every synthesized
    component spec has library ["diffusers"], ["transformers"] or [None]. *)
Theorem safety_checker_branch_is_dead :
  (∀ c, is_transformers_model w c
          && String.eqb (cname c) "StableDiffusionSafetyChecker" = true →
        is_transformers_model w c || is_transformers_tokenizer w c = true) ∧
  (∀ c, component_branch w c ≠ BrSafetyChecker) ∧
  (∀ component_types config_dict,
     _map_component_types_to_config_dict w component_types = inr config_dict →
     ∀ component_name spec, (component_name, spec) ∈ config_dict →
       synthesized_library spec).
Proof.
  split_and!.
  - intros c [-> _]%andb_true_iff. done.
  - apply component_branch_not_safety_checker.
  - intros types config_dict Hmap k v Hin.
    apply (map_component_types_library (Dict.remove "self" types) [] config_dict
             ltac:(by intros ? ?%elem_of_nil) Hmap (k, v) Hin).
Qed.

End Synthesis.

Lemma safety_checker_branch_is_dead_witness :
  synthesized_library (PPair (Some "transformers") (Some "StableDiffusionSafetyChecker")).
Proof.
  pose proof (safety_checker_branch_is_dead (Sample.world false [])) as (_ & _ & H).
  refine (H [("safety_checker", [Sample.StableDiffusionSafetyChecker])] _ _
            "safety_checker" _ _).
  - vm_compute. reflexivity.
  - apply list_elem_of_here.
Defined.

(** ** The sub-model loader *)

Section SubModel.
Context (w : World) (library_name : string) (class_name : option string)
  (pretrained_model_name_or_path : pyval) (name : string) (ckpt : checkpoint)
  (is_pipeline_mod : bool)
  (original_config local_files_only torch_dtype use_safetensors : pyval)
  (is_legacy_loading : bool) (kwargs : gmap string pyval).

Local Abbreviation run :=
  (load_single_file_sub_model w library_name class_name pretrained_model_name_or_path
     name ckpt is_pipeline_mod original_config local_files_only torch_dtype
     use_safetensors is_legacy_loading kwargs).

Local Abbreviation resolved := (resolve_class_obj w is_pipeline_mod library_name class_name).

Local Abbreviation native c :=
  (EvFromSingleFile (cname c) name original_config
     (if truthy original_config then PNone else pretrained_model_name_or_path)
     torch_dtype local_files_only kwargs).

Local Abbreviation clip c :=
  (EvClipFromLdm (cname c) name pretrained_model_name_or_path torch_dtype
     local_files_only is_legacy_loading).

Local Abbreviation generic c :=
  (EvFromPretrained (cname c) name pretrained_model_name_or_path local_files_only
     use_safetensors
     (if sub_nn_Module c then {[ "torch_dtype" := torch_dtype ]} else ∅)).

Lemma sub_model_unresolved e : resolved = inl e → run = ([], inl e).
Proof. unfold load_single_file_sub_model. by intros ->. Qed.

Lemma sub_model_native c :
  resolved = inr c → sub_FromOriginalModelMixin c = true →
  run = ([native c], invoke w (native c)).
Proof. unfold load_single_file_sub_model. intros -> Hc. simpl. by rewrite Hc. Qed.

Lemma sub_model_clip c :
  resolved = inr c → sub_FromOriginalModelMixin c = false →
  is_transformers_model w c && is_clip_model_in_single_file w c ckpt = true →
  run = ([clip c], invoke w (clip c)).
Proof.
  unfold load_single_file_sub_model. intros -> Hc Hclip. simpl. by rewrite Hc, Hclip.
Qed.

Lemma sub_model_generic c :
  resolved = inr c → sub_FromOriginalModelMixin c = false →
  is_transformers_model w c && is_clip_model_in_single_file w c ckpt = false →
  has_from_pretrained c = true →
  run = ((if sub_ModelMixin c
          then [EvWarning (FallbackToPretrained name (cname c) pretrained_model_name_or_path)]
          else []) ++ [generic c],
         invoke w (generic c)).
Proof.
  unfold load_single_file_sub_model. intros -> Hc Hclip Hfp. simpl.
  rewrite Hc, Hclip, Hfp. simpl. by destruct (sub_ModelMixin c).
Qed.

Lemma sub_model_unsupported c :
  resolved = inr c → sub_FromOriginalModelMixin c = false →
  is_transformers_model w c && is_clip_model_in_single_file w c ckpt = false →
  has_from_pretrained c = false →
  run = ([], inl (ValueError (NoSupportedLoadingMethod (cname c)))).
Proof.
  unfold load_single_file_sub_model. intros -> Hc Hclip Hfp. simpl.
  by rewrite Hc, Hclip, Hfp.
Qed.

(** The shape of every run, by the capability of the resolved class. *)
Lemma sub_model_cases :
  (∃ e, resolved = inl e ∧ run = ([], inl e)) ∨
  ∃ c, resolved = inr c ∧
    (run = ([native c], invoke w (native c)) ∨
     run = ([clip c], invoke w (clip c)) ∨
     run = ([generic c], invoke w (generic c)) ∨
     run = ([EvWarning (FallbackToPretrained name (cname c) pretrained_model_name_or_path);
             generic c], invoke w (generic c)) ∨
     run = ([], inl (ValueError (NoSupportedLoadingMethod (cname c))))).
Proof.
  destruct resolved as [e|c] eqn:Hres; [left; eauto using sub_model_unresolved|].
  right. exists c. split; [done|].
  destruct (sub_FromOriginalModelMixin c) eqn:Hc; [left; by apply sub_model_native|].
  destruct (is_transformers_model w c && is_clip_model_in_single_file w c ckpt) eqn:Hclip;
    [right; left; by apply sub_model_clip|].
  destruct (has_from_pretrained c) eqn:Hfp;
    [|do 4 right; by apply sub_model_unsupported].
  rewrite (sub_model_generic c Hres Hc Hclip Hfp).
  destruct (sub_ModelMixin c); [do 3 right; by left|do 2 right; by left].
Qed.

(** Every call of the sub-model loader belongs to the loading loop, every
    loading call is for the component [name], and the CLIP conversion gets
    the provenance flag it was given. *)
Lemma sub_model_events :
  Forall (λ ev, is_loading ev = true ∧
                (is_component_load ev = true → loads_component name ev = true) ∧
                (∀ c n cfg dt lfo b, ev = EvClipFromLdm c n cfg dt lfo b →
                   b = is_legacy_loading))
    (trace run).
Proof.
  destruct sub_model_cases as [(e & _ & ->)|(c & _ & [->|[->|[->|[->| ->]]]])];
    unfold trace; simpl; repeat constructor; try done;
    try (by intros; apply String.eqb_refl); try (by intros ?????? [=]).
Qed.

Lemma filter_loads_notices notices ev :
  Forall (λ ev, is_notice ev = true) notices → is_component_load ev = true →
  filter (λ ev, is_component_load ev = true) (notices ++ [ev]) = [ev].
Proof.
  intros Hn Hev. induction Hn as [|x notices Hx _ IH]; simpl.
  - by rewrite filter_cons_True.
  - rewrite filter_cons_False; [done|]. by destruct x.
Qed.

(** C8. In the generic [from_pretrained] fallback, [torch_dtype] is among
    the loading keywords if and only if the component class is a
    [torch.nn.Module] subclass; for any other class (schedulers, tokenizers)
    the loading keywords are empty. *)
Theorem dtype_forwarded_iff_nn_module c :
  resolved = inr c → sub_FromOriginalModelMixin c = false →
  is_transformers_model w c && is_clip_model_in_single_file w c ckpt = false →
  has_from_pretrained c = true →
  ∃ loading_kwargs,
    filter (λ ev, is_component_load ev = true) (trace run)
      = [EvFromPretrained (cname c) name pretrained_model_name_or_path
           local_files_only use_safetensors loading_kwargs] ∧
    (sub_nn_Module c = true → loading_kwargs = {[ "torch_dtype" := torch_dtype ]}) ∧
    (sub_nn_Module c = false → loading_kwargs = ∅) ∧
    (is_Some (loading_kwargs !! "torch_dtype") ↔ sub_nn_Module c = true).
Proof.
  intros Hres Hc Hclip Hfp. rewrite (sub_model_generic c Hres Hc Hclip Hfp).
  eexists. split_and!.
  - unfold trace. simpl. apply filter_loads_notices; [|done].
    destruct (sub_ModelMixin c); by repeat constructor.
  - by intros ->.
  - by intros ->.
  - destruct (sub_nn_Module c).
    + rewrite lookup_singleton_eq. split; [done|by eexists].
    + rewrite lookup_empty. split; [by intros [? [=]]|done].
Qed.

(** C4, amended. The class is classified by capability in a fixed order,
    native single-file loading first, then the CLIP conversion for a
    transformers model whose keys are in the checkpoint, then
    [from_pretrained]; exactly one loading call is made; and a class with
    none of these raises a [ValueError] that names the class, and only the
    class, of the component. *)
Theorem one_strategy_by_precedence c :
  resolved = inr c →
  (sub_FromOriginalModelMixin c = true →
     run = ([native c], invoke w (native c))) ∧
  (sub_FromOriginalModelMixin c = false →
   is_transformers_model w c && is_clip_model_in_single_file w c ckpt = true →
     run = ([clip c], invoke w (clip c))) ∧
  (sub_FromOriginalModelMixin c = false →
   is_transformers_model w c && is_clip_model_in_single_file w c ckpt = false →
   has_from_pretrained c = true →
     filter (λ ev, is_component_load ev = true) (trace run) = [generic c] ∧
     outcome run = invoke w (generic c)) ∧
  (sub_FromOriginalModelMixin c = false →
   is_transformers_model w c && is_clip_model_in_single_file w c ckpt = false →
   has_from_pretrained c = false →
     run = ([], inl (ValueError (NoSupportedLoadingMethod (cname c)))) ∧
     ∀ s, mentions (NoSupportedLoadingMethod (cname c)) s ↔ s = cname c).
Proof.
  intros Hres. split_and!.
  - by apply sub_model_native.
  - by apply sub_model_clip.
  - intros Hc Hclip Hfp. rewrite (sub_model_generic c Hres Hc Hclip Hfp).
    split; [|done]. unfold trace. simpl. apply filter_loads_notices; [|done].
    destruct (sub_ModelMixin c); by repeat constructor.
  - intros Hc Hclip Hfp. split; [by apply sub_model_unsupported|done].
Qed.

End SubModel.

Lemma dtype_forwarded_iff_nn_module_witness :
  ∃ loading_kwargs,
    filter (λ ev, is_component_load ev = true)
      (trace (load_single_file_sub_model (Sample.world true []) "diffusers"
                (Some "PNDMScheduler") (PStr "runwayml/stable-diffusion-v1-5")
                "scheduler" [] false PNone (PBool false) (PObj "float16") PNone false ∅))
      = [EvFromPretrained "PNDMScheduler" "scheduler"
           (PStr "runwayml/stable-diffusion-v1-5") (PBool false) PNone loading_kwargs] ∧
    loading_kwargs = ∅.
Proof.
  destruct (dtype_forwarded_iff_nn_module (Sample.world true []) "diffusers"
              (Some "PNDMScheduler") (PStr "runwayml/stable-diffusion-v1-5")
              "scheduler" [] false PNone (PBool false) (PObj "float16") PNone false ∅
              Sample.PNDMScheduler eq_refl eq_refl eq_refl eq_refl)
    as (lk & Hrun & _ & Hempty & _).
  exists lk. split; [exact Hrun|by apply Hempty].
Defined.

Lemma one_strategy_by_precedence_witness :
  load_single_file_sub_model (Sample.world true []) "transformers"
    (Some "CLIPTextModel") (PStr "runwayml/stable-diffusion-v1-5")
    "text_encoder" [Sample.clip_key] false PNone (PBool false) PNone PNone true ∅
  = ([EvClipFromLdm "CLIPTextModel" "text_encoder"
        (PStr "runwayml/stable-diffusion-v1-5") PNone (PBool false) true],
     inr (PObj "clip_from_ldm:CLIPTextModel")).
Proof.
  destruct (one_strategy_by_precedence (Sample.world true []) "transformers"
              (Some "CLIPTextModel") (PStr "runwayml/stable-diffusion-v1-5")
              "text_encoder" [Sample.clip_key] false PNone (PBool false) PNone PNone
              true ∅ Sample.CLIPTextModel eq_refl) as (_ & Hclip & _).
  exact (Hclip eq_refl eq_refl).
Defined.

(** The claim C4 as first stated fails: the error raised for a class without
    a loading method is the same for the components ["unet"] and ["vae"],
    and names neither. *)
Lemma unsupported_error_omits_component_name :
  ∃ m,
    outcome (load_single_file_sub_model (Sample.world true []) "diffusers"
               (Some "PlainObject") (PStr "runwayml/stable-diffusion-v1-5") "unet" []
               false PNone (PBool false) PNone PNone false ∅) = inl (ValueError m) ∧
    outcome (load_single_file_sub_model (Sample.world true []) "diffusers"
               (Some "PlainObject") (PStr "runwayml/stable-diffusion-v1-5") "vae" []
               false PNone (PBool false) PNone PNone false ∅) = inl (ValueError m) ∧
    mentions m "PlainObject" ∧ ¬ mentions m "unet" ∧ ¬ mentions m "vae".
Proof.
  exists (NoSupportedLoadingMethod "PlainObject"). split_and!; try reflexivity; by intros [=].
Qed.

(** ** Arguments and acquisition *)

Section Arguments.
Context (kwargs : gmap string pyval).

Lemma parse_original_config_file :
  original_config_file (parse_arguments kwargs)
  = default PNone (kwargs !! "original_config_file").
Proof. reflexivity. Qed.

Lemma parse_config :
  config (parse_arguments kwargs) = default PNone (kwargs !! "config").
Proof.
  unfold parse_arguments, pop, pop_or. simpl. by rewrite lookup_delete_ne.
Qed.

Lemma parse_original_config :
  original_config (parse_arguments kwargs)
  = default PNone (kwargs !! "original_config").
Proof.
  unfold parse_arguments, pop, pop_or. simpl. by rewrite !lookup_delete_ne.
Qed.

(** A keyword that is none of the thirteen named ones stays in the bag. *)
Lemma parse_rest k :
  k ∉ ["original_config_file"; "config"; "original_config"; "resume_download";
       "force_download"; "proxies"; "token"; "cache_dir"; "local_files_only";
       "revision"; "torch_dtype"; "local_dir"; "use_safetensors"] →
  rest (parse_arguments kwargs) !! k = kwargs !! k.
Proof.
  intros Hk. unfold parse_arguments, pop, pop_or. simpl.
  rewrite !lookup_delete_ne; [done|intros <-; apply Hk; set_solver..].
Qed.

Lemma parse_rest_Some k v :
  rest (parse_arguments kwargs) !! k = Some v → kwargs !! k = Some v.
Proof.
  unfold parse_arguments, pop, pop_or. simpl.
  repeat (rewrite lookup_delete; case_decide; [by intros [=]|]). done.
Qed.

Lemma is_None_false v : v ≠ PNone → is_None v = false.
Proof. by destruct v. Qed.

Lemma is_None_true v : is_None v = true ↔ v = PNone.
Proof. by destruct v. Qed.

End Arguments.

Section Acquisition.
Context (w : World) (cls : pipeline_class) (path : string).

Lemma deprecate_if_given_spec name v :
  deprecate_if_given name v
  = (if is_None v then [] else [EvDeprecate name], inr tt).
Proof. unfold deprecate_if_given. by destruct (is_None v). Qed.

Lemma acquire_events a :
  Forall (λ ev, is_acquisition ev = true) (trace (acquire w cls path a)).
Proof.
  unfold acquire, deprecate_if_given. walk_trace; done.
Qed.

(** C1. If the caller gives both [config] and [original_config], the latter
    possibly through the deprecated [original_config_file], the call raises
    the [ValueError] of the exclusion check whatever the other arguments
    are, and nothing but the deprecation notice of the alias precedes it:
    no checkpoint and no config has been read. *)
Theorem both_config_sources_rejected (kwargs : gmap string pyval) :
  default PNone (kwargs !! "config") ≠ PNone →
  default PNone (kwargs !! "original_config") ≠ PNone
    ∨ default PNone (kwargs !! "original_config_file") ≠ PNone →
  outcome (from_single_file w cls path kwargs) = inl (ValueError OnlyOneOfConfig) ∧
  trace (from_single_file w cls path kwargs)
    = (if is_None (default PNone (kwargs !! "original_config_file"))
       then [] else [EvDeprecate "original_config_file"]) ∧
  Forall (λ ev, is_notice ev = true) (trace (from_single_file w cls path kwargs)).
Proof.
  intros Hconfig Horig.
  assert (acquire w cls path (parse_arguments kwargs)
          = (if is_None (default PNone (kwargs !! "original_config_file"))
             then [] else [EvDeprecate "original_config_file"],
             inl (ValueError OnlyOneOfConfig))) as Hacq.
  { unfold acquire, effective_original_config.
    rewrite deprecate_if_given_spec, parse_original_config_file, parse_config,
      parse_original_config.
    rewrite (is_None_false _ Hconfig).
    destruct (is_None (default PNone (kwargs !! "original_config_file"))) eqn:Halias.
    - destruct Horig as [Horig|Horig].
      + by rewrite (is_None_false _ Horig).
      + apply is_None_true in Halias. done.
    - simpl. by rewrite Halias. }
  unfold from_single_file, prepare.
  rewrite (bind_raise _ _ _ _ Hacq). simpl. split_and!; [done|done|].
  unfold trace. simpl.
  destruct (is_None (default PNone (kwargs !! "original_config_file")));
    by repeat constructor.
Qed.

End Acquisition.

Lemma both_config_sources_rejected_witness :
  outcome (from_single_file (Sample.world true Sample.sd_manifest)
             Sample.StableDiffusionPipeline "./v1-5-pruned-emaonly"
             {[ "config" := PStr "runwayml/stable-diffusion-v1-5";
                "original_config_file" := PStr "./v1-inference.yaml" ]})
    = inl (ValueError OnlyOneOfConfig) ∧
  trace (from_single_file (Sample.world true Sample.sd_manifest)
           Sample.StableDiffusionPipeline "./v1-5-pruned-emaonly"
           {[ "config" := PStr "runwayml/stable-diffusion-v1-5";
              "original_config_file" := PStr "./v1-inference.yaml" ]})
    = [EvDeprecate "original_config_file"].
Proof.
  destruct (both_config_sources_rejected (Sample.world true Sample.sd_manifest)
              Sample.StableDiffusionPipeline "./v1-5-pruned-emaonly"
              {[ "config" := PStr "runwayml/stable-diffusion-v1-5";
                 "original_config_file" := PStr "./v1-inference.yaml" ]})
    as (Hout & Htrace & _).
  - vm_compute. discriminate.
  - right. vm_compute. discriminate.
  - split; [exact Hout|exact Htrace].
Defined.

(** ** The identity of the pretrained config *)

Section Identity.
Context (w : World) (cls : pipeline_class) (path : string).

Lemma inferred_identity_events a ck :
  Forall (λ ev, ev = EvFetchDiffusersConfig) (trace (inferred_identity w a ck)).
Proof. unfold inferred_identity. walk_trace; done. Qed.

(** C5, amended. When the run reaches the identity check, the identity [p]
    is not an existing directory and [p] has two or more slashes, the call
    raises the [ValueError] naming [p]; the manifest has not been asked of
    the hub, though the checkpoint, and the original config if one was
    given, have been acquired. *)
Theorem unresolvable_identity_rejected (kwargs : gmap string pyval)
    t0 original_config pipeline_cls ck t1 p :
  acquire w cls path (parse_arguments kwargs)
    = (t0, inr (original_config, pipeline_cls, ck)) →
  inferred_identity w (parse_arguments kwargs) ck = (t1, inr (PStr p)) →
  isdir w p = false →
  2 ≤ count_slash p →
  from_single_file w cls path kwargs
    = (t0 ++ t1 ++ [EvIsDir p], inl (ValueError (NeitherPathNorRepoId p))) ∧
  Forall (λ ev, is_manifest_fetch ev = false) (t0 ++ t1 ++ [EvIsDir p]).
Proof.
  intros Hacq Hid Hdir Hslash.
  assert (resolve_config_dict w cls pipeline_cls (parse_arguments kwargs) ck
          = (t1 ++ [EvIsDir p], inl (ValueError (NeitherPathNorRepoId p)))) as Hres.
  { unfold resolve_config_dict. rewrite (bind_value _ _ _ _ Hid). simpl.
    rewrite Hdir. simpl.
    replace (1 <? count_slash p)%nat with true
      by (symmetry; apply Nat.ltb_lt; lia).
    simpl. done. }
  split.
  - unfold from_single_file, prepare.
    rewrite (bind_value _ _ _ _ Hacq). simpl. by rewrite Hres.
  - rewrite !Forall_app. split_and!.
    + pose proof (acquire_events w cls path (parse_arguments kwargs)) as H.
      rewrite Hacq in H. eapply Forall_impl; [exact H|]. intros ev ?. by destruct ev.
    + pose proof (inferred_identity_events (parse_arguments kwargs) ck) as H.
      rewrite Hid in H. eapply Forall_impl; [exact H|]. by intros ev ->.
    + by repeat constructor.
Qed.

End Identity.

Lemma unresolvable_identity_rejected_witness :
  ∃ t,
    from_single_file (Sample.world true Sample.sd_manifest)
      Sample.StableDiffusionPipeline "./v1-5-pruned-emaonly"
      {[ "config" := PStr "models/sd/v1-5" ]}
    = (t, inl (ValueError (NeitherPathNorRepoId "models/sd/v1-5"))) ∧
    Forall (λ ev, is_manifest_fetch ev = false) t.
Proof.
  eexists.
  eapply (unresolvable_identity_rejected (Sample.world true Sample.sd_manifest)
            Sample.StableDiffusionPipeline "./v1-5-pruned-emaonly"
            {[ "config" := PStr "models/sd/v1-5" ]}).
  - vm_compute. reflexivity.
  - vm_compute. reflexivity.
  - reflexivity.
  - vm_compute. lia.
Defined.

(** The claim C5 as first stated fails: an identity with two slashes that is
    an existing directory raises nothing, the pipeline is built from the
    manifest in that directory. *)
Lemma identity_with_slashes_may_be_a_directory :
  2 ≤ count_slash "./models/sd/v1-5" ∧
  default PNone (({[ "config" := PStr "./models/sd/v1-5" ]} : gmap string pyval) !! "config")
    = PStr "./models/sd/v1-5" ∧
  outcome (from_single_file (Sample.world true Sample.sd_manifest)
             Sample.StableDiffusionPipeline "./v1-5-pruned-emaonly"
             {[ "config" := PStr "./models/sd/v1-5" ]})
    = inr (PObj "StableDiffusionPipeline").
Proof. split_and!; [vm_compute; lia| |]; by vm_compute. Qed.

(** ** Preparation: lines 317-450 *)

Section Preparation.
Context (w : World) (cls : pipeline_class) (path : string).

Lemma Forall_trace_except {A} (P : event → Prop) (m h : M A) :
  Forall P (trace m) → Forall P (trace h) →
  Forall P (trace (except_local_entry_not_found m h)).
Proof.
  intros Hm Hh. destruct m as [t [[]|a]]; try done.
  unfold trace in *. simpl in *. by apply Forall_app.
Qed.

Lemma acquire_is_preparation a :
  Forall (λ ev, is_preparation ev = true) (trace (acquire w cls path a)).
Proof. unfold acquire, deprecate_if_given. walk_trace; done. Qed.

Lemma resolve_config_dict_events pc a ck :
  Forall (λ ev, is_preparation ev = true) (trace (resolve_config_dict w cls pc a ck)).
Proof.
  unfold resolve_config_dict, inferred_identity. walk_trace; try done.
  apply Forall_trace_except.
  - unfold fetch_manifest. walk_trace; done.
  - unfold synthesize_config_dict. walk_trace; done.
Qed.

Lemma select_components_events pc config_dict kw :
  Forall (λ ev, is_preparation ev = true)
    (trace (select_components w cls pc config_dict kw)).
Proof.
  unfold select_components.
  destruct (get_signature_keys w pc cls) as [expected optional].
  unfold pop_all. cbv beta iota zeta. walk_trace; done.
Qed.

Lemma prepare_events kwargs :
  Forall (λ ev, is_preparation ev = true) (trace (prepare w cls path kwargs)).
Proof.
  unfold prepare.
  apply Forall_trace_bind; [apply acquire_is_preparation|]. intros [[oc pc] ck] _.
  apply Forall_trace_bind; [apply resolve_config_dict_events|]. intros [[p cfg] leg] _.
  apply Forall_trace_bind; [apply select_components_events|]. intros s _.
  apply Forall_trace_ret.
Qed.

(** What a successful selection has established. *)
Lemma select_components_inv pc config_dict kw t s :
  select_components w cls pc config_dict kw = (t, inr s) →
  expected_modules s = (get_signature_keys w pc cls).1 ∧
  optional_kwargs s = (get_signature_keys w pc cls).2 ∧
  passed_class_obj s = (pop_all (expected_modules s) kw).1 ∧
  remaining_kwargs s
    = (pop_all (optional_kwargs s) (pop_all (expected_modules s) kw).2).2 ∧
  extract_init_dict w pc config_dict (remaining_kwargs s) = inr (extracted s) ∧
  init_kwargs s
    = (pop_all (optional_kwargs s) (pop_all (expected_modules s) kw).2).1
      ∪ list_to_map (filter (taken_as_kwarg cls (optional_kwargs s)) (extracted s)) ∧
  loadable (passed_class_obj s)
    (filter (λ kv, ¬ taken_as_kwarg cls (optional_kwargs s) kv) (extracted s))
    = inr (init_dict s) ∧
  t = [EvExtractInitDict config_dict (remaining_kwargs s)].
Proof.
  unfold select_components.
  destruct (get_signature_keys w pc cls) as [expected optional]. unfold pop_all. simpl.
  destruct (extract_init_dict w pc config_dict _) as [e|ex] eqn:Hex; simpl; [done|].
  destruct (loadable _ _) as [e|kept] eqn:Hkept; simpl; [done|].
  intros [= <- <-]. simpl. by split_and!.
Qed.

Lemma prepare_inv kwargs t pl :
  prepare w cls path kwargs = (t, inr pl) →
  ∃ t0 t1 t2 config_dict,
    args pl = parse_arguments kwargs ∧
    acquire w cls path (args pl)
      = (t0, inr (fetched_original_config pl, pipeline_cls pl, ckpt pl)) ∧
    resolve_config_dict w cls (pipeline_cls pl) (args pl) (ckpt pl)
      = (t1, inr (default_pretrained_model_name_or_path pl, config_dict,
                  is_legacy_loading pl)) ∧
    select_components w cls (pipeline_cls pl) config_dict (rest (args pl))
      = (t2, inr (sel pl)) ∧
    t = t0 ++ t1 ++ t2.
Proof.
  unfold prepare.
  intros (t0 & [[oc pc] ck] & t' & Hacq & H & ->)%bind_value_inv.
  apply bind_value_inv in H as (t1 & [[p cfg] leg] & t'' & Hres & H & ->).
  apply bind_value_inv in H as (t2 & s & t3 & Hsel & [= <- <-] & ->).
  exists t0, t1, t2, cfg. simpl. rewrite app_nil_r. by split_and!.
Qed.

End Preparation.

(** ** The loading loop: lines 452-476 *)

Section Loading.
Context (w : World) (a : arguments) (ck : checkpoint) (p : string) (oc : pyval)
  (leg : bool) (passed kwargs : gmap string pyval).

Local Abbreviation loop := (load_components w a ck p oc leg passed kwargs).

Lemma load_components_cons name value d ik cnv :
  loop ((name, value) :: d) ik cnv
  = (let! (library_name, class_name) := lift (unpack_spec value) in
     match library_name with
     | None => raise TypeError
     | Some library_name =>
         let! loaded_sub_model :=
           match passed !! name with
           | Some instance => ret instance
           | None =>
               if given_twice sub_model_keywords kwargs then raise TypeError
               else
                 load_single_file_sub_model w library_name class_name (PStr p) name ck
                   (is_pipeline_module w library_name) oc (local_files_only a)
                   (torch_dtype a) (use_safetensors a) leg kwargs
           end in
         loop d (<[ name := loaded_sub_model ]> ik) (Some class_name)
     end).
Proof. reflexivity. Qed.

(** Every call of the loop belongs to it; a loading call is for a component
    of the loading set that the caller did not pass; the CLIP conversion
    gets the provenance flag of the manifest. *)
Lemma load_components_events d ik cnv :
  Forall (λ ev, is_loading ev = true ∧
                (is_component_load ev = true →
                   ∃ n, n ∈ Dict.keys d ∧ passed !! n = None ∧
                        loads_component n ev = true) ∧
                (∀ c n cfg dt lfo b, ev = EvClipFromLdm c n cfg dt lfo b → b = leg))
    (trace (loop d ik cnv)).
Proof.
  revert ik cnv. induction d as [|[name value] d IH]; intros ik cnv.
  - constructor.
  - rewrite load_components_cons.
    apply Forall_trace_bind; [apply Forall_trace_lift|]. intros [[lib|] cn] _;
      [|apply Forall_trace_raise].
    apply Forall_trace_bind.
    + destruct (passed !! name) as [instance|] eqn:Hpassed; [apply Forall_trace_ret|].
      destruct (given_twice sub_model_keywords kwargs); [apply Forall_trace_raise|].
      eapply Forall_impl; [apply sub_model_events|].
      intros ev (Hloading & Hname & Hflag). split_and!; [done| |done].
      intros Hload. exists name. split_and!; [by left|done|by apply Hname].
    + intros loaded _. eapply Forall_impl; [apply IH|].
      intros ev (Hloading & Hname & Hflag). split_and!; [done| |done].
      intros (n & Hn & ? & ?)%Hname. exists n. split_and!; [by right|done|done].
Qed.

(** What a loop that ran to its end leaves in [init_kwargs] and in the loop
    variable [class_name]. *)
Lemma load_components_result d ik cnv t ik' cnv' :
  loop d ik cnv = (t, inr (ik', cnv')) →
  dom ik' = dom ik ∪ list_to_set (Dict.keys d) ∧
  (∀ n, n ∉ Dict.keys d → ik' !! n = ik !! n) ∧
  (∀ n v, n ∈ Dict.keys d → passed !! n = Some v → ik' !! n = Some v) ∧
  (d = [] → cnv' = cnv) ∧
  (∀ name value, last d = Some (name, value) →
     ∃ library_name class_name,
       unpack_spec value = inr (library_name, class_name) ∧ cnv' = Some class_name).
Proof.
  revert ik cnv t. induction d as [|[name value] d IH]; intros ik cnv t.
  - simpl. unfold ret. intros Heq. injection Heq as <- <- <-.
    split_and!; try done.
    + simpl. by rewrite (right_id_L ∅ (∪)).
    + by intros n v ?%elem_of_nil.
  - rewrite load_components_cons.
    intros (t0 & [lib cn] & t1 & Hunpack & Hrest & ->)%bind_value_inv.
    destruct lib as [lib|]; [|done].
    apply bind_value_inv in Hrest as (t2 & loaded & t3 & Hloaded & Hloop & ->).
    destruct (IH _ _ _ Hloop) as (Hdom & Hother & Hpassed & Hnil & Hlast).
    split_and!.
    + rewrite Hdom, dom_insert_L. simpl.
      rewrite (comm_L (∪) {[name]} (dom ik)). by rewrite (assoc_L (∪)).
    + intros n Hn. simpl in Hn. rewrite not_elem_of_cons in Hn. destruct Hn as [Hne Hn].
      rewrite (Hother n Hn). by rewrite lookup_insert_ne.
    + intros n v Hn Hv. destruct (decide (n ∈ Dict.keys d)) as [Hin|Hnotin].
      * by apply Hpassed.
      * simpl in Hn. apply elem_of_cons in Hn as [->|?]; [|done].
        rewrite (Hother name Hnotin). rewrite Hv in Hloaded.
        injection Hloaded as _ <-. by rewrite lookup_insert_eq.
    + done.
    + intros name' value' Hl. destruct d as [|entry d].
      * simpl in Hl. injection Hl as <- <-. unfold lift in Hunpack.
        injection Hunpack as Hunpack. exists (Some lib), cn. split; [done|].
        by rewrite Hnil.
      * by apply (Hlast name' value').
Qed.


End Loading.

(** ** The missing-modules check: lines 478-489 *)

Section Check.
Context (pc : pipeline_class) (s : selection) (ik : gmap string pyval).

Lemma fill_missing_lookup passed l (m : gmap string pyval) n :
  fill_missing passed l m !! n
  = if decide (n ∈ l) then Some (default PNone (passed !! n)) else m !! n.
Proof.
  induction l as [|x l IH].
  - case_decide as Hn; [by apply elem_of_nil in Hn|reflexivity].
  - cbn [fill_missing foldr]. fold (fill_missing passed l m).
    destruct (decide (x = n)) as [->|Hne].
    + rewrite lookup_insert_eq.
      destruct (decide (n ∈ n :: l)) as [_|Hnot]; [done|]. exfalso. apply Hnot. constructor.
    + rewrite lookup_insert_ne by done. rewrite IH.
      destruct (decide (n ∈ l)) as [Hin|Hnot].
      * destruct (decide (n ∈ x :: l)) as [_|Hnot]; [done|]. exfalso. apply Hnot.
        by constructor.
      * destruct (decide (n ∈ x :: l)) as [[->|?]%elem_of_cons|_]; done.
Qed.

Lemma check_missing_modules_trace : trace (check_missing_modules pc s ik) = [].
Proof.
  unfold check_missing_modules.
  destruct (_ && _); [done|]. by destruct (bool_decide _).
Qed.

(** The check passes only when every missing module was passed or is
    optional; it then fills the missing ones and changes no other. *)
Lemma check_missing_modules_passes t ik' :
  check_missing_modules pc s ik = (t, inr ik') →
  missing_modules s ik ⊆ dom (passed_class_obj s) ∪ list_to_set (optional_components pc) ∧
  (∀ n, n ∈ missing_modules s ik →
        ik' !! n = Some (default PNone (passed_class_obj s !! n))) ∧
  (∀ n, n ∉ missing_modules s ik → ik' !! n = ik !! n).
Proof.
  unfold check_missing_modules.
  destruct (bool_decide (0 < size (missing_modules s ik))) eqn:Hsize; simpl.
  - destruct (bool_decide (missing_modules s ik ⊆ _)) eqn:Hsub; simpl; [|done].
    apply bool_decide_eq_true in Hsub. intros [= <- <-]. split_and!; [done|..].
    + intros n Hn. rewrite fill_missing_lookup. by rewrite decide_True by set_solver.
    + intros n Hn. rewrite fill_missing_lookup. by rewrite decide_False by set_solver.
  - intros [= <- <-]. apply bool_decide_eq_false in Hsize.
    assert (missing_modules s ik = ∅) as Hempty.
    { apply leibniz_equiv, size_empty_inv. lia. }
    rewrite Hempty. split_and!; [set_solver|set_solver|done].
Qed.

(** A missing module that was neither passed nor is optional fails the
    check, with the message that prints the expected and the passed sets. *)
Lemma check_missing_modules_raises n :
  n ∈ missing_modules s ik →
  passed_class_obj s !! n = None →
  n ∉ optional_components pc →
  check_missing_modules pc s ik
  = ([], inl (ValueError (PipelineExpected (pipe_name pc) (expected_modules s)
                            ((dom ik ∪ dom (passed_class_obj s)) ∖ optional_kwargs s)))).
Proof.
  intros Hn Hpassed Hopt. unfold check_missing_modules.
  assert (bool_decide (0 < size (missing_modules s ik)) = true) as ->.
  { apply bool_decide_eq_true. destruct (decide (size (missing_modules s ik) = 0)) as [H0|];
      [|lia]. apply size_empty_inv in H0. exfalso. by apply (proj1 (elem_of_equiv_empty _) H0 n). }
  assert (bool_decide (missing_modules s ik
            ⊆ dom (passed_class_obj s) ∪ list_to_set (optional_components pc)) = false) as ->.
  { apply bool_decide_eq_false. intros Hsub. apply Hsub in Hn.
    apply elem_of_union in Hn as [Hn|Hn].
    - apply elem_of_dom in Hn as [? Hn]. congruence.
    - by apply elem_of_list_to_set in Hn. }
  done.
Qed.

End Check.

(** ** The deprecated paths and the constructor: lines 491-528 *)

Section Finishing.
Context (w : World).

Lemma legacy_safety_checker_skipped a kw ik :
  default PNone (kw !! "load_safety_checker") = PNone →
  legacy_safety_checker w a kw ik = ([], inr ik).
Proof. unfold legacy_safety_checker. by intros ->. Qed.

Lemma legacy_safety_checker_run a kw ik :
  default PNone (kw !! "load_safety_checker") ≠ PNone →
  legacy_safety_checker w a kw ik
  = match invoke w (EvLegacyFeatureExtractor (local_files_only a)) with
    | inl e =>
        ([EvDeprecate "load_safety_checker";
          EvLegacyFeatureExtractor (local_files_only a)], inl e)
    | inr feature_extractor =>
        ([EvDeprecate "load_safety_checker";
          EvLegacyFeatureExtractor (local_files_only a);
          EvLegacySafetyChecker (local_files_only a) (torch_dtype a)],
         match invoke w (EvLegacySafetyChecker (local_files_only a) (torch_dtype a)) with
         | inl e => inl e
         | inr safety_checker =>
             inr (<[ "feature_extractor" := feature_extractor ]>
                    (<[ "safety_checker" := safety_checker ]> ∅) ∪ ik)
         end)
    end.
Proof.
  intros Hgiven%is_None_false. unfold legacy_safety_checker. rewrite Hgiven. simpl.
  unfold _legacy_load_safety_checker, call. simpl.
  destruct (invoke w (EvLegacyFeatureExtractor _)); simpl; [done|].
  by destruct (invoke w (EvLegacySafetyChecker _ _)).
Qed.

Lemma legacy_scheduler_skipped ck oc pt cnv kw ik :
  default PNone (kw !! "scheduler_type") = PNone →
  legacy_scheduler w ck oc pt cnv kw ik = ([], inr ik).
Proof. unfold legacy_scheduler. by intros ->. Qed.

Lemma legacy_scheduler_unbound ck oc pt kw ik :
  default PNone (kw !! "scheduler_type") ≠ PNone →
  legacy_scheduler w ck oc pt None kw ik
  = ([EvDeprecate "scheduler_type"], inl (NameError "class_name")).
Proof. intros Hgiven%is_None_false. unfold legacy_scheduler. by rewrite Hgiven. Qed.

Lemma legacy_scheduler_run ck oc pt class_name kw ik :
  default PNone (kw !! "scheduler_type") ≠ PNone →
  legacy_scheduler w ck oc pt (Some class_name) kw ik
  = ([EvDeprecate "scheduler_type";
      EvLegacyScheduler class_name oc (default PNone (kw !! "scheduler_type")) pt],
     match legacy_load_scheduler_from_scheduler_type w class_name ck oc
             (default PNone (kw !! "scheduler_type")) pt with
     | inl e => inl e
     | inr scheduler_components => inr (scheduler_components ∪ ik)
     end).
Proof.
  intros Hgiven%is_None_false. unfold legacy_scheduler. rewrite Hgiven. simpl.
  unfold ask. simpl. by destruct (legacy_load_scheduler_from_scheduler_type _ _ _ _ _ _).
Qed.

Lemma construct_events pc a ik :
  Forall (λ ev, ev = EvConstruct (pipe_name pc) ik ∨ ev = EvTo (torch_dtype a))
    (trace (construct w pc a ik)).
Proof. unfold construct. walk_trace; auto. Qed.

Lemma legacy_safety_checker_events a kw ik :
  Forall (λ ev, default PNone (kw !! "load_safety_checker") ≠ PNone ∧
                (ev = EvDeprecate "load_safety_checker" ∨
                 ev = EvLegacyFeatureExtractor (local_files_only a) ∨
                 ev = EvLegacySafetyChecker (local_files_only a) (torch_dtype a)))
    (trace (legacy_safety_checker w a kw ik)).
Proof.
  destruct (decide (default PNone (kw !! "load_safety_checker") = PNone)) as [Hno|Hyes].
  - rewrite legacy_safety_checker_skipped by done. constructor.
  - rewrite legacy_safety_checker_run by done.
    destruct (invoke w (EvLegacyFeatureExtractor _)); unfold trace; simpl;
      repeat (apply Forall_cons; split; [split; [done|auto]|]); constructor.
Qed.

Lemma legacy_scheduler_events ck oc pt cnv kw ik :
  Forall (λ ev, default PNone (kw !! "scheduler_type") ≠ PNone ∧
                (ev = EvDeprecate "scheduler_type" ∨
                 ∃ class_name, cnv = Some class_name ∧
                   ev = EvLegacyScheduler class_name oc
                          (default PNone (kw !! "scheduler_type")) pt))
    (trace (legacy_scheduler w ck oc pt cnv kw ik)).
Proof.
  destruct (decide (default PNone (kw !! "scheduler_type") = PNone)) as [Hno|Hyes].
  - rewrite legacy_scheduler_skipped by done. constructor.
  - destruct cnv as [cn|].
    + rewrite legacy_scheduler_run by done. unfold trace. simpl.
      repeat (apply Forall_cons; split; [split; [done|eauto]|]); constructor.
    + rewrite legacy_scheduler_unbound by done. unfold trace. simpl.
      repeat (apply Forall_cons; split; [split; [done|eauto]|]); constructor.
Qed.

Lemma finish_events pl cnv ik :
  Forall (λ ev, is_finishing ev = true) (trace (finish w pl cnv ik)).
Proof.
  unfold finish.
  apply Forall_trace_bind.
  { eapply Forall_impl; [apply legacy_safety_checker_events|].
    by intros ev (_ & [->|[->| ->]]). }
  intros ik2 _. apply Forall_trace_bind.
  { eapply Forall_impl; [apply legacy_scheduler_events|].
    by intros ev (_ & [->|(cn & _ & ->)]). }
  intros ik3 _. eapply Forall_impl; [apply construct_events|]. by intros ev [->| ->].
Qed.

(** The keywords the constructor is called with: those left by the check,
    updated by the safety-checker components if [load_safety_checker] was
    given, then by the scheduler components if [scheduler_type] was. *)
Lemma finish_construct pl cnv ik pipeline init_kwargs :
  EvConstruct pipeline init_kwargs ∈ trace (finish w pl cnv ik) →
  ∃ safety_components scheduler_components,
    init_kwargs = scheduler_components ∪ (safety_components ∪ ik) ∧
    (default PNone (remaining_kwargs (sel pl) !! "load_safety_checker") = PNone →
       safety_components = ∅) ∧
    (default PNone (remaining_kwargs (sel pl) !! "load_safety_checker") ≠ PNone →
       ∃ feature_extractor safety_checker,
         invoke w (EvLegacyFeatureExtractor (local_files_only (args pl)))
           = inr feature_extractor ∧
         invoke w (EvLegacySafetyChecker (local_files_only (args pl))
                     (torch_dtype (args pl))) = inr safety_checker ∧
         safety_components
           = <[ "feature_extractor" := feature_extractor ]>
               (<[ "safety_checker" := safety_checker ]> ∅)) ∧
    (default PNone (remaining_kwargs (sel pl) !! "scheduler_type") = PNone →
       scheduler_components = ∅) ∧
    (default PNone (remaining_kwargs (sel pl) !! "scheduler_type") ≠ PNone →
       ∃ class_name, cnv = Some class_name ∧
         legacy_load_scheduler_from_scheduler_type w class_name (ckpt pl)
           (fetched_original_config pl)
           (default PNone (remaining_kwargs (sel pl) !! "scheduler_type"))
           (prediction_type (args pl)) = inr scheduler_components).
Proof.
  unfold finish.
  intros [Hin|(ik2 & Hsafety & Hin)]%elem_of_trace_bind.
  { pose proof (legacy_safety_checker_events (args pl) (remaining_kwargs (sel pl)) ik) as H.
    rewrite Forall_forall in H. by destruct (H _ Hin) as (_ & [?|[?|?]]). }
  apply elem_of_trace_bind in Hin as [Hin|(ik3 & Hsched & Hin)].
  { pose proof (legacy_scheduler_events (ckpt pl) (fetched_original_config pl)
                  (prediction_type (args pl)) cnv (remaining_kwargs (sel pl)) ik2) as H.
    rewrite Forall_forall in H. by destruct (H _ Hin) as (_ & [?|(? & _ & ?)]). }
  pose proof (construct_events (pipeline_cls pl) (args pl) ik3) as H.
  rewrite Forall_forall in H. destruct (H _ Hin) as [[= -> ->]|?]; [|done]. clear H Hin.
  assert (∃ safety, ik2 = safety ∪ ik ∧
            (default PNone (remaining_kwargs (sel pl) !! "load_safety_checker") = PNone →
               safety = ∅) ∧
            (default PNone (remaining_kwargs (sel pl) !! "load_safety_checker") ≠ PNone →
               ∃ fe sc,
                 invoke w (EvLegacyFeatureExtractor (local_files_only (args pl))) = inr fe ∧
                 invoke w (EvLegacySafetyChecker (local_files_only (args pl))
                             (torch_dtype (args pl))) = inr sc ∧
                 safety = <[ "feature_extractor" := fe ]> (<[ "safety_checker" := sc ]> ∅)))
    as (safety & -> & Hs1 & Hs2).
  { destruct (decide (default PNone (remaining_kwargs (sel pl) !! "load_safety_checker")
                      = PNone)) as [Hno|Hyes].
    - rewrite legacy_safety_checker_skipped in Hsafety by done.
      injection Hsafety as <-. exists ∅. by rewrite (left_id_L ∅ (∪)).
    - rewrite legacy_safety_checker_run in Hsafety by done.
      destruct (invoke w (EvLegacyFeatureExtractor _)) as [|fe]; [done|].
      destruct (invoke w (EvLegacySafetyChecker _ _)) as [|sc]; [done|].
      injection Hsafety as <-. eexists. split_and!; [done|done|]. intros _. by exists fe, sc. }
  exists safety.
  destruct (decide (default PNone (remaining_kwargs (sel pl) !! "scheduler_type") = PNone))
    as [Hno|Hyes].
  - rewrite legacy_scheduler_skipped in Hsched by done. injection Hsched as <-.
    exists ∅. rewrite (left_id_L ∅ (∪)). by split_and!.
  - destruct cnv as [cn|].
    + rewrite legacy_scheduler_run in Hsched by done. unfold outcome in Hsched.
      simpl in Hsched.
      destruct (legacy_load_scheduler_from_scheduler_type _ _ _ _ _ _) as [|comps] eqn:Hc;
        [done|].
      injection Hsched as <-. exists comps. split_and!; [done|done|done|done|].
      intros _. by exists cn.
    + by rewrite legacy_scheduler_unbound in Hsched.
Qed.

End Finishing.

(** ** The whole call *)

Section Run.
Context (w : World) (cls : pipeline_class) (path : string) (kwargs : gmap string pyval).

Local Abbreviation run := (from_single_file w cls path kwargs).
Local Abbreviation prepared := (prepare w cls path kwargs).

Lemma run_stops_in_preparation t e : prepared = (t, inl e) → run = (t, inl e).
Proof. unfold from_single_file. by intros ->. Qed.

Lemma run_stops_in_loading t pl t' e :
  prepared = (t, inr pl) → load_plan w pl = (t', inl e) → run = (t ++ t', inl e).
Proof.
  unfold from_single_file. intros Hprep Hload. rewrite (bind_value _ _ _ _ Hprep).
  unfold assemble. by rewrite (bind_raise _ _ _ _ Hload).
Qed.

Lemma run_stops_in_check t pl t' ik cnv e :
  prepared = (t, inr pl) → load_plan w pl = (t', inr (ik, cnv)) →
  check_missing_modules (pipeline_cls pl) (sel pl) ik = ([], inl e) →
  run = (t ++ t', inl e).
Proof.
  unfold from_single_file. intros Hprep Hload Hcheck. rewrite (bind_value _ _ _ _ Hprep).
  unfold assemble. rewrite (bind_value _ _ _ _ Hload). cbn beta iota.
  rewrite (bind_raise _ _ _ _ Hcheck). simpl. by rewrite app_nil_r.
Qed.

Lemma run_reaches_finish t pl t' ik cnv ik' :
  prepared = (t, inr pl) → load_plan w pl = (t', inr (ik, cnv)) →
  check_missing_modules (pipeline_cls pl) (sel pl) ik = ([], inr ik') →
  run = (t ++ t' ++ trace (finish w pl cnv ik'), outcome (finish w pl cnv ik')).
Proof.
  unfold from_single_file. intros Hprep Hload Hcheck. rewrite (bind_value _ _ _ _ Hprep).
  unfold assemble. rewrite (bind_value _ _ _ _ Hload). cbn beta iota.
  rewrite (bind_value _ _ _ _ Hcheck). done.
Qed.

(** How far a call gets. *)
Lemma run_cases :
  (∃ t e, prepared = (t, inl e) ∧ run = (t, inl e)) ∨
  (∃ t pl t' e, prepared = (t, inr pl) ∧ load_plan w pl = (t', inl e) ∧
     run = (t ++ t', inl e)) ∨
  (∃ t pl t' ik cnv e, prepared = (t, inr pl) ∧ load_plan w pl = (t', inr (ik, cnv)) ∧
     check_missing_modules (pipeline_cls pl) (sel pl) ik = ([], inl e) ∧
     run = (t ++ t', inl e)) ∨
  (∃ t pl t' ik cnv ik', prepared = (t, inr pl) ∧ load_plan w pl = (t', inr (ik, cnv)) ∧
     check_missing_modules (pipeline_cls pl) (sel pl) ik = ([], inr ik') ∧
     run = (t ++ t' ++ trace (finish w pl cnv ik'), outcome (finish w pl cnv ik'))).
Proof.
  destruct prepared as [t [e|pl]] eqn:Hprep.
  { left. exists t, e. split; [done|]. by apply run_stops_in_preparation. }
  destruct (load_plan w pl) as [t' [e|[ik cnv]]] eqn:Hload.
  { right; left. exists t, pl, t', e. split_and!; [done|done|].
    by apply (run_stops_in_loading t pl). }
  pose proof (check_missing_modules_trace (pipeline_cls pl) (sel pl) ik) as Htrace.
  destruct (check_missing_modules (pipeline_cls pl) (sel pl) ik) as [tc [e|ik']] eqn:Hcheck;
    unfold trace in Htrace; simpl in Htrace; subst tc.
  - right; right; left. exists t, pl, t', ik, cnv, e. split_and!; try done.
    by eapply run_stops_in_check.
  - do 3 right. exists t, pl, t', ik, cnv, ik'. split_and!; try done.
    by eapply run_reaches_finish.
Qed.

Lemma load_plan_events pl :
  Forall (λ ev, is_loading ev = true ∧
                (is_component_load ev = true →
                   ∃ n, n ∈ Dict.keys (init_dict (sel pl)) ∧
                        passed_class_obj (sel pl) !! n = None ∧
                        loads_component n ev = true) ∧
                (∀ c n cfg dt lfo b, ev = EvClipFromLdm c n cfg dt lfo b →
                   b = is_legacy_loading pl))
    (trace (load_plan w pl)).
Proof. apply load_components_events. Qed.

Lemma preparation_is_not_finishing ev : is_preparation ev = true → is_finishing ev = false.
Proof.
  destruct ev as [a| | | | | | | | | | | | | | | | |]; try done. simpl.
  intros Ha%bool_decide_eq_true.
  repeat (apply elem_of_cons in Ha as [->|Ha]; [done|]). by apply elem_of_nil in Ha.
Qed.

Lemma loading_is_not_finishing ev : is_loading ev = true → is_finishing ev = false.
Proof. destruct ev as [|[]| | | | | | | | | | | | | | | |]; done. Qed.

Lemma finishing_is_not_a_load ev : is_finishing ev = true → is_component_load ev = false.
Proof. by destruct ev. Qed.

Lemma before_finish t pl t' r :
  prepared = (t, inr pl) → load_plan w pl = (t', r) →
  Forall (λ ev, is_finishing ev = false) (t ++ t').
Proof.
  intros Hprep Hload. apply Forall_app. split.
  - pose proof (prepare_events w cls path kwargs) as H. rewrite Hprep in H.
    eapply Forall_impl; [exact H|]. apply preparation_is_not_finishing.
  - pose proof (load_plan_events pl) as H. rewrite Hload in H.
    eapply Forall_impl; [exact H|]. intros ev (? & _). by apply loading_is_not_finishing.
Qed.

(** The calls of lines 491-528 come after all the others. *)
Lemma run_split :
  ∃ before after,
    trace run = before ++ after ∧
    Forall (λ ev, is_finishing ev = false) before ∧
    Forall (λ ev, is_finishing ev = true) after ∧
    (after = [] ∨
     ∃ t pl t' ik cnv ik', prepared = (t, inr pl) ∧ load_plan w pl = (t', inr (ik, cnv)) ∧
       check_missing_modules (pipeline_cls pl) (sel pl) ik = ([], inr ik') ∧
       before = t ++ t' ∧ after = trace (finish w pl cnv ik')).
Proof.
  destruct run_cases as [(t & e & Hprep & ->)|[(t & pl & t' & e & Hprep & Hload & ->)|
    [(t & pl & t' & ik & cnv & e & Hprep & Hload & Hcheck & ->)|
     (t & pl & t' & ik & cnv & ik' & Hprep & Hload & Hcheck & ->)]]].
  - exists t, []. rewrite app_nil_r. split_and!; [done| |constructor|by left].
    pose proof (prepare_events w cls path kwargs) as H. rewrite Hprep in H.
    eapply Forall_impl; [exact H|]. apply preparation_is_not_finishing.
  - exists (t ++ t'), []. rewrite app_nil_r.
    split_and!; [done|by eapply before_finish|constructor|by left].
  - exists (t ++ t'), []. rewrite app_nil_r.
    split_and!; [done|by eapply before_finish|constructor|by left].
  - exists (t ++ t'), (trace (finish w pl cnv ik')).
    split_and!; [by rewrite (assoc_L (++))|by eapply before_finish|apply finish_events|].
    right. by exists t, pl, t', ik, cnv, ik'.
Qed.

(** A keyword still in the bag after the pops was given by the caller. *)
Lemma remaining_kwargs_given t pl k v :
  prepared = (t, inr pl) →
  remaining_kwargs (sel pl) !! k = Some v → kwargs !! k = Some v.
Proof.
  intros (t0 & t1 & t2 & cfg & Hargs & _ & _ & Hsel & _)%prepare_inv.
  apply select_components_inv in Hsel as (_ & _ & _ & -> & _).
  unfold pop_all. simpl.
  intros [[Hk _]%map_lookup_filter_Some _]%map_lookup_filter_Some.
  rewrite Hargs in Hk. by apply parse_rest_Some in Hk.
Qed.

Lemma remaining_kwargs_default t pl k :
  prepared = (t, inr pl) →
  default PNone (remaining_kwargs (sel pl) !! k) ≠ PNone →
  default PNone (kwargs !! k) = default PNone (remaining_kwargs (sel pl) !! k).
Proof.
  intros Hprep Hk. destruct (remaining_kwargs (sel pl) !! k) as [v|] eqn:Hv; [|done].
  by rewrite (remaining_kwargs_given _ _ _ _ Hprep Hv).
Qed.

End Run.

(** ** The deprecated paths within the whole call *)

Section LegacyPaths.
Context (w : World).

(** Every call of lines 491-528 is one of the safety-checker path, one of
    the scheduler path, or the construction; a path that made a call also
    gave its deprecation notice. *)
Lemma finish_event_cases pl cnv ik ev :
  ev ∈ trace (finish w pl cnv ik) →
  (default PNone (remaining_kwargs (sel pl) !! "load_safety_checker") ≠ PNone ∧
   EvDeprecate "load_safety_checker" ∈ trace (finish w pl cnv ik) ∧
   (ev = EvDeprecate "load_safety_checker" ∨
    ev = EvLegacyFeatureExtractor (local_files_only (args pl)) ∨
    ev = EvLegacySafetyChecker (local_files_only (args pl)) (torch_dtype (args pl)))) ∨
  (default PNone (remaining_kwargs (sel pl) !! "scheduler_type") ≠ PNone ∧
   EvDeprecate "scheduler_type" ∈ trace (finish w pl cnv ik) ∧
   (ev = EvDeprecate "scheduler_type" ∨
    ∃ class_name, cnv = Some class_name ∧
      ev = EvLegacyScheduler class_name (fetched_original_config pl)
             (default PNone (remaining_kwargs (sel pl) !! "scheduler_type"))
             (prediction_type (args pl)))) ∨
  (∃ init_kwargs, ev = EvConstruct (pipe_name (pipeline_cls pl)) init_kwargs) ∨
  ev = EvTo (torch_dtype (args pl)).
Proof.
  unfold finish. intros [Hin|(ik2 & Hsafety & Hin)]%elem_of_trace_bind.
  { left.
    pose proof (legacy_safety_checker_events w (args pl) (remaining_kwargs (sel pl)) ik) as H.
    rewrite Forall_forall in H. destruct (H _ Hin) as (Hgiven & Hev).
    split_and!; [done| |done].
    apply elem_of_trace_bind. left. rewrite legacy_safety_checker_run by done.
    destruct (invoke w (EvLegacyFeatureExtractor _)); unfold trace; simpl; by left. }
  apply elem_of_trace_bind in Hin as [Hin|(ik3 & Hsched & Hin)].
  { right; left.
    pose proof (legacy_scheduler_events w (ckpt pl) (fetched_original_config pl)
                  (prediction_type (args pl)) cnv (remaining_kwargs (sel pl)) ik2) as H.
    rewrite Forall_forall in H. destruct (H _ Hin) as (Hgiven & Hev).
    split_and!; [done| |done].
    apply elem_of_trace_bind. right. exists ik2. split; [done|].
    apply elem_of_trace_bind. left.
    destruct cnv as [cn|];
      [rewrite legacy_scheduler_run by done|rewrite legacy_scheduler_unbound by done];
      unfold trace; simpl; by left. }
  pose proof (construct_events w (pipeline_cls pl) (args pl) ik3) as H.
  rewrite Forall_forall in H. destruct (H _ Hin) as [->| ->]; [|by do 3 right].
  do 2 right; left. by eexists.
Qed.

Context (cls : pipeline_class) (path : string) (kwargs : gmap string pyval).

Local Abbreviation run := (from_single_file w cls path kwargs).
Local Abbreviation prepared := (prepare w cls path kwargs).

(** A call of lines 491-528 found in the trace of a call: the call got
    past the missing-modules check. *)
Lemma finishing_event_inv ev :
  ev ∈ trace run → is_finishing ev = true →
  ∃ t pl t' ik cnv ik',
    prepared = (t, inr pl) ∧ load_plan w pl = (t', inr (ik, cnv)) ∧
    check_missing_modules (pipeline_cls pl) (sel pl) ik = ([], inr ik') ∧
    trace run = t ++ t' ++ trace (finish w pl cnv ik') ∧
    ev ∈ trace (finish w pl cnv ik').
Proof.
  intros Hin Hfin.
  destruct (run_split w cls path kwargs) as (before & after & Hrun & Hbefore & _ & Hafter).
  rewrite Hrun in Hin. apply elem_of_app in Hin as [Hin|Hin].
  { rewrite Forall_forall in Hbefore. apply Hbefore in Hin. congruence. }
  destruct Hafter as [->|(t & pl & t' & ik & cnv & ik' & Hprep & Hload & Hcheck & -> & ->)].
  { by apply elem_of_nil in Hin. }
  exists t, pl, t', ik, cnv, ik'. split_and!; try done. by rewrite Hrun, (assoc_L (++)).
Qed.

(** C7. The two deprecated paths, the default safety checker with its
    feature extractor and the scheduler built from [scheduler_type], run
    after every component load and only past the missing-modules check;
    each runs only when its own argument was given, gives its deprecation
    notice, and updates the constructor keywords with the components it
    built, whatever the other argument is. *)
Theorem legacy_paths_run_last :
  (∃ before after,
     trace run = before ++ after ∧
     Forall (λ ev, is_legacy_call ev = false) before ∧
     Forall (λ ev, is_component_load ev = false) after) ∧
  (∀ ev, ev ∈ trace run →
     (∃ l, ev = EvLegacyFeatureExtractor l) ∨ (∃ l d, ev = EvLegacySafetyChecker l d) →
     default PNone (kwargs !! "load_safety_checker") ≠ PNone ∧
     EvDeprecate "load_safety_checker" ∈ trace run) ∧
  (∀ class_name oc st pt, EvLegacyScheduler class_name oc st pt ∈ trace run →
     st = default PNone (kwargs !! "scheduler_type") ∧ st ≠ PNone ∧
     EvDeprecate "scheduler_type" ∈ trace run) ∧
  (∀ t pl t' ik cnv,
     prepared = (t, inr pl) → load_plan w pl = (t', inr (ik, cnv)) →
     (∀ e, check_missing_modules (pipeline_cls pl) (sel pl) ik = ([], inl e) →
        run = (t ++ t', inl e) ∧ Forall (λ ev, is_finishing ev = false) (t ++ t')) ∧
     (∀ ik' pipeline init_kwargs,
        check_missing_modules (pipeline_cls pl) (sel pl) ik = ([], inr ik') →
        EvConstruct pipeline init_kwargs ∈ trace run →
        ∃ safety_components scheduler_components,
          init_kwargs = scheduler_components ∪ (safety_components ∪ ik') ∧
          (default PNone (remaining_kwargs (sel pl) !! "load_safety_checker") = PNone →
             safety_components = ∅) ∧
          (default PNone (remaining_kwargs (sel pl) !! "load_safety_checker") ≠ PNone →
             ∃ feature_extractor safety_checker,
               invoke w (EvLegacyFeatureExtractor (local_files_only (args pl)))
                 = inr feature_extractor ∧
               invoke w (EvLegacySafetyChecker (local_files_only (args pl))
                           (torch_dtype (args pl))) = inr safety_checker ∧
               safety_components
                 = <[ "feature_extractor" := feature_extractor ]>
                     (<[ "safety_checker" := safety_checker ]> ∅)) ∧
          (default PNone (remaining_kwargs (sel pl) !! "scheduler_type") = PNone →
             scheduler_components = ∅) ∧
          (default PNone (remaining_kwargs (sel pl) !! "scheduler_type") ≠ PNone →
             ∃ class_name, cnv = Some class_name ∧
               legacy_load_scheduler_from_scheduler_type w class_name (ckpt pl)
                 (fetched_original_config pl)
                 (default PNone (remaining_kwargs (sel pl) !! "scheduler_type"))
                 (prediction_type (args pl)) = inr scheduler_components))).
Proof.
  split_and!.
  - destruct (run_split w cls path kwargs) as (before & after & Hrun & Hb & Ha & _).
    exists before, after. split_and!; [done|..].
    + eapply Forall_impl; [exact Hb|]. intros ev Hev. by destruct ev.
    + eapply Forall_impl; [exact Ha|]. apply finishing_is_not_a_load.
  - intros ev Hin Hev.
    destruct (finishing_event_inv ev Hin) as
      (t & pl & t' & ik & cnv & ik' & Hprep & _ & _ & Hrun & Hfin).
    { by destruct Hev as [(l & ->)|(l & d & ->)]. }
    destruct (finish_event_cases _ _ _ _ Hfin) as
      [(Hgiven & Hnotice & _)|[(_ & _ & [->|(cn & _ & ->)])|[(? & ->)| ->]]];
      try (by destruct Hev as [(? & [=])|(? & ? & [=])]).
    split.
    + by rewrite (remaining_kwargs_default w cls path kwargs t pl _ Hprep Hgiven).
    + rewrite Hrun, !elem_of_app. by do 2 right.
  - intros cn oc st pt Hin.
    destruct (finishing_event_inv _ Hin eq_refl) as
      (t & pl & t' & ik & cnv & ik' & Hprep & _ & _ & Hrun & Hfin).
    destruct (finish_event_cases _ _ _ _ Hfin) as
      [(_ & _ & [?|[?|?]])|[(Hgiven & Hnotice & [?|(cn' & _ & Hev)])|[(? & ?)|?]]];
      try done.
    injection Hev as -> -> -> ->. split_and!.
    + by rewrite (remaining_kwargs_default w cls path kwargs t pl _ Hprep Hgiven).
    + done.
    + rewrite Hrun, !elem_of_app. by do 2 right.
  - intros t pl t' ik cnv Hprep Hload. split.
    + intros e Hcheck. split; [by eapply run_stops_in_check|by eapply before_finish].
    + intros ik' pipeline init_kwargs Hcheck Hin.
      rewrite (run_reaches_finish w cls path kwargs _ _ _ _ _ _ Hprep Hload Hcheck) in Hin.
      unfold trace at 1 in Hin. simpl in Hin.
      rewrite (assoc_L (++)) in Hin. apply elem_of_app in Hin as [Hin|Hin].
      { pose proof (before_finish w cls path kwargs _ _ _ _ Hprep Hload) as H.
        rewrite Forall_forall in H. by apply H in Hin. }
      by apply (finish_construct w pl cnv ik' pipeline init_kwargs).
Qed.

(** C10. When [scheduler_type] is given and the loading set is not empty,
    the legacy scheduler constructor is called with, as
    [pipeline_class_name], the class name of the last component of the
    loading loop, whatever the name of the pipeline class is. *)
Theorem legacy_scheduler_receives_loop_variable t pl t' ik cnv ik' ts ik'' :
  prepared = (t, inr pl) →
  load_plan w pl = (t', inr (ik, cnv)) →
  check_missing_modules (pipeline_cls pl) (sel pl) ik = ([], inr ik') →
  legacy_safety_checker w (args pl) (remaining_kwargs (sel pl)) ik' = (ts, inr ik'') →
  default PNone (remaining_kwargs (sel pl) !! "scheduler_type") ≠ PNone →
  init_dict (sel pl) ≠ [] →
  ∃ name value library_name class_name,
    last (init_dict (sel pl)) = Some (name, value) ∧
    unpack_spec value = inr (library_name, class_name) ∧
    EvLegacyScheduler class_name (fetched_original_config pl)
      (default PNone (kwargs !! "scheduler_type")) (prediction_type (args pl))
      ∈ trace run ∧
    ∀ pipeline_class_name oc st pt,
      EvLegacyScheduler pipeline_class_name oc st pt ∈ trace run →
      pipeline_class_name = class_name.
Proof.
  intros Hprep Hload Hcheck Hsafety Hgiven Hnonempty.
  destruct (last (init_dict (sel pl))) as [[name value]|] eqn:Hlast;
    [|by apply last_None in Hlast].
  destruct (load_components_result _ _ _ _ _ _ _ _ _ _ _ _ _ _ Hload)
    as (_ & _ & _ & _ & Hvar).
  destruct (Hvar _ _ Hlast) as (lib & cn & Hunpack & ->).
  exists name, value, lib, cn. split_and!; [done|done|..].
  - rewrite (run_reaches_finish w cls path kwargs _ _ _ _ _ _ Hprep Hload Hcheck).
    unfold trace at 1. simpl. rewrite !elem_of_app. do 2 right.
    unfold finish. apply elem_of_trace_bind. right. exists ik''. split; [by rewrite Hsafety|].
    apply elem_of_trace_bind. left. rewrite legacy_scheduler_run by done.
    rewrite (remaining_kwargs_default w cls path kwargs t pl _ Hprep Hgiven).
    unfold trace. simpl. right. by left.
  - intros pcn oc st pt Hin.
    destruct (finishing_event_inv _ Hin eq_refl) as
      (t2 & pl2 & t2' & ik2 & cnv2 & ik2' & Hprep2 & Hload2 & _ & _ & Hfin).
    rewrite Hprep in Hprep2. injection Hprep2 as <- <-.
    rewrite Hload in Hload2. injection Hload2 as <- <- <-.
    destruct (finish_event_cases _ _ _ _ Hfin) as
      [(_ & _ & [?|[?|?]])|[(_ & _ & [?|(cn' & Hcn & Hev)])|[(? & ?)|?]]]; try done.
    injection Hcn as <-. by injection Hev as ->.
Qed.

End LegacyPaths.

Lemma legacy_scheduler_receives_loop_variable_witness :
  ∃ original_config prediction_type,
    EvLegacyScheduler (Some "DDIMScheduler") original_config (PStr "pndm") prediction_type
    ∈ trace (from_single_file (Sample.world false Sample.sd_manifest)
               Sample.StableDiffusionPipeline "./v1-5-pruned-emaonly"
               {[ "scheduler_type" := PStr "pndm" ]}).
Proof.
  pose (w := Sample.world false Sample.sd_manifest).
  pose (kwargs := ({[ "scheduler_type" := PStr "pndm" ]} : gmap string pyval)).
  destruct (legacy_scheduler_receives_loop_variable w
              Sample.StableDiffusionPipeline "./v1-5-pruned-emaonly" kwargs
              (trace (Runs.prepared w kwargs)) (Runs.the_plan w kwargs)
              (trace (Runs.loaded w kwargs)) (Runs.loaded_kwargs w kwargs)
              (Runs.loop_variable w kwargs) (Runs.checked_kwargs w kwargs)
              (trace (Runs.safety_checked w kwargs))
              (value_or ∅ (Runs.safety_checked w kwargs)))
    as (name & value & library_name & class_name & Hlast & Hunpack & Hin & _).
  - reflexivity.
  - reflexivity.
  - reflexivity.
  - reflexivity.
  - (vm_compute; discriminate).
  - (vm_compute; discriminate).
  - vm_compute in Hlast. injection Hlast as <- <-.
    vm_compute in Hunpack. injection Hunpack as <- <-.
    eexists _, _. exact Hin.
Defined.

Lemma legacy_paths_run_last_witness :
  EvDeprecate "scheduler_type"
  ∈ trace (from_single_file (Sample.world false Sample.sd_manifest)
             Sample.StableDiffusionPipeline "./v1-5-pruned-emaonly"
             {[ "scheduler_type" := PStr "pndm" ]}).
Proof.
  destruct (legacy_paths_run_last (Sample.world false Sample.sd_manifest)
              Sample.StableDiffusionPipeline "./v1-5-pruned-emaonly"
              {[ "scheduler_type" := PStr "pndm" ]}) as (_ & _ & Hscheduler & _).
  refine (proj2 (proj2 (Hscheduler (Some "DDIMScheduler") PNone (PStr "pndm") PNone _))).
  refine (bool_decide_unpack _ _). exact I.
Defined.

(** ** The calls of the loading loop, one component at a time *)

Lemma trace_bind {A B} (m : M A) (f : A → M B) :
  trace (bind m f)
  = trace m ++ match outcome m with inr a => trace (f a) | inl _ => [] end.
Proof. destruct m as [t [e|a]]; unfold trace, outcome; simpl; by rewrite ?app_nil_r. Qed.

Lemma outcome_bind {A B} (m : M A) (f : A → M B) :
  outcome (bind m f)
  = match outcome m with inr a => outcome (f a) | inl e => inl e end.
Proof. by destruct m as [t [e|a]]. Qed.

Section LoopOrigin.
Context (w : World) (a : arguments) (ck : checkpoint) (p : string) (oc : pyval)
  (leg : bool) (passed kwargs : gmap string pyval).

Local Abbreviation loop := (load_components w a ck p oc leg passed kwargs).
Local Abbreviation sub name library_name class_name :=
  (load_single_file_sub_model w library_name class_name (PStr p) name ck
     (is_pipeline_module w library_name) oc (local_files_only a) (torch_dtype a)
     (use_safetensors a) leg kwargs).

(** Every call of the loop is a call of the sub-model loader, made for an
    entry of the loading set that the caller did not pass. *)
Lemma load_components_origin d ik cnv ev :
  ev ∈ trace (loop d ik cnv) →
  ∃ name value library_name class_name,
    (name, value) ∈ d ∧ unpack_spec value = inr (Some library_name, class_name) ∧
    passed !! name = None ∧ ev ∈ trace (sub name library_name class_name).
Proof.
  revert ik cnv. induction d as [|[name value] d IH]; intros ik cnv.
  - by intros ?%elem_of_nil.
  - rewrite load_components_cons.
    intros [Hin|([[lib|] cn] & Hun & Hin)]%elem_of_trace_bind.
    + by apply elem_of_nil in Hin.
    + apply elem_of_trace_bind in Hin as [Hin|(v & _ & Hin)].
      * destruct (passed !! name) as [instance|] eqn:Hpassed;
          [by apply elem_of_nil in Hin|].
        destruct (given_twice sub_model_keywords kwargs); [by apply elem_of_nil in Hin|].
        exists name, value, lib, cn. split_and!; [by left|done|done|done].
      * apply IH in Hin as (n & v' & lib' & cn' & ? & ? & ? & ?).
        exists n, v', lib', cn'. split_and!; [by right|done|done|done].
    + by apply elem_of_nil in Hin.
Qed.

(** The loading calls of one sub-model call: at most one, for [name]; exactly
    one when the call returns. *)
Lemma sub_model_loads name library_name class_name :
  omap loaded_component (trace (sub name library_name class_name)) `prefix_of` [name] ∧
  (∀ v, outcome (sub name library_name class_name) = inr v →
        omap loaded_component (trace (sub name library_name class_name)) = [name]).
Proof.
  destruct (sub_model_cases w library_name class_name (PStr p) name ck
              (is_pipeline_module w library_name) oc (local_files_only a) (torch_dtype a)
              (use_safetensors a) leg kwargs)
    as [(e & _ & ->)|(c & _ & [->|[->|[->|[->| ->]]]])]; unfold trace, outcome; simpl;
    (split; [try done; apply prefix_nil|try done]).
Qed.

(** The loop loads the components the caller did not pass, in the order of
    the loading set; it stops at the first call that raises. *)
Lemma load_components_order d ik cnv :
  omap loaded_component (trace (loop d ik cnv))
    `prefix_of` filter (λ n, passed !! n = None) (Dict.keys d) ∧
  (∀ r, outcome (loop d ik cnv) = inr r →
        omap loaded_component (trace (loop d ik cnv))
        = filter (λ n, passed !! n = None) (Dict.keys d)).
Proof.
  revert ik cnv. induction d as [|[name value] d IH]; intros ik cnv.
  - split; [done|]. by intros.
  - rewrite load_components_cons, trace_bind, outcome_bind.
    unfold lift at 1 2 3. unfold trace at 1 3, outcome at 1 2 4. simpl.
    destruct (unpack_spec value) as [e|[[lib|] cn]]; simpl;
      [split; [apply prefix_nil|done]| |split; [apply prefix_nil|done]].
    rewrite trace_bind, outcome_bind.
    destruct (passed !! name) as [instance|] eqn:Hpassed.
    + rewrite filter_cons_False by (by rewrite Hpassed).
      unfold ret at 1 2 3 4. unfold trace at 1 3, outcome at 1 2 4. simpl. apply IH.
    + rewrite filter_cons_True by done.
      destruct (given_twice sub_model_keywords kwargs).
      { unfold raise, trace, outcome. simpl. split; [apply prefix_nil|done]. }
      destruct (sub_model_loads name lib cn) as [Hpre Hret].
      rewrite omap_app.
      destruct (outcome (sub name lib cn)) as [e|v] eqn:Hout.
      * simpl. rewrite app_nil_r. split; [|done].
        etrans; [exact Hpre|]. by apply prefix_cons, prefix_nil.
      * rewrite (Hret v eq_refl). simpl.
        destruct (IH (<[name:=v]> ik) (Some cn)) as [Hpre' Hret'].
        split; [by apply prefix_cons|]. intros r Hr. f_equal. by eapply Hret'.
Qed.

End LoopOrigin.

Lemma omap_None {A B} (f : A → option B) l :
  Forall (λ x, f x = None) l → omap f l = [].
Proof. induction 1 as [|x l Hx _ IH]; simpl; [done|]. by rewrite Hx. Qed.

Lemma preparation_is_not_a_load ev : is_preparation ev = true → loaded_component ev = None.
Proof. by destruct ev. Qed.

Lemma finishing_is_not_a_loading_call ev : is_finishing ev = true → loaded_component ev = None.
Proof. by destruct ev. Qed.

(** ** Null components: lines 443-450 and 478-489 *)

Section NullComponents.
Context (w : World) (cls : pipeline_class) (path : string) (kwargs : gmap string pyval).

Local Abbreviation run := (from_single_file w cls path kwargs).
Local Abbreviation prepared := (prepare w cls path kwargs).

(** What line 450 keeps was in the dictionary and passes [load_module]. *)
Lemma loadable_kept passed d kept k v :
  loadable passed d = inr kept → (k, v) ∈ kept →
  (k, v) ∈ d ∧ load_module passed k v = inr true.
Proof.
  revert kept. induction d as [|[k' v'] d IH]; intros kept; simpl.
  - intros [= <-] ?%elem_of_nil. done.
  - destruct (load_module passed k' v') as [e|keep] eqn:Hkeep; [done|].
    destruct (loadable passed d) as [e|kept'] eqn:Hkept; [done|].
    intros [= <-]. destruct keep.
    + intros [[= -> ->]|Hin]%elem_of_cons.
      * split; [by left|done].
      * destruct (IH _ eq_refl Hin). split; [by right|done].
    + intros Hin. destruct (IH _ eq_refl Hin). split; [by right|done].
Qed.

(** A component whose spec has no library is not in the loading set. *)
Lemma null_spec_not_selected t pl name :
  prepared = (t, inr pl) →
  (∀ v, (name, v) ∈ extracted (sel pl) → v = PPair None None) →
  name ∉ Dict.keys (init_dict (sel pl)).
Proof.
  intros (t0 & t1 & t2 & cfg & _ & _ & _ & Hsel & _)%prepare_inv Hnull.
  apply select_components_inv in Hsel as (_ & _ & _ & _ & _ & _ & Hkept & _).
  unfold Dict.keys. intros ([k v] & Hk & Hin)%list_elem_of_fmap. simpl in Hk. subst k.
  destruct (loadable_kept _ _ _ _ _ Hkept Hin) as [Hex Hload].
  apply list_elem_of_filter in Hex as [_ Hex]. rewrite (Hnull _ Hex) in Hload. done.
Qed.

(** Before the loop, [init_kwargs] holds optional keyword arguments only. *)
Lemma init_kwargs_optional t pl name :
  prepared = (t, inr pl) →
  is_Some (init_kwargs (sel pl) !! name) → name ∈ optional_kwargs (sel pl).
Proof.
  intros (t0 & t1 & t2 & cfg & _ & _ & _ & Hsel & _)%prepare_inv.
  apply select_components_inv in Hsel as (_ & _ & _ & _ & _ & -> & _).
  unfold pop_all. simpl. intros [v Hv].
  apply lookup_union_Some_raw in Hv as [Hv|[_ Hv]].
  - by apply map_lookup_filter_Some in Hv as [_ Hv].
  - apply elem_of_list_to_map_2, list_elem_of_filter in Hv as [[Hv _] _]. done.
Qed.

(** No loading call is made for a component outside the loading set, nor
    for one the caller passed. *)
Lemma not_loaded t pl name :
  prepared = (t, inr pl) →
  name ∉ Dict.keys (init_dict (sel pl)) ∨ is_Some (passed_class_obj (sel pl) !! name) →
  Forall (λ ev, loads_component name ev = false) (trace run).
Proof.
  intros Hprep Hname.
  assert (Forall (λ ev, loads_component name ev = false) (trace (load_plan w pl))) as Hloop.
  { eapply Forall_impl; [apply load_plan_events|]. intros ev (_ & Hload & _).
    destruct (loads_component name ev) eqn:Hev; [|done]. exfalso.
    destruct Hload as (n & Hn & Hpassed & Hloads); [by destruct ev|].
    assert (n = name) as ->.
    { destruct ev; try done; simpl in Hev, Hloads;
        apply String.eqb_eq in Hev, Hloads; congruence. }
    destruct Hname as [?|[? ?]]; [done|congruence]. }
  assert (Forall (λ ev, loads_component name ev = false) t) as Hbefore.
  { pose proof (prepare_events w cls path kwargs) as H. rewrite Hprep in H.
    eapply Forall_impl; [exact H|]. intros ev ?. by destruct ev. }
  destruct (run_cases w cls path kwargs) as
    [(t1 & e & Hp & ->)|[(t1 & pl1 & t' & e & Hp & Hload & ->)|
     [(t1 & pl1 & t' & ik & cnv & e & Hp & Hload & _ & ->)|
      (t1 & pl1 & t' & ik & cnv & ik' & Hp & Hload & _ & ->)]]];
    rewrite Hprep in Hp; try done; injection Hp as <- <-; unfold trace at 1; simpl.
  - rewrite Hload in Hloop. by apply Forall_app.
  - rewrite Hload in Hloop. by apply Forall_app.
  - rewrite Hload in Hloop. rewrite !Forall_app. split_and!; [done|done|].
    eapply Forall_impl; [apply finish_events|]. intros ev ?. by destruct ev.
Qed.

(** C3, amended. A component whose spec is [(None, None)] is left out of
    the loading set before the loop starts: no spec with a null library
    reaches the loop, and no call of the run loads the component.  The
    failure comes later: if the loop runs to its end, having loaded every
    component of the loading set that was not passed, and the constructor
    requires the component (it is expected, not optional, and the caller did
    not pass it), the call raises the [ValueError] of line 487.  Its message
    prints the expected modules and the modules that were loaded or passed
    less the optional keywords: every missing module that was not passed is
    in the first set and not in the second. *)
Theorem underspecified_manifest_rejected t pl name :
  prepared = (t, inr pl) →
  (∀ v, (name, v) ∈ extracted (sel pl) → v = PPair None None) →
  ((name ∉ Dict.keys (init_dict (sel pl))) ∧
   (∀ k library_name class_name,
      (k, PPair library_name class_name) ∈ init_dict (sel pl) → is_Some library_name) ∧
   Forall (λ ev, loads_component name ev = false) (trace run)) ∧
  ∀ t' ik cnv,
    load_plan w pl = (t', inr (ik, cnv)) →
    name ∈ expected_modules (sel pl) →
    name ∉ optional_kwargs (sel pl) →
    name ∉ optional_components (pipeline_cls pl) →
    passed_class_obj (sel pl) !! name = None →
    run = (t ++ t',
           inl (ValueError
                  (PipelineExpected (pipe_name (pipeline_cls pl))
                     (expected_modules (sel pl))
                     ((dom ik ∪ dom (passed_class_obj (sel pl)))
                        ∖ optional_kwargs (sel pl))))) ∧
    omap loaded_component t'
      = filter (λ n, passed_class_obj (sel pl) !! n = None)
          (Dict.keys (init_dict (sel pl))) ∧
    name ∈ missing_modules (sel pl) ik ∧
    (∀ n, n ∈ missing_modules (sel pl) ik → passed_class_obj (sel pl) !! n = None →
          n ∈ expected_modules (sel pl) ∧
          n ∉ (dom ik ∪ dom (passed_class_obj (sel pl))) ∖ optional_kwargs (sel pl)).
Proof.
  intros Hprep Hnull.
  pose proof (null_spec_not_selected _ _ _ Hprep Hnull) as Hout.
  split; [split_and!|].
  - done.
  - intros k lib cn Hin.
    apply prepare_inv in Hprep as (t0 & t1 & t2 & cfg & _ & _ & _ & Hsel & _).
    apply select_components_inv in Hsel as (_ & _ & _ & _ & _ & _ & Hkept & _).
    destruct (loadable_kept _ _ _ _ _ Hkept Hin) as [_ Hload].
    unfold load_module in Hload. simpl in Hload. by destruct lib.
  - by apply (not_loaded t pl); [|left].
  - intros t' ik cnv Hload Hexpected Hnotkw Hrequired Hnotpassed.
    assert (name ∈ missing_modules (sel pl) ik) as Hmissing.
    { destruct (load_components_result _ _ _ _ _ _ _ _ _ _ _ _ _ _ Hload)
        as (Hdom & _).
      unfold missing_modules. rewrite Hdom. apply elem_of_difference. split; [done|].
      intros [Hin|Hin]%elem_of_union.
      - apply elem_of_dom in Hin. by apply (init_kwargs_optional _ _ _ Hprep) in Hin.
      - by apply elem_of_list_to_set in Hin. }
    split_and!.
    + eapply run_stops_in_check; [done|done|]. by eapply check_missing_modules_raises.
    + destruct (load_components_order w (args pl) (ckpt pl)
                  (default_pretrained_model_name_or_path pl) (fetched_original_config pl)
                  (is_legacy_loading pl) (passed_class_obj (sel pl))
                  (remaining_kwargs (sel pl)) (init_dict (sel pl)) (init_kwargs (sel pl))
                  None) as [_ Hall].
      fold (load_plan w pl) in Hall. rewrite Hload in Hall. by eapply Hall.
    + done.
    + intros n Hn Hnp. unfold missing_modules in Hn.
      apply elem_of_difference in Hn as [Hn Hnot]. split; [done|].
      intros [[Hin|Hin]%elem_of_union _]%elem_of_difference; [done|].
      apply elem_of_dom in Hin as [? ?]. congruence.
Qed.

End NullComponents.

Lemma underspecified_manifest_rejected_witness :
  ("unet" ∉ Dict.keys (init_dict (sel (Runs.the_plan
                                         (Sample.world true Sample.sd_manifest_null_unet)
                                         ∅)))) ∧
  from_single_file (Sample.world true Sample.sd_manifest_null_unet)
    Sample.StableDiffusionPipeline "./v1-5-pruned-emaonly" ∅
  = (trace (Runs.prepared (Sample.world true Sample.sd_manifest_null_unet) ∅)
       ++ trace (Runs.loaded (Sample.world true Sample.sd_manifest_null_unet) ∅),
     inl (ValueError
            (PipelineExpected "StableDiffusionPipeline" Sample.sd_expected
               (list_to_set ["feature_extractor"; "safety_checker"; "scheduler";
                             "text_encoder"; "tokenizer"; "vae"])))) ∧
  omap loaded_component
    (trace (Runs.loaded (Sample.world true Sample.sd_manifest_null_unet) ∅))
  = ["feature_extractor"; "safety_checker"; "scheduler"; "text_encoder"; "tokenizer";
     "vae"].
Proof.
  pose (w := Sample.world true Sample.sd_manifest_null_unet).
  destruct (underspecified_manifest_rejected w Sample.StableDiffusionPipeline
              "./v1-5-pruned-emaonly" ∅
              (trace (Runs.prepared w ∅)) (Runs.the_plan w ∅) "unet")
    as [(Hout & _ & _) Hlater].
  - reflexivity.
  - intros v Hin. vm_compute in Hin.
    repeat (apply elem_of_cons in Hin as [Hin|Hin]; [by injection Hin as <-|]).
    by apply elem_of_nil in Hin.
  - destruct (Hlater (trace (Runs.loaded w ∅)) (Runs.loaded_kwargs w ∅)
                (Runs.loop_variable w ∅)) as (Hrun & Horder & _).
    + reflexivity.
    + refine (bool_decide_unpack _ _). exact I.
    + refine (bool_decide_unpack _ _). exact I.
    + refine (bool_decide_unpack _ _). exact I.
    + reflexivity.
    + clear Hlater. split_and!; [exact Hout|exact Hrun|exact Horder].
Defined.

(** The claim C3 as first stated fails: with a null UNet and the safety
    checker disabled by the caller, the missing modules are the UNet, the
    image encoder and the safety checker; the message prints the expected
    and the passed sets, neither is the missing set, nor is their
    difference. *)
Lemma underspecified_error_prints_other_sets :
  missing_modules
    (sel (Runs.the_plan (Sample.world true Sample.sd_manifest_null_unet)
            {[ "safety_checker" := PNone ]}))
    (Runs.loaded_kwargs (Sample.world true Sample.sd_manifest_null_unet)
       {[ "safety_checker" := PNone ]})
    = list_to_set ["unet"; "image_encoder"; "safety_checker"] ∧
  ∃ passed_modules,
    outcome (from_single_file (Sample.world true Sample.sd_manifest_null_unet)
               Sample.StableDiffusionPipeline "./v1-5-pruned-emaonly"
               {[ "safety_checker" := PNone ]})
      = inl (ValueError (PipelineExpected "StableDiffusionPipeline"
                           Sample.sd_expected passed_modules)) ∧
    (list_to_set ["unet"; "image_encoder"; "safety_checker"]
       ∉ printed_sets (PipelineExpected "StableDiffusionPipeline"
                         Sample.sd_expected passed_modules)) ∧
    Sample.sd_expected ∖ passed_modules
      ≠ list_to_set ["unet"; "image_encoder"; "safety_checker"].
Proof.
  split; [reflexivity|].
  exists (list_to_set ["feature_extractor"; "safety_checker"; "scheduler";
                       "text_encoder"; "tokenizer"; "vae"]).
  split_and!.
  - reflexivity.
  - refine (bool_decide_unpack _ _). exact I.
  - refine (bool_decide_unpack _ _). exact I.
Qed.

(** ** Components passed by the caller: lines 430, 456-457 and 482-484 *)

Section PassedComponents.
Context (w : World) (cls : pipeline_class) (path : string) (kwargs : gmap string pyval).

Local Abbreviation run := (from_single_file w cls path kwargs).
Local Abbreviation prepared := (prepare w cls path kwargs).

(** [passed_class_obj] holds the expected modules found among the keywords. *)
Lemma passed_class_obj_given t pl name instance :
  prepared = (t, inr pl) →
  passed_class_obj (sel pl) !! name = Some instance ↔
  rest (parse_arguments kwargs) !! name = Some instance ∧
  name ∈ expected_modules (sel pl).
Proof.
  intros (t0 & t1 & t2 & cfg & Hargs & _ & _ & Hsel & _)%prepare_inv.
  apply select_components_inv in Hsel as (_ & _ & -> & _).
  unfold pop_all. simpl. rewrite map_lookup_filter_Some. by rewrite Hargs.
Qed.

(** The keywords left by a check that passed hold the passed instance. *)
Lemma checked_kwargs_hold_instance t pl t' ik cnv tc ik' name instance :
  prepared = (t, inr pl) →
  load_plan w pl = (t', inr (ik, cnv)) →
  check_missing_modules (pipeline_cls pl) (sel pl) ik = (tc, inr ik') →
  passed_class_obj (sel pl) !! name = Some instance →
  name ∉ optional_kwargs (sel pl) →
  ik' !! name = Some instance.
Proof.
  intros Hprep Hload Hcheck Hpassed Hnotkw.
  destruct (check_missing_modules_passes _ _ _ _ _ Hcheck) as (_ & Hfilled & Hkept).
  destruct (decide (name ∈ missing_modules (sel pl) ik)) as [Hmissing|Hpresent].
  { rewrite (Hfilled _ Hmissing). by rewrite Hpassed. }
  rewrite (Hkept _ Hpresent).
  destruct (load_components_result _ _ _ _ _ _ _ _ _ _ _ _ _ _ Hload)
    as (Hdom & Hother & Hinst & _).
  destruct (decide (name ∈ Dict.keys (init_dict (sel pl)))) as [Hin|Hout].
  { by apply Hinst. }
  exfalso. apply Hpresent. unfold missing_modules. apply elem_of_difference. split.
  - by apply (passed_class_obj_given _ _ _ _ Hprep) in Hpassed as [_ ?].
  - rewrite Hdom. intros [Hin|Hin]%elem_of_union.
    + apply elem_of_dom in Hin. by apply (init_kwargs_optional _ _ _ _ _ _ _ Hprep) in Hin.
    + by apply elem_of_list_to_set in Hin.
Qed.

(** C6, amended. For a component name for which the caller passed an
    instance, no loading call is made for that name, and the constructor,
    if the call reaches it, receives that very instance under that name,
    unless a deprecated path that was triggered built a component of that
    name (the default safety checker and feature extractor, or what the
    legacy scheduler constructor returns).  An explicit [None] is such an
    instance. *)
Theorem passed_instance_is_kept t pl name instance :
  prepared = (t, inr pl) →
  rest (parse_arguments kwargs) !! name = Some instance →
  name ∈ expected_modules (sel pl) →
  name ∉ optional_kwargs (sel pl) →
  default PNone (remaining_kwargs (sel pl) !! "load_safety_checker") = PNone
    ∨ (name ≠ "safety_checker" ∧ name ≠ "feature_extractor") →
  default PNone (remaining_kwargs (sel pl) !! "scheduler_type") = PNone
    ∨ (∀ class_name ck oc st pt components,
         legacy_load_scheduler_from_scheduler_type w class_name ck oc st pt
           = inr components →
         components !! name = None) →
  Forall (λ ev, loads_component name ev = false) (trace run) ∧
  ∀ pipeline init_kwargs,
    EvConstruct pipeline init_kwargs ∈ trace run →
    init_kwargs !! name = Some instance.
Proof.
  intros Hprep Hgiven Hexpected Hnotkw Hsafety Hscheduler.
  assert (passed_class_obj (sel pl) !! name = Some instance) as Hpassed.
  { by apply (passed_class_obj_given _ _ _ _ Hprep). }
  split.
  { apply (not_loaded w cls path kwargs t pl); [done|]. right. by eexists. }
  intros pipeline init_kwargs Hin.
  destruct (finishing_event_inv w cls path kwargs _ Hin eq_refl) as
    (t2 & pl2 & t' & ik & cnv & ik' & Hprep2 & Hload & Hcheck & _ & Hfin).
  rewrite Hprep in Hprep2. injection Hprep2 as <- <-.
  destruct (finish_construct _ _ _ _ _ _ Hfin) as
    (safety & sched & -> & Hs0 & Hs1 & Hc0 & Hc1).
  assert (sched !! name = None) as Hsched.
  { destruct (decide (default PNone (remaining_kwargs (sel pl) !! "scheduler_type")
                      = PNone)) as [Hno|Hyes].
    - by rewrite (Hc0 Hno).
    - destruct Hscheduler as [?|Hscheduler]; [done|].
      destruct (Hc1 Hyes) as (cn & _ & Hcomps). by eapply Hscheduler. }
  assert (safety !! name = None) as Hsaf.
  { destruct (decide (default PNone (remaining_kwargs (sel pl) !! "load_safety_checker")
                      = PNone)) as [Hno|Hyes].
    - by rewrite (Hs0 Hno).
    - destruct Hsafety as [?|[Hne1 Hne2]]; [done|].
      destruct (Hs1 Hyes) as (fe & sc & _ & _ & ->).
      by rewrite !lookup_insert_ne. }
  rewrite lookup_union_r by done. rewrite lookup_union_r by done.
  by eapply checked_kwargs_hold_instance.
Qed.

End PassedComponents.

Lemma passed_instance_is_kept_witness :
  (λ init_kwargs : gmap string pyval, init_kwargs !! "safety_checker")
    <$> constructed (trace (from_single_file (Sample.world true Sample.sd_manifest)
                              Sample.StableDiffusionPipeline "./v1-5-pruned-emaonly"
                              {[ "safety_checker" := PNone ]}))
  = [Some PNone] ∧
  Forall (λ ev, loads_component "safety_checker" ev = false)
    (trace (from_single_file (Sample.world true Sample.sd_manifest)
              Sample.StableDiffusionPipeline "./v1-5-pruned-emaonly"
              {[ "safety_checker" := PNone ]})).
Proof.
  pose (w := Sample.world true Sample.sd_manifest).
  pose (kwargs := ({[ "safety_checker" := PNone ]} : gmap string pyval)).
  destruct (passed_instance_is_kept w Sample.StableDiffusionPipeline
              "./v1-5-pruned-emaonly" kwargs
              (trace (Runs.prepared w kwargs)) (Runs.the_plan w kwargs)
              "safety_checker" PNone) as (Hnot_loaded & Hkept).
  - reflexivity.
  - reflexivity.
  - refine (bool_decide_unpack _ _). exact I.
  - refine (bool_decide_unpack _ _). exact I.
  - left. reflexivity.
  - left. reflexivity.
  - split; [|exact Hnot_loaded].
    assert (constructed (trace (from_single_file w Sample.StableDiffusionPipeline
                                  "./v1-5-pruned-emaonly" kwargs))
            = [<[ "safety_checker" := PNone ]>
                 (<[ "image_encoder" := PNone ]> (Runs.loaded_kwargs w kwargs))])
      as Hcalls by reflexivity.
    fold w kwargs. rewrite Hcalls. simpl. apply (f_equal (λ x, [x])).
    apply (Hkept "StableDiffusionPipeline").
    refine (bool_decide_unpack _ _). exact I.
Defined.

(** The claim C6 as first stated fails: with [load_safety_checker] given,
    the safety checker the caller passed is replaced by the default one in
    the constructor keywords. *)
Lemma passed_safety_checker_is_replaced :
  ({[ "safety_checker" := PObj "mine"; "load_safety_checker" := PBool true ]}
     : gmap string pyval) !! "safety_checker" = Some (PObj "mine") ∧
  (λ init_kwargs : gmap string pyval, init_kwargs !! "safety_checker")
    <$> constructed (trace (from_single_file (Sample.world true Sample.sd_manifest)
                              Sample.StableDiffusionPipeline "./v1-5-pruned-emaonly"
                              {[ "safety_checker" := PObj "mine";
                                 "load_safety_checker" := PBool true ]}))
  = [Some (PObj "default_safety_checker")].
Proof. split; reflexivity. Qed.


(** ** Manifest synthesis as a map over the declared parameters *)

Section SynthesisMap.
Context (w : World).

Local Arguments String.eqb : simpl never.

Lemma branch_spec_component_spec c :
  branch_spec (component_branch w c) c = Some (component_spec w c).
Proof.
  unfold component_branch, component_spec.
  destruct (sub_ModelMixin c); [done|].
  destruct (String.eqb (cname c) "KarrasDiffusionSchedulers"); [done|].
  destruct (sub_SchedulerMixin c); [done|]. simpl.
  destruct (is_transformers_model w c); simpl; [done|].
  by destruct (is_transformers_tokenizer w c).
Qed.

Lemma dict_keys_set_fresh {V} k (v : V) d :
  k ∉ Dict.keys d → Dict.set k v d = d ++ [(k, v)].
Proof.
  induction d as [|[k' v'] d IH]; simpl; [done|].
  intros [Hne Hk]%not_elem_of_cons.
  destruct (String.eqb k k') eqn:Heq; [by apply String.eqb_eq in Heq|].
  by rewrite IH.
Qed.

Lemma elem_of_dict_remove_iff {V} k (d : list (string * V)) k' v :
  (k', v) ∈ Dict.remove k d ↔ (k', v) ∈ d ∧ k' ≠ k.
Proof.
  induction d as [|[k0 v0] d IH]; simpl.
  - rewrite elem_of_nil. tauto.
  - destruct (String.eqb k k0) eqn:Heq.
    + apply String.eqb_eq in Heq as <-. rewrite IH, elem_of_cons. split.
      * intros [? ?]. auto.
      * intros [[[= -> ->]|?] ?]; [done|auto].
    + apply String.eqb_neq in Heq. rewrite !elem_of_cons, IH. split.
      * intros [[= -> ->]|[? ?]]; [split; [by left|congruence]|auto].
      * intros [[?|?] ?]; auto.
Qed.

Lemma dict_remove_keys {V} k (d : list (string * V)) :
  Dict.keys (Dict.remove k d) = filter (λ k', k' ≠ k) (Dict.keys d).
Proof.
  induction d as [|[k0 v0] d IH]; simpl; [done|].
  destruct (String.eqb k k0) eqn:Heq.
  - apply String.eqb_eq in Heq as <-. rewrite filter_cons_False by (by intros ?). done.
  - apply String.eqb_neq in Heq. rewrite filter_cons_True by congruence.
    simpl. by rewrite IH.
Qed.

Lemma map_component_types_is_map items acc :
  NoDup (Dict.keys acc ++ Dict.keys items) →
  (∀ k tys, (k, tys) ∈ items → tys ≠ []) →
  map_component_types w items acc
  = inr (acc ++ omap (λ kv, (λ c, (kv.1, component_spec w c)) <$> head kv.2) items).
Proof.
  revert acc. induction items as [|[k tys] items IH]; intros acc Hnodup Htys; simpl.
  - by rewrite app_nil_r.
  - destruct tys as [|c tys]; [by destruct (Htys k []); [left|]|].
    rewrite branch_spec_component_spec. simpl.
    simpl in Hnodup. apply NoDup_app in Hnodup as (Hacc & Hdisj & Hitems).
    apply NoDup_cons in Hitems as [Hk Hitems].
    rewrite dict_keys_set_fresh by (intros Hin; apply (Hdisj _ Hin); by left).
    rewrite IH.
    + by rewrite <- (assoc_L (++)).
    + unfold Dict.keys. rewrite fmap_app. simpl. apply NoDup_app. split_and!.
      * apply NoDup_app. split_and!; [done| |apply NoDup_singleton].
        intros x Hx ->%list_elem_of_singleton. apply (Hdisj _ Hx). by left.
      * intros x [Hx| ->%list_elem_of_singleton]%elem_of_app Hin; [|done].
        apply (Hdisj _ Hx). by right.
      * done.
    + intros k' tys' Hin. apply (Htys k'). by right.
Qed.





End SynthesisMap.

(** ** The whole call, stage by stage *)

Lemma preparation_is_not_loading ev : is_preparation ev = true → is_loading ev = false.
Proof. destruct ev as [|[]| | | | | | | | | | | | | | | |]; done. Qed.

Lemma finishing_is_not_loading ev : is_finishing ev = true → is_loading ev = false.
Proof. destruct ev as [|[]| | | | | | | | | | | | | | | |]; done. Qed.

Section WholeRun.
Context (w : World) (cls : pipeline_class) (path : string) (kwargs : gmap string pyval).

Local Abbreviation run := (from_single_file w cls path kwargs).
Local Abbreviation prepared := (prepare w cls path kwargs).

(** A call whose preparation succeeded either stops in the loop or in the
    check of missing modules, or goes on to lines 491-528. *)
Lemma run_trace t pl :
  prepared = (t, inr pl) →
  (∃ e, run = (t ++ trace (load_plan w pl), inl e) ∧
     (outcome (load_plan w pl) = inl e ∨
      ∃ ik cnv, outcome (load_plan w pl) = inr (ik, cnv) ∧
        check_missing_modules (pipeline_cls pl) (sel pl) ik = ([], inl e))) ∨
  (∃ ik cnv ik', outcome (load_plan w pl) = inr (ik, cnv) ∧
     check_missing_modules (pipeline_cls pl) (sel pl) ik = ([], inr ik') ∧
     run = (t ++ trace (load_plan w pl) ++ trace (finish w pl cnv ik'),
            outcome (finish w pl cnv ik'))).
Proof.
  intros Hprep.
  destruct (run_cases w cls path kwargs)
    as [(t1 & e & Hprep' & Hrun)|[(t1 & pl1 & t' & e & Hprep' & Hload & Hrun)|
    [(t1 & pl1 & t' & ik & cnv & e & Hprep' & Hload & Hcheck & Hrun)|
     (t1 & pl1 & t' & ik & cnv & ik' & Hprep' & Hload & Hcheck & Hrun)]]];
    rewrite Hprep in Hprep'; [done|..]; injection Hprep' as <- <-.
  - left. exists e. rewrite Hload. split; [done|]. by left.
  - left. exists e. rewrite Hload. split; [done|]. right. by exists ik, cnv.
  - right. exists ik, cnv, ik'. rewrite Hload. by split_and!.
Qed.

(** Every call of the whole run that is a loading call or a fallback
    warning is a call of the sub-model loader, made by the loop for an entry
    of the loading set that the caller did not pass. *)
Lemma loading_event_origin ev :
  ev ∈ trace run → is_loading ev = true →
  ∃ t pl name value library_name class_name,
    prepared = (t, inr pl) ∧ (name, value) ∈ init_dict (sel pl) ∧
    unpack_spec value = inr (Some library_name, class_name) ∧
    passed_class_obj (sel pl) !! name = None ∧
    ev ∈ trace (sub_model_call w pl name library_name class_name).
Proof.
  intros Hin Hloading.
  pose proof (prepare_events w cls path kwargs) as Hpe. rewrite Forall_forall in Hpe.
  destruct prepared as [t [e|pl]] eqn:Hprep.
  { rewrite (run_stops_in_preparation _ _ _ _ _ _ Hprep) in Hin.
    apply Hpe, preparation_is_not_loading in Hin. congruence. }
  assert (ev ∈ trace (load_plan w pl)) as Hl.
  { destruct (run_trace t pl Hprep) as [(e & Hrun & _)|(ik & cnv & ik' & _ & _ & Hrun)];
      rewrite Hrun in Hin; unfold trace at 1 in Hin; simpl in Hin;
      repeat (apply elem_of_app in Hin as [Hin|Hin]); try done.
    - apply Hpe, preparation_is_not_loading in Hin. congruence.
    - apply Hpe, preparation_is_not_loading in Hin. congruence.
    - pose proof (finish_events w pl cnv ik') as Hfe. rewrite Forall_forall in Hfe.
      apply Hfe, finishing_is_not_loading in Hin. congruence. }
  apply load_components_origin in Hl as (name & value & lib & cn & ? & ? & ? & ?).
  by exists t, pl, name, value, lib, cn.
Qed.

End WholeRun.

(** ** What a successful preparation has read *)

Section PreparationInv.
Context (w : World) (cls : pipeline_class) (path : string).

Lemma fetch_manifest_inv pc a p tm r :
  fetch_manifest w cls pc a p = (tm, inr r) →
  ∃ config_file,
    hf_hub_download w p (config_name cls) (hub_transport a) = inr config_file ∧
    dict_from_json_file w pc config_file = inr r.1 ∧ r.2 = false ∧
    tm = [EvHubDownload p (config_name cls) (hub_transport a);
          EvDictFromJsonFile config_file].
Proof.
  unfold fetch_manifest, ask.
  destruct (hf_hub_download w p (config_name cls) (hub_transport a)) as [e|f]; [done|].
  simpl. destruct (dict_from_json_file w pc f) as [e|d] eqn:Hd; [done|]. simpl.
  intros [= <- <-]. by exists f.
Qed.

(** The identity, the directory test and the source of the manifest behind a
    resolved manifest. *)
Lemma resolve_config_dict_inv pc a ck t1 p config_dict leg :
  resolve_config_dict w cls pc a ck = (t1, inr (p, config_dict, leg)) →
  ∃ ti tm d,
    inferred_identity w a ck = (ti, inr (PStr p)) ∧
    t1 = ti ++ [EvIsDir p] ++ tm ∧
    config_dict = Dict.remove "_ignore_files" d ∧
    ((isdir w p = true ∧ leg = false ∧ tm = [EvLoadConfig p] ∧
      load_config w pc p = inr d) ∨
     (isdir w p = false ∧ count_slash p ≤ 1 ∧ leg = false ∧
      fetch_manifest w cls pc a p = (tm, inr (d, false))) ∨
     (isdir w p = false ∧ count_slash p ≤ 1 ∧ leg = true ∧
      ∃ tf synthesized,
        fetch_manifest w cls pc a p = (tf, inl LocalEntryNotFoundError) ∧
        tm = tf ++ [EvWarning (InferredComponents p)] ∧
        _map_component_types_to_config_dict w
          (filter (λ kv, kv.1 ∉ optional_components pc) (get_signature_types w pc))
          = inr synthesized ∧
        d = Dict.set "_class_name" (PStr (pipe_name pc)) synthesized)).
Proof.
  unfold resolve_config_dict.
  intros (ti & v & t' & Hid & H & ->)%bind_value_inv.
  destruct v as [| | |s| |]; try done.
  apply bind_value_inv in H as (tx & is_dir & t'' & Hask & H & ->).
  injection Hask as <- <-.
  apply bind_value_inv in H as (tm & [d leg'] & tr & Hm & [= <- -> <- ->] & ->).
  exists ti, tm, d. rewrite app_nil_r. split_and!; [done|done|done|].
  destruct (isdir w p) eqn:Hdir; simpl in Hm.
  - left. unfold ask in Hm. simpl in Hm.
    destruct (load_config w pc p) as [e|d'] eqn:Hlc; simpl in Hm; [done|].
    injection Hm as <- <- <-. by split_and!.
  - right. destruct (1 <? count_slash p) eqn:Hslash; [done|].
    apply Nat.ltb_ge in Hslash.
    destruct (fetch_manifest w cls pc a p) as [tf [e|r]] eqn:Hf.
    + right. destruct e; try done. simpl in Hm.
      unfold synthesize_config_dict in Hm.
      destruct (_map_component_types_to_config_dict w _) as [e|s] eqn:Hs;
        simpl in Hm; [done|].
      injection Hm as <- <- <-. split_and!; [done|done|done|].
      by exists tf, s.
    + left. simpl in Hm. injection Hm as <- ->.
      apply fetch_manifest_inv in Hf as Hf'. destruct Hf' as (f & _ & _ & Hleg & _).
      simpl in Hleg. subst leg. by split_and!.
Qed.

(** What a successful acquisition has checked and fetched. *)
Lemma acquire_inv a t0 oc pc ck :
  acquire w cls path a = (t0, inr (oc, pc, ck)) →
  (is_None (config a) = true ∨ is_None (effective_original_config a) = true) ∧
  (if is_None (effective_original_config a) then oc = PNone
   else invoke w (EvFetchOriginalConfig (effective_original_config a)
                    (local_files_only a)) = inr oc) ∧
  get_pipeline_class w cls = inr pc ∧
  load_single_file_checkpoint w path (checkpoint_transport a) = inr ck.
Proof.
  unfold acquire. rewrite !deprecate_if_given_spec. unfold call, ask, lift, ret, raise.
  destruct (is_None (config a)) eqn:Hc;
    destruct (is_None (effective_original_config a)) eqn:Ho; simpl;
    destruct (get_pipeline_class w cls) as [e|pc'] eqn:Hpc;
    destruct (load_single_file_checkpoint w path (checkpoint_transport a))
      as [e'|ck'] eqn:Hck;
    try destruct (invoke w (EvFetchOriginalConfig (effective_original_config a)
                              (local_files_only a))) as [e''|oc'] eqn:Hoc;
    simpl; intros H; try done; injection H as _ <- <- <-;
    split_and!; auto; by apply is_None_true.
Qed.

(** The calls of an acquisition, with their arguments. *)
Lemma acquire_event_forms a ev :
  ev ∈ trace (acquire w cls path a) →
  (∃ k, ev = EvDeprecate k ∧
        k ∈ ["original_config_file"; "scaling_factor"; "prediction_type"]) ∨
  ev = EvFetchOriginalConfig (effective_original_config a) (local_files_only a) ∨
  ev = EvLoadCheckpoint path (checkpoint_transport a).
Proof.
  revert ev. apply Forall_forall.
  unfold acquire, deprecate_if_given. walk_trace; auto.
  all: left; eexists; split; [done|]; set_solver.
Qed.

(** The calls of a manifest resolution, with their arguments. *)
Lemma resolve_event_forms pc a ck ev :
  ev ∈ trace (resolve_config_dict w cls pc a ck) →
  ev = EvFetchDiffusersConfig ∨ (∃ p, ev = EvIsDir p) ∨
  (∃ p, ev = EvHubDownload p (config_name cls) (hub_transport a)) ∨
  (∃ f, ev = EvDictFromJsonFile f) ∨ (∃ p, ev = EvLoadConfig p) ∨
  (∃ p, ev = EvWarning (InferredComponents p)).
Proof.
  revert ev. apply Forall_forall.
  unfold resolve_config_dict, inferred_identity. walk_trace; eauto 10.
  apply Forall_trace_except.
  - unfold fetch_manifest. walk_trace; eauto 10.
  - unfold synthesize_config_dict. walk_trace; eauto 10.
Qed.

End PreparationInv.

(** ** The cache miss: lines 404-420 *)

Section CacheMiss.
Context (w : World) (cls : pipeline_class) (path : string) (kwargs : gmap string pyval).

Local Abbreviation run := (from_single_file w cls path kwargs).
Local Abbreviation prepared := (prepare w cls path kwargs).











End CacheMiss.





(** ** The scenarios of the specification, run on the sample world *)

(** A diffusers model without single-file support falls back to
    [from_pretrained], with a warning and with its dtype. *)
Example fallback_warns_and_forwards_dtype :
  load_single_file_sub_model (Sample.world true []) "diffusers"
    (Some "PriorTransformer") (PStr "runwayml/stable-diffusion-v1-5") "prior" []
    false PNone (PBool false) (PObj "float16") PNone false ∅
  = ([EvWarning (FallbackToPretrained "prior" "PriorTransformer"
                   (PStr "runwayml/stable-diffusion-v1-5"));
      EvFromPretrained "PriorTransformer" "prior"
        (PStr "runwayml/stable-diffusion-v1-5") (PBool false) PNone
        {[ "torch_dtype" := PObj "float16" ]}],
     inr (PObj "from_pretrained:PriorTransformer")).
Proof. reflexivity. Qed.

(** A manifest found in a local directory: every component it names is
    loaded, in manifest order, and the null image encoder is left as [None]. *)
Example directory_manifest_loads_its_components :
  filter (λ ev, is_component_load ev = true)
    (trace (from_single_file (Sample.world true Sample.sd_manifest)
              Sample.StableDiffusionPipeline "./v1-5-pruned-emaonly"
              {[ "config" := PStr "./models/sd/v1-5" ]}))
  = [EvFromPretrained "CLIPImageProcessor" "feature_extractor"
       (PStr "./models/sd/v1-5") (PBool false) PNone ∅;
     EvFromPretrained "StableDiffusionSafetyChecker" "safety_checker"
       (PStr "./models/sd/v1-5") (PBool false) PNone {[ "torch_dtype" := PNone ]};
     EvFromPretrained "PNDMScheduler" "scheduler"
       (PStr "./models/sd/v1-5") (PBool false) PNone ∅;
     EvClipFromLdm "CLIPTextModel" "text_encoder"
       (PStr "./models/sd/v1-5") PNone (PBool false) false;
     EvFromPretrained "CLIPTokenizer" "tokenizer"
       (PStr "./models/sd/v1-5") (PBool false) PNone ∅;
     EvFromSingleFile "UNet2DConditionModel" "unet" PNone
       (PStr "./models/sd/v1-5") PNone (PBool false) ∅;
     EvFromSingleFile "AutoencoderKL" "vae" PNone
       (PStr "./models/sd/v1-5") PNone (PBool false) ∅] ∧
  (λ init_kwargs : gmap string pyval, init_kwargs !! "image_encoder")
    <$> constructed (trace (from_single_file (Sample.world true Sample.sd_manifest)
                              Sample.StableDiffusionPipeline "./v1-5-pruned-emaonly"
                              {[ "config" := PStr "./models/sd/v1-5" ]}))
  = [Some PNone].
Proof. split; reflexivity. Qed.

(** The deprecated [scheduler_type]: one deprecation notice, and the
    scheduler of the constructor is the one the legacy path built. *)
Example scheduler_type_is_deprecated_once :
  filter (λ ev, ev = EvDeprecate "scheduler_type")
    (trace (from_single_file (Sample.world true Sample.sd_manifest)
              Sample.StableDiffusionPipeline "./v1-5-pruned-emaonly"
              {[ "scheduler_type" := PStr "pndm" ]}))
  = [EvDeprecate "scheduler_type"] ∧
  (λ init_kwargs : gmap string pyval, init_kwargs !! "scheduler")
    <$> constructed (trace (from_single_file (Sample.world true Sample.sd_manifest)
                              Sample.StableDiffusionPipeline "./v1-5-pruned-emaonly"
                              {[ "scheduler_type" := PStr "pndm" ]}))
  = [Some (PObj "legacy_scheduler")].
Proof. split; reflexivity. Qed.

(** With an empty manifest and every required component passed by the
    caller, the loading loop does not run, its variable [class_name] stays
    unbound, and [scheduler_type] then fails. *)
Example scheduler_type_without_a_loop :
  outcome (from_single_file (Sample.world true []) Sample.StableDiffusionPipeline
             "./v1-5-pruned-emaonly"
             {[ "scheduler_type" := PStr "pndm"; "vae" := PObj "vae";
                "text_encoder" := PObj "text_encoder"; "tokenizer" := PObj "tokenizer";
                "unet" := PObj "unet"; "scheduler" := PObj "scheduler" ]})
  = inl (NameError "class_name").
Proof. reflexivity. Qed.

(** * Further properties *)

(** ** Manifest synthesis *)

Section SynthesisProperties.
Context (w : World).

Local Arguments String.eqb : simpl never.

(** X1. For a signature whose parameter names are distinct and whose type
    tuples are not empty, the synthesized manifest is the list of the
    parameters other than ["self"], in declaration order, each with the spec
    of the first class of its tuple. *)
Theorem synthesis_is_a_map (component_types : list (string * list class_obj)) :
  NoDup (Dict.keys component_types) →
  (∀ k tys, (k, tys) ∈ component_types → k ≠ "self" → tys ≠ []) →
  _map_component_types_to_config_dict w component_types
  = inr (omap (λ kv, (λ c, (kv.1, component_spec w c)) <$> head kv.2)
           (Dict.remove "self" component_types)) ∧
  ∀ config_dict,
    _map_component_types_to_config_dict w component_types = inr config_dict →
    Dict.keys config_dict = filter (λ k, k ≠ "self") (Dict.keys component_types).
Proof.
  intros Hnodup Htys.
  assert (_map_component_types_to_config_dict w component_types
          = inr (omap (λ kv, (λ c, (kv.1, component_spec w c)) <$> head kv.2)
                   (Dict.remove "self" component_types))) as Hmap.
  { unfold _map_component_types_to_config_dict. rewrite map_component_types_is_map.
    - done.
    - simpl. rewrite dict_remove_keys. by apply NoDup_filter.
    - intros k tys [Hin Hne]%elem_of_dict_remove_iff. by apply (Htys k). }
  split; [done|]. intros config_dict Heq. rewrite Hmap in Heq. injection Heq as <-.
  rewrite <- dict_remove_keys.
  assert (∀ k tys, (k, tys) ∈ Dict.remove "self" component_types → tys ≠ []) as Hne.
  { intros k tys [Hin ?]%elem_of_dict_remove_iff. by apply (Htys k). }
  revert Hne. clear.
  induction (Dict.remove "self" component_types) as [|[k tys] d IH]; intros Hne;
    [done|].
  destruct tys as [|c tys]; [by destruct (Hne k []); [left|]|].
  simpl. f_equal. apply IH. intros k' tys' Hin. apply (Hne k'). by right.
Qed.

(** X2. Only the first class of a type tuple is inspected: the other
    members of a [Union] annotation do not change the synthesized manifest. *)
Theorem synthesis_reads_first_member (component_types : list (string * list class_obj)) :
  _map_component_types_to_config_dict w component_types
  = _map_component_types_to_config_dict w
      ((λ kv, (kv.1, take 1 kv.2)) <$> component_types).
Proof.
  unfold _map_component_types_to_config_dict.
  assert (∀ d : list (string * list class_obj),
            Dict.remove "self" ((λ kv, (kv.1, take 1 kv.2)) <$> d)
            = (λ kv, (kv.1, take 1 kv.2)) <$> Dict.remove "self" d) as ->.
  { induction d as [|[k tys] d IH]; simpl; [done|].
    destruct (String.eqb "self" k); [exact IH|]. rewrite fmap_cons. f_equal. exact IH. }
  generalize (@nil (string * pyval)).
  induction (Dict.remove "self" component_types) as [|[k tys] d IH]; intros acc;
    simpl; [done|].
  destruct tys as [|c tys]; simpl; [done|]. apply IH.
Qed.


End SynthesisProperties.

Lemma synthesis_is_a_map_witness :
  _map_component_types_to_config_dict (Sample.world true [])
    (("self", []) :: Sample.sd_signature_types)
  = inr [("vae", PPair (Some "diffusers") (Some "AutoencoderKL"));
         ("text_encoder", PPair (Some "transformers") (Some "CLIPTextModel"));
         ("tokenizer", PPair (Some "transformers") (Some "CLIPTokenizer"));
         ("unet", PPair (Some "diffusers") (Some "UNet2DConditionModel"));
         ("scheduler", PPair (Some "diffusers") (Some "DDIMScheduler"));
         ("safety_checker", PPair (Some "transformers") (Some "StableDiffusionSafetyChecker"));
         ("feature_extractor", PPair None None);
         ("image_encoder", PPair (Some "transformers") (Some "CLIPVisionModelWithProjection"));
         ("requires_safety_checker", PPair None None)].
Proof.
  refine (proj1 (synthesis_is_a_map (Sample.world true [])
                   (("self", []) :: Sample.sd_signature_types) _ _)).
  - refine (bool_decide_unpack _ _). exact I.
  - intros k tys Hin Hself.
    apply elem_of_cons in Hin as [Hin|Hin]; [injection Hin as -> _; by destruct Hself|].
    unfold Sample.sd_signature_types in Hin.
    repeat (apply elem_of_cons in Hin as [Hin|Hin]; [injection Hin as _ ->; discriminate|]).
    apply elem_of_nil in Hin. destruct Hin.
Defined.

(** ** Where a loading call comes from *)

Section SubModelEvents.
Context (w : World) (library_name : string) (class_name : option string)
  (pretrained_model_name_or_path : pyval) (name : string) (ckpt : checkpoint)
  (is_pipeline_mod : bool)
  (original_config local_files_only torch_dtype use_safetensors : pyval)
  (is_legacy_loading : bool) (kwargs : gmap string pyval).

Local Abbreviation run :=
  (load_single_file_sub_model w library_name class_name pretrained_model_name_or_path
     name ckpt is_pipeline_mod original_config local_files_only torch_dtype
     use_safetensors is_legacy_loading kwargs).

Local Abbreviation resolved := (resolve_class_obj w is_pipeline_mod library_name class_name).

(** Every call of the sub-model loader, with the test that led to it. *)
Lemma sub_model_event_forms ev :
  ev ∈ trace run →
  ∃ c, resolved = inr c ∧
    ((sub_FromOriginalModelMixin c = true ∧
      ev = EvFromSingleFile (cname c) name original_config
             (if truthy original_config then PNone else pretrained_model_name_or_path)
             torch_dtype local_files_only kwargs) ∨
     (sub_FromOriginalModelMixin c = false ∧
      is_transformers_model w c && is_clip_model_in_single_file w c ckpt = true ∧
      ev = EvClipFromLdm (cname c) name pretrained_model_name_or_path torch_dtype
             local_files_only is_legacy_loading) ∨
     (sub_FromOriginalModelMixin c = false ∧
      is_transformers_model w c && is_clip_model_in_single_file w c ckpt = false ∧
      has_from_pretrained c = true ∧
      (ev = EvFromPretrained (cname c) name pretrained_model_name_or_path
              local_files_only use_safetensors
              (if sub_nn_Module c then {[ "torch_dtype" := torch_dtype ]} else ∅) ∨
       (sub_ModelMixin c = true ∧
        ev = EvWarning (FallbackToPretrained name (cname c)
                          pretrained_model_name_or_path))))).
Proof.
  destruct resolved as [e|c] eqn:Hres.
  { rewrite (sub_model_unresolved _ _ _ _ _ _ _ _ _ _ _ _ _ _ Hres).
    by intros ?%elem_of_nil. }
  intros Hin. exists c. split; [done|].
  destruct (sub_FromOriginalModelMixin c) eqn:Hc.
  { rewrite (sub_model_native _ _ _ _ _ _ _ _ _ _ _ _ _ _ Hres Hc) in Hin.
    apply list_elem_of_singleton in Hin. by left. }
  destruct (is_transformers_model w c && is_clip_model_in_single_file w c ckpt) eqn:Hclip.
  { rewrite (sub_model_clip _ _ _ _ _ _ _ _ _ _ _ _ _ _ Hres Hc Hclip) in Hin.
    apply list_elem_of_singleton in Hin. right; by left. }
  destruct (has_from_pretrained c) eqn:Hfp.
  - rewrite (sub_model_generic _ _ _ _ _ _ _ _ _ _ _ _ _ _ Hres Hc Hclip Hfp) in Hin.
    do 2 right. split_and!; [done..|].
    unfold trace in Hin. simpl in Hin.
    destruct (sub_ModelMixin c); simpl in Hin.
    + apply elem_of_cons in Hin as [->|Hin]; [by right|].
      apply list_elem_of_singleton in Hin. by left.
    + apply list_elem_of_singleton in Hin. by left.
  - rewrite (sub_model_unsupported _ _ _ _ _ _ _ _ _ _ _ _ _ _ Hres Hc Hclip Hfp) in Hin.
    by apply elem_of_nil in Hin.
Qed.

(** X4. The sub-model loader warns about falling back to [from_pretrained]
    exactly when the class is a diffusers model ([ModelMixin]) that ends in
    the generic branch; tokenizers and schedulers fall back silently. *)
Theorem fallback_warning_iff_diffusers_model n cn p :
  EvWarning (FallbackToPretrained n cn p) ∈ trace run ↔
  n = name ∧ p = pretrained_model_name_or_path ∧
  ∃ c, resolved = inr c ∧ cname c = cn ∧
    sub_FromOriginalModelMixin c = false ∧
    is_transformers_model w c && is_clip_model_in_single_file w c ckpt = false ∧
    has_from_pretrained c = true ∧ sub_ModelMixin c = true.
Proof.
  split.
  - intros (c & Hres & [[_ [=]]|[(_ & _ & [=])|(Hc & Hclip & Hfp & [[=]|[Hmm Hev]])]])%
      sub_model_event_forms.
    injection Hev as -> -> ->. split_and!; [done|done|]. by exists c.
  - intros (-> & -> & c & Hres & <- & Hc & Hclip & Hfp & Hmm).
    rewrite (sub_model_generic _ _ _ _ _ _ _ _ _ _ _ _ _ _ Hres Hc Hclip Hfp).
    rewrite Hmm. unfold trace. simpl. by left.
Qed.

End SubModelEvents.

Lemma fallback_warning_iff_diffusers_model_witness :
  EvWarning (FallbackToPretrained "prior" "PriorTransformer"
               (PStr "runwayml/stable-diffusion-v1-5"))
  ∈ trace (load_single_file_sub_model (Sample.world true []) "diffusers"
             (Some "PriorTransformer") (PStr "runwayml/stable-diffusion-v1-5") "prior" []
             false PNone (PBool false) (PObj "float16") PNone false ∅).
Proof.
  apply (fallback_warning_iff_diffusers_model (Sample.world true [])).
  split_and!; [reflexivity|reflexivity|].
  exists Sample.PriorTransformer. split_and!; reflexivity.
Defined.


(** ** The keyword bag after the pops *)

Section Bag.
Context (kwargs : gmap string pyval).

(** The thirteen named arguments are gone from the bag, and nothing else. *)
Lemma parse_rest_filter :
  rest (parse_arguments kwargs) = filter (λ kv, kv.1 ∉ named_arguments) kwargs.
Proof.
  apply map_eq. intros k. apply option_eq. intros v.
  rewrite map_lookup_filter_Some. split.
  - intros Hk. split; [by apply parse_rest_Some|].
    intros Hin. simpl in Hin. revert Hk. unfold parse_arguments, pop, pop_or, named_arguments in *. simpl.
    repeat (apply elem_of_cons in Hin as [->|Hin];
            [repeat (rewrite lookup_delete; case_decide; [done|]); done|]).
    by apply elem_of_nil in Hin.
  - intros [Hk Hnot]. by rewrite parse_rest.
Qed.

End Bag.

Section LoadingCalls.
Context (w : World) (cls : pipeline_class) (path : string) (kwargs : gmap string pyval).

Local Abbreviation run := (from_single_file w cls path kwargs).
Local Abbreviation prepared := (prepare w cls path kwargs).

Lemma prepared_prefix t pl : prepared = (t, inr pl) → t `prefix_of` trace run.
Proof.
  intros Hprep.
  destruct (run_trace w cls path kwargs t pl Hprep)
    as [(e & -> & _)|(ik & cnv & ik' & _ & _ & ->)]; by apply prefix_app_r.
Qed.

(** A preparation call seen in the whole run was made by the preparation. *)
Lemma preparation_event_in_run t pl ev :
  prepared = (t, inr pl) → ev ∈ trace run → is_preparation ev = true → ev ∈ t.
Proof.
  intros Hprep Hin Hp.
  pose proof (load_plan_events w pl) as Hle. rewrite Forall_forall in Hle.
  assert (ev ∉ trace (load_plan w pl)) as Hnl.
  { intros [Hl _]%Hle. apply preparation_is_not_loading in Hp. congruence. }
  destruct (run_trace w cls path kwargs t pl Hprep)
    as [(e & Hrun & _)|(ik & cnv & ik' & _ & _ & Hrun)];
    rewrite Hrun in Hin; unfold trace at 1 in Hin; simpl in Hin;
    repeat (apply elem_of_app in Hin as [Hin|Hin]); try done.
  pose proof (finish_events w pl cnv ik') as Hfe. rewrite Forall_forall in Hfe.
  apply Hfe in Hin. apply preparation_is_not_finishing in Hp. congruence.
Qed.

Lemma remaining_kwargs_filter t pl :
  prepared = (t, inr pl) →
  remaining_kwargs (sel pl)
  = filter (λ kv, (kv.1 ∉ named_arguments) ∧ (kv.1 ∉ expected_modules (sel pl))
                  ∧ (kv.1 ∉ optional_kwargs (sel pl))) kwargs.
Proof.
  intros (t0 & t1 & t2 & cfg & Hargs & _ & _ & Hsel & _)%prepare_inv.
  apply select_components_inv in Hsel as (_ & _ & _ & -> & _).
  unfold pop_all. simpl. rewrite Hargs, parse_rest_filter.
  apply map_eq. intros k. apply option_eq. intros v.
  rewrite !map_lookup_filter_Some. simpl. tauto.
Qed.

(** The manifest and the keyword bag [extract_init_dict] was called with. *)
Lemma extract_call_in_run t pl d kw :
  prepared = (t, inr pl) → EvExtractInitDict d kw ∈ trace run →
  kw = remaining_kwargs (sel pl) ∧ ∃ d', d = Dict.remove "_ignore_files" d'.
Proof.
  intros Hprep Hin. apply (preparation_event_in_run t pl) in Hin; [|done..].
  apply prepare_inv in Hprep as (t0 & t1 & t2 & cfg & Hargs & Hacq & Hres & Hsel & ->).
  apply resolve_config_dict_inv in Hres as Hres'.
  destruct Hres' as (ti & tm & d' & _ & _ & -> & _).
  apply select_components_inv in Hsel as (_ & _ & _ & _ & _ & _ & _ & ->).
  repeat (apply elem_of_app in Hin as [Hin|Hin]).
  - pose proof (acquire_event_forms w cls path (args pl) (EvExtractInitDict d kw)) as H.
    rewrite Hacq in H. destruct (H Hin) as [(k & [=] & _)|[[=]|[=]]].
  - pose proof (resolve_event_forms w cls (pipeline_cls pl) (args pl) (ckpt pl)
                  (EvExtractInitDict d kw)) as H.
    rewrite Hres in H.
    destruct (H Hin) as [[=]|[[? [=]]|[[? [=]]|[[? [=]]|[[? [=]]|[? [=]]]]]]].
  - apply list_elem_of_singleton in Hin. injection Hin as -> ->. split; [done|by exists d'].
Qed.

(** X5. On an installation without a usable [transformers], no call ever
    converts a CLIP model out of the checkpoint, and the synthesis never
    names the ["transformers"] library. *)
Theorem no_clip_without_transformers :
  transformers_available w && transformers_version_ok w = false →
  (∀ c n cfg dt lfo b, EvClipFromLdm c n cfg dt lfo b ∉ trace run) ∧
  (∀ component_types config_dict,
     _map_component_types_to_config_dict w component_types = inr config_dict →
     ∀ k class_name, (k, PPair (Some "transformers") class_name) ∉ config_dict).
Proof.
  intros Hno.
  assert (∀ c, is_transformers_model w c = false) as Hmodel.
  { intros c. unfold is_transformers_model.
    destruct (transformers_available w), (transformers_version_ok w),
      (sub_PreTrainedModel c); done. }
  assert (∀ c, is_transformers_tokenizer w c = false) as Htok.
  { intros c. unfold is_transformers_tokenizer.
    destruct (transformers_available w), (transformers_version_ok w),
      (sub_PreTrainedTokenizer c); done. }
  split.
  - intros c n cfg dt lfo b Hin.
    apply loading_event_origin in Hin as (t & pl & name & value & lib & cn & _ & _ & _ & _ & Hin);
      [|done].
    apply sub_model_event_forms in Hin
      as (c' & _ & [[_ [=]]|[(_ & Hclip & _)|(_ & _ & _ & [[=]|[_ [=]]])]]).
    by rewrite Hmodel in Hclip.
  - intros component_types config_dict. unfold _map_component_types_to_config_dict.
    generalize (Dict.remove "self" component_types). intros items.
    assert (∀ acc : list (string * pyval),
              (∀ k cn, (k, PPair (Some "transformers") cn) ∉ acc) →
              map_component_types w items acc = inr config_dict →
              ∀ k cn, (k, PPair (Some "transformers") cn) ∉ config_dict) as Hind.
    { induction items as [|[k tys] items IH]; intros acc Hacc; simpl.
      - by intros [= <-].
      - destruct tys as [|c tys]; [done|]. apply IH.
        rewrite branch_spec_component_spec. intros k' cn [Hin|Hin]%elem_of_dict_set.
        + injection Hin as _ Hspec. revert Hspec. unfold component_spec.
          rewrite Hmodel, Htok. by repeat case_match.
        + by apply (Hacc k' cn). }
    apply Hind. intros k cn Hin. by apply elem_of_nil in Hin.
Qed.

(** X6. The native loader of a component never gets both sources of its
    configuration: when the fetched original config is truthy the [config]
    argument is [None], otherwise it is the identity whose directory test the
    call made; and the original config is [None] unless the caller gave
    [original_config] or [original_config_file]. *)
Theorem native_loader_gets_one_config c n oc cfg dt lfo kw :
  EvFromSingleFile c n oc cfg dt lfo kw ∈ trace run →
  (truthy oc = true → cfg = PNone) ∧
  (truthy oc = false → ∃ p, cfg = PStr p ∧ EvIsDir p ∈ trace run) ∧
  (default PNone (kwargs !! "original_config") = PNone →
   default PNone (kwargs !! "original_config_file") = PNone → oc = PNone).
Proof.
  intros Hin.
  apply loading_event_origin in Hin as Hor; [|done].
  destruct Hor as (t & pl & name & value & lib & cn & Hprep & _ & _ & _ & Hsub).
  apply sub_model_event_forms in Hsub
    as (c' & _ & [[_ Hev]|[(_ & _ & [=])|(_ & _ & _ & [[=]|[_ [=]]])]]).
  injection Hev as -> -> -> -> -> -> ->.
  pose proof (prepared_prefix t pl Hprep) as [after Hpre].
  apply prepare_inv in Hprep as (t0 & t1 & t2 & cfgd & Hargs & Hacq & Hres & _ & ->).
  split_and!.
  - by intros ->.
  - intros ->. exists (default_pretrained_model_name_or_path pl). split; [done|].
    apply resolve_config_dict_inv in Hres as (ti & tm & d & _ & -> & _).
    rewrite Hpre. set_solver.
  - intros Hoc Hocf.
    apply acquire_inv in Hacq as (_ & Hfetched & _).
    rewrite Hargs in Hfetched. unfold effective_original_config in Hfetched.
    rewrite parse_original_config_file, parse_original_config, Hoc, Hocf in Hfetched.
    done.
Qed.

(** X7. What [extract_init_dict] and every native loader receive as extra
    keywords is the caller's bag without the thirteen named arguments, the
    expected modules and the optional keywords of the constructor: any other
    keyword, the deprecated ones included, is forwarded. *)
Theorem forwarded_kwargs_are_the_unclaimed_ones t pl :
  prepared = (t, inr pl) →
  remaining_kwargs (sel pl)
    = filter (λ kv, (kv.1 ∉ named_arguments) ∧ (kv.1 ∉ expected_modules (sel pl))
                    ∧ (kv.1 ∉ optional_kwargs (sel pl))) kwargs ∧
  (∀ d kw, EvExtractInitDict d kw ∈ trace run → kw = remaining_kwargs (sel pl)) ∧
  (∀ c n oc cfg dt lfo kw,
     EvFromSingleFile c n oc cfg dt lfo kw ∈ trace run → kw = remaining_kwargs (sel pl)).
Proof.
  intros Hprep. split_and!.
  - by eapply remaining_kwargs_filter.
  - intros d kw Hin. by destruct (extract_call_in_run t pl d kw Hprep Hin).
  - intros c n oc cfg dt lfo kw Hin.
    apply loading_event_origin in Hin as Hor; [|done].
    destruct Hor as (t' & pl' & name & value & lib & cn & Hprep' & _ & _ & _ & Hsub).
    rewrite Hprep in Hprep'. injection Hprep' as <- <-.
    apply sub_model_event_forms in Hsub
      as (c' & _ & [[_ Hev]|[(_ & _ & [=])|(_ & _ & _ & [[=]|[_ [=]]])]]).
    by injection Hev as -> -> -> -> -> -> ->.
Qed.

(** X8. The loading calls of a run are made in the order of the loading
    set, one for each of its components that the caller did not pass; a run
    that returns has made all of them. *)
Theorem components_load_in_manifest_order t pl :
  prepared = (t, inr pl) →
  omap loaded_component (trace run)
    `prefix_of` filter (λ n, passed_class_obj (sel pl) !! n = None)
                  (Dict.keys (init_dict (sel pl))) ∧
  (∀ pipe, outcome run = inr pipe →
     omap loaded_component (trace run)
     = filter (λ n, passed_class_obj (sel pl) !! n = None)
         (Dict.keys (init_dict (sel pl)))).
Proof.
  intros Hprep.
  pose proof (prepare_events w cls path kwargs) as Hpe. rewrite Hprep in Hpe.
  assert (omap loaded_component t = []) as Ht.
  { apply omap_None. eapply Forall_impl; [exact Hpe|]. apply preparation_is_not_a_load. }
  destruct (load_components_order w (args pl) (ckpt pl)
              (default_pretrained_model_name_or_path pl) (fetched_original_config pl)
              (is_legacy_loading pl) (passed_class_obj (sel pl)) (remaining_kwargs (sel pl))
              (init_dict (sel pl)) (init_kwargs (sel pl)) None) as [Hpre Hall].
  fold (load_plan w pl) in Hpre, Hall.
  destruct (run_trace w cls path kwargs t pl Hprep)
    as [(e & Hrun & _)|(ik & cnv & ik' & Hload & _ & Hrun)].
  - assert (trace run = t ++ trace (load_plan w pl)) as -> by (by rewrite Hrun).
    assert (outcome run = inl e) as -> by (by rewrite Hrun).
    rewrite omap_app, Ht. simpl. split; [done|]. by intros pipe [=].
  - assert (trace run = t ++ trace (load_plan w pl) ++ trace (finish w pl cnv ik'))
      as -> by (by rewrite Hrun).
    assert (omap loaded_component (trace (finish w pl cnv ik')) = []) as Hf.
    { apply omap_None. eapply Forall_impl; [apply finish_events|].
      apply finishing_is_not_a_loading_call. }
    rewrite !omap_app, Ht, Hf, app_nil_r. simpl. split; [done|].
    intros pipe _. by eapply Hall.
Qed.

End LoadingCalls.

(** ** The manifest: where it is read from *)

Section ManifestSource.
Context (w : World) (cls : pipeline_class) (path : string) (kwargs : gmap string pyval).

Local Abbreviation run := (from_single_file w cls path kwargs).
Local Abbreviation prepared := (prepare w cls path kwargs).
Local Abbreviation a := (parse_arguments kwargs).

(** Every call of a run is made by the preparation, by the loop or by
    lines 491-528. *)
Lemma run_events ev :
  ev ∈ trace run →
  ev ∈ trace prepared ∨ is_loading ev = true ∨ is_finishing ev = true.
Proof.
  intros Hin. destruct prepared as [t [e|pl]] eqn:Hprep.
  { rewrite (run_stops_in_preparation _ _ _ _ _ _ Hprep) in Hin. by left. }
  pose proof (load_plan_events w pl) as Hle. rewrite Forall_forall in Hle.
  destruct (run_trace w cls path kwargs t pl Hprep)
    as [(e & Hrun & _)|(ik & cnv & ik' & _ & _ & Hrun)];
    rewrite Hrun in Hin; unfold trace at 1 in Hin; simpl in Hin;
    repeat (apply elem_of_app in Hin as [Hin|Hin]).
  - by left.
  - right; left. by apply Hle.
  - by left.
  - right; left. by apply Hle.
  - right; right. pose proof (finish_events w pl cnv ik') as Hfe.
    rewrite Forall_forall in Hfe. by apply Hfe.
Qed.

(** Every call of the preparation is made by the acquisition, by the
    resolution of the manifest, or is the one call of [extract_init_dict]. *)
Lemma prepared_events ev :
  ev ∈ trace prepared →
  ev ∈ trace (acquire w cls path a) ∨
  ∃ oc pc ck, outcome (acquire w cls path a) = inr (oc, pc, ck) ∧
    (ev ∈ trace (resolve_config_dict w cls pc a ck) ∨
     ∃ p config_dict leg,
       outcome (resolve_config_dict w cls pc a ck) = inr (p, config_dict, leg) ∧
       ev ∈ trace (select_components w cls pc config_dict (rest a))).
Proof.
  unfold prepare.
  intros [Hin|([[oc pc] ck] & Hacq & Hin)]%elem_of_trace_bind; [by left|].
  right. exists oc, pc, ck. split; [done|].
  apply elem_of_trace_bind in Hin as [Hin|([[p cfg] leg] & Hres & Hin)]; [by left|].
  right. exists p, cfg, leg. split; [done|].
  apply elem_of_trace_bind in Hin as [Hin|(s & _ & Hin)]; [done|].
  by apply elem_of_nil in Hin.
Qed.

Lemma select_event_forms pc config_dict kw ev :
  ev ∈ trace (select_components w cls pc config_dict kw) →
  ∃ kw', ev = EvExtractInitDict config_dict kw'.
Proof.
  revert ev. apply Forall_forall. unfold select_components.
  destruct (get_signature_keys w pc cls) as [expected optional].
  unfold pop_all. cbv beta iota zeta. walk_trace; eauto.
Qed.

(** X9. The manifest handed to [extract_init_dict] never has the key
    ["_ignore_files"], whichever way the manifest was obtained. *)
Theorem ignore_files_is_stripped config_dict kw :
  EvExtractInitDict config_dict kw ∈ trace run →
  "_ignore_files" ∉ Dict.keys config_dict.
Proof.
  intros [Hin|[[=]|[=]]]%run_events.
  apply prepared_events in Hin as [Hin|(oc & pc & ck & _ & [Hin|Hin])].
  - apply acquire_event_forms in Hin as [(k & [=] & _)|[[=]|[=]]].
  - apply resolve_event_forms in Hin
      as [[=]|[[? [=]]|[[? [=]]|[[? [=]]|[[? [=]]|[? [=]]]]]]].
  - destruct Hin as (p & cfg & leg & Hres & Hin).
    apply select_event_forms in Hin as [kw' [= -> ->]].
    pose proof (surjective_M (resolve_config_dict w cls pc a ck)) as Hs.
    rewrite Hres in Hs.
    apply resolve_config_dict_inv in Hs as (ti & tm & d & _ & _ & -> & _).
    rewrite dict_remove_keys. intros [Hne _]%list_elem_of_filter. done.
Qed.



(** X11. An error of the hub other than [LocalEntryNotFoundError] ends the
    call: nothing is inferred, [extract_init_dict] is not called and nothing
    is loaded. *)
Theorem hub_errors_propagate t0 oc pc ck t1 p e :
  acquire w cls path a = (t0, inr (oc, pc, ck)) →
  inferred_identity w a ck = (t1, inr (PStr p)) →
  isdir w p = false →
  count_slash p ≤ 1 →
  outcome (fetch_manifest w cls pc a p) = inl e →
  e ≠ LocalEntryNotFoundError →
  run = (t0 ++ t1 ++ [EvIsDir p] ++ trace (fetch_manifest w cls pc a p), inl e) ∧
  trace (fetch_manifest w cls pc a p)
    `prefix_of` [EvHubDownload p (config_name cls) (hub_transport a);
                 EvDictFromJsonFile
                   (match hf_hub_download w p (config_name cls) (hub_transport a) with
                    | inr config_file => config_file
                    | inl _ => ""
                    end)] ∧
  Forall (λ ev, is_acquisition ev = true ∨ ev = EvFetchDiffusersConfig ∨ ev = EvIsDir p
                ∨ is_manifest_fetch ev = true) (trace run).
Proof.
  intros Hacq Hid Hdir Hslash Hfetch He.
  assert (resolve_config_dict w cls pc a ck
          = (t1 ++ [EvIsDir p] ++ trace (fetch_manifest w cls pc a p), inl e)) as Hres.
  { unfold resolve_config_dict. rewrite (bind_value _ _ _ _ Hid). simpl. rewrite Hdir. simpl.
    replace (1 <? count_slash p) with false by (symmetry; apply Nat.ltb_ge; lia).
    destruct (fetch_manifest w cls pc a p) as [tf [e'|r]]; unfold outcome in Hfetch;
      simpl in Hfetch; [|done]. injection Hfetch as ->.
    by destruct e. }
  assert (run = (t0 ++ t1 ++ [EvIsDir p] ++ trace (fetch_manifest w cls pc a p), inl e))
    as Hrun.
  { unfold from_single_file, prepare. rewrite (bind_value _ _ _ _ Hacq). simpl.
    by rewrite Hres. }
  assert (trace (fetch_manifest w cls pc a p)
            `prefix_of` [EvHubDownload p (config_name cls) (hub_transport a);
               EvDictFromJsonFile
                 (match hf_hub_download w p (config_name cls) (hub_transport a) with
                  | inr config_file => config_file
                  | inl _ => ""
                  end)]) as Hpre.
  { unfold fetch_manifest, ask.
    destruct (hf_hub_download w p (config_name cls) (hub_transport a)) as [e'|f]; simpl.
    - by exists [EvDictFromJsonFile ""].
    - destruct (dict_from_json_file w pc f); by exists []. }
  split_and!; [done|done|]. rewrite Hrun. unfold trace at 1. simpl.
  rewrite !Forall_app, Forall_cons. split_and!.
  - pose proof (acquire_events w cls path a) as H. rewrite Hacq in H.
    eapply Forall_impl; [exact H|]. intros ev ?. by left.
  - pose proof (inferred_identity_events w a ck) as H. rewrite Hid in H.
    eapply Forall_impl; [exact H|]. intros ev ->. right; by left.
  - right; right; by left.
  - destruct Hpre as [k Hk]. apply Forall_forall. intros ev Hin.
    do 3 right. assert (ev ∈ trace (fetch_manifest w cls pc a p) ++ k) as Hin'
      by (apply elem_of_app; by left).
    rewrite <- Hk in Hin'.
    apply elem_of_cons in Hin' as [->|Hin']; [done|].
    by apply list_elem_of_singleton in Hin' as ->.
Qed.

End ManifestSource.

(** ** The constructor call *)

Section Arguments2.
Context (kwargs : gmap string pyval).

Lemma parse_torch_dtype :
  torch_dtype (parse_arguments kwargs) = default PNone (kwargs !! "torch_dtype").
Proof.
  unfold parse_arguments, pop, pop_or. simpl. by rewrite !lookup_delete_ne.
Qed.

Lemma parse_local_files_only :
  local_files_only (parse_arguments kwargs)
  = default (PBool false) (kwargs !! "local_files_only").
Proof.
  unfold parse_arguments, pop, pop_or. simpl. by rewrite !lookup_delete_ne.
Qed.

End Arguments2.

Lemma preparation_is_not_construction ev :
  is_preparation ev = true → is_construction ev = false.
Proof. by destruct ev. Qed.

Lemma loading_is_not_construction ev : is_loading ev = true → is_construction ev = false.
Proof. by destruct ev. Qed.

Section Construction.
Context (w : World) (cls : pipeline_class) (path : string) (kwargs : gmap string pyval).

Local Abbreviation run := (from_single_file w cls path kwargs).
Local Abbreviation prepared := (prepare w cls path kwargs).

Lemma construct_inv pc a ik tk pipe :
  construct w pc a ik = (tk, inr pipe) →
  invoke w (EvConstruct (pipe_name pc) ik) = inr pipe ∧
  tk = EvConstruct (pipe_name pc) ik
         :: (if is_None (torch_dtype a) then [] else [EvTo (torch_dtype a)]).
Proof.
  unfold construct, call.
  destruct (invoke w (EvConstruct (pipe_name pc) ik)) as [e|pipe0]; simpl; [done|].
  destruct (is_None (torch_dtype a)); simpl.
  - by intros [= <- <-].
  - destruct (invoke w (EvTo (torch_dtype a))); simpl; [done|]. by intros [= <- <-].
Qed.

(** X12. A call that returns has called the constructor of the class
    [_get_pipeline_class] resolved exactly once, as its last call but for the
    cast [pipe.to(dtype=torch_dtype)], which is made exactly when
    [torch_dtype] was given; what the call returns is what the constructor
    returned. *)
Theorem success_ends_with_constructor pipe :
  outcome run = inr pipe →
  ∃ before pc init_kwargs,
    get_pipeline_class w cls = inr pc ∧
    trace run
    = before ++ EvConstruct (pipe_name pc) init_kwargs
        :: (if is_None (default PNone (kwargs !! "torch_dtype")) then []
            else [EvTo (default PNone (kwargs !! "torch_dtype"))]) ∧
    invoke w (EvConstruct (pipe_name pc) init_kwargs) = inr pipe ∧
    Forall (λ ev, is_construction ev = false) before.
Proof.
  intros Hout. destruct prepared as [t [e|pl]] eqn:Hprep.
  { by rewrite (run_stops_in_preparation _ _ _ _ _ _ Hprep) in Hout. }
  destruct (run_trace w cls path kwargs t pl Hprep)
    as [(e & Hrun & _)|(ik & cnv & ik' & Hload & Hcheck & Hrun)];
    [by rewrite Hrun in Hout|].
  rewrite Hrun in Hout. unfold outcome at 1 in Hout. simpl in Hout.
  assert (trace run = t ++ trace (load_plan w pl) ++ trace (finish w pl cnv ik')) as Htr
    by (by rewrite Hrun).
  destruct (finish w pl cnv ik') as [tf r] eqn:Hfin.
  unfold outcome in Hout. simpl in Hout. subst r.
  unfold trace at 3 in Htr. simpl in Htr. unfold finish in Hfin.
  apply bind_value_inv in Hfin as (ts & ik2 & t2 & Hs & Hfin & ->).
  apply bind_value_inv in Hfin as (tc & ik3 & tk & Hc & Hk & ->).
  apply construct_inv in Hk as [Hinvoke ->].
  pose proof (prepare_events w cls path kwargs) as Hpe. rewrite Hprep in Hpe.
  apply prepare_inv in Hprep as (t0 & t1 & t2 & cfg & Hargs & Hacq & _).
  apply acquire_inv in Hacq as (_ & _ & Hpc & _).
  exists (t ++ trace (load_plan w pl) ++ ts ++ tc), (pipeline_cls pl), ik3.
  split_and!.
  - done.
  - rewrite Htr, Hargs, parse_torch_dtype. by rewrite <- !(assoc_L (++)).
  - done.
  - rewrite !Forall_app. split_and!.
    + eapply Forall_impl; [exact Hpe|]. apply preparation_is_not_construction.
    + eapply Forall_impl; [apply load_plan_events|]. intros ev (? & _).
      by apply loading_is_not_construction.
    + pose proof (legacy_safety_checker_events w (args pl) (remaining_kwargs (sel pl)) ik')
        as H. rewrite Hs in H. eapply Forall_impl; [exact H|].
      by intros ev (_ & [->|[->| ->]]).
    + pose proof (legacy_scheduler_events w (ckpt pl) (fetched_original_config pl)
                    (prediction_type (args pl)) cnv (remaining_kwargs (sel pl)) ik2) as H.
      rewrite Hc in H. eapply Forall_impl; [exact H|].
      by intros ev (_ & [->|(cn & _ & ->)]).
Qed.

(** X13. Whenever the constructor is called, it is the constructor of the
    resolved pipeline class and its keywords hold every module that
    [_get_signature_keys] lists as expected. *)
Theorem constructor_gets_every_expected_module t pl pipeline init_kwargs :
  prepared = (t, inr pl) →
  EvConstruct pipeline init_kwargs ∈ trace run →
  pipeline = pipe_name (pipeline_cls pl) ∧
  get_pipeline_class w cls = inr (pipeline_cls pl) ∧
  (get_signature_keys w (pipeline_cls pl) cls).1 ⊆ dom init_kwargs.
Proof.
  intros Hprep Hin.
  destruct (finishing_event_inv w cls path kwargs _ Hin eq_refl)
    as (t2 & pl2 & t' & ik & cnv & ik' & Hprep2 & Hload & Hcheck & _ & Hfin).
  rewrite Hprep in Hprep2. injection Hprep2 as <- <-.
  destruct (finish_event_cases _ _ _ _ _ Hfin)
    as [(_ & _ & [?|[?|?]])|[(_ & _ & [?|(cn' & _ & ?)])|[(ik0 & Hev)|?]]]; try done.
  injection Hev as -> _.
  destruct (finish_construct w pl cnv ik' _ _ Hfin)
    as (safety & sched & -> & _).
  apply check_missing_modules_passes in Hcheck as (_ & Hfilled & Hkept).
  apply prepare_inv in Hprep as (t0 & t1 & t2 & cfg & Hargs & Hacq & _ & Hsel & _).
  apply acquire_inv in Hacq as (_ & _ & Hpc & _).
  apply select_components_inv in Hsel as (Hexp & _).
  split_and!; [done|done|]. rewrite <- Hexp. intros n Hn.
  rewrite !dom_union_L, !elem_of_union. do 2 right. apply elem_of_dom.
  destruct (decide (n ∈ missing_modules (sel pl) ik)) as [Hm|Hm].
  - rewrite (Hfilled n Hm). by eexists.
  - rewrite (Hkept n Hm). apply elem_of_dom. unfold missing_modules in Hm.
    rewrite elem_of_difference in Hm.
    destruct (decide (n ∈ dom ik)); [done|]. exfalso. by apply Hm.
Qed.

(** X14. With [scheduler_type] given and an empty loading set the loop
    variable [class_name] of line 452 is never bound: once the check of
    the missing modules and the safety-checker path are passed, the call
    warns that [scheduler_type] is deprecated and raises [NameError];
    nothing was loaded and the constructor is not called. *)
Theorem scheduler_type_without_components_raises t pl ik' ts ik'' :
  prepared = (t, inr pl) →
  init_dict (sel pl) = [] →
  check_missing_modules (pipeline_cls pl) (sel pl) (init_kwargs (sel pl))
    = ([], inr ik') →
  legacy_safety_checker w (args pl) (remaining_kwargs (sel pl)) ik' = (ts, inr ik'') →
  default PNone (remaining_kwargs (sel pl) !! "scheduler_type") ≠ PNone →
  run = (t ++ ts ++ [EvDeprecate "scheduler_type"], inl (NameError "class_name")).
Proof.
  intros Hprep Hempty Hcheck Hs Hsched.
  assert (load_plan w pl = ([], inr (init_kwargs (sel pl), None))) as Hload.
  { unfold load_plan. by rewrite Hempty. }
  rewrite (run_reaches_finish w cls path kwargs _ _ _ _ _ _ Hprep Hload Hcheck).
  unfold finish. rewrite (bind_value _ _ _ _ Hs). cbn beta.
  rewrite (legacy_scheduler_unbound w _ _ _ _ _ Hsched). done.
Qed.

(** X15. [local_files_only], [False] when the caller did not give it, is
    handed to every call that takes it: the fetch of the original config,
    the download of the checkpoint and of the manifest, every loader of a
    component and both loaders of the deprecated safety checker. *)
Theorem offline_flag_reaches_every_call ev :
  ev ∈ trace run →
  takes_local_files_only ev = true →
  local_files_only_of ev = Some (default (PBool false) (kwargs !! "local_files_only")).
Proof.
  intros Hin Htakes. rewrite <- parse_local_files_only.
  destruct (run_events w cls path kwargs ev Hin) as [Hp|[Hl|Hf]].
  - apply prepared_events in Hp as [Hp|(oc & pc & ck & _ & [Hp|Hp])].
    + apply acquire_event_forms in Hp as [(k & -> & _)|[->| ->]]; [done|done|].
      simpl. unfold checkpoint_transport.
      repeat (rewrite lookup_insert_ne by done). by rewrite lookup_insert_eq.
    + apply resolve_event_forms in Hp
        as [->|[[? ->]|[[? ->]|[[? ->]|[[? ->]|[? ->]]]]]]; done.
    + destruct Hp as (p & cfg & leg & _ & Hp).
      by apply select_event_forms in Hp as [kw' ->].
  - destruct (loading_event_origin w cls path kwargs ev Hin Hl)
      as (t & pl & name & value & lib & cn & Hprep & _ & _ & _ & Hsub).
    apply prepare_inv in Hprep as (t0 & t1 & t2 & cfg & Hargs & _).
    rewrite <- Hargs.
    apply sub_model_event_forms in Hsub
      as (c & _ & [[_ ->]|[(_ & _ & ->)|(_ & _ & _ & [->|[_ ->]])]]); done.
  - destruct (finishing_event_inv w cls path kwargs _ Hin Hf)
      as (t & pl & t' & ik & cnv & ik' & Hprep & _ & _ & _ & Hfin).
    apply prepare_inv in Hprep as (t0 & t1 & t2 & cfg & Hargs & _).
    rewrite <- Hargs.
    destruct (finish_event_cases _ _ _ _ _ Hfin)
      as [(_ & _ & [->|[->| ->]])|[(_ & _ & [->|(cn' & _ & ->)])|[(ik0 & ->)| ->]]];
      done.
Qed.

End Construction.

(** ** A keyword given twice *)

Section GivenTwice.
Context (w : World) (cls : pipeline_class) (path : string) (kwargs : gmap string pyval).

Local Abbreviation run := (from_single_file w cls path kwargs).
Local Abbreviation prepared := (prepare w cls path kwargs).




End GivenTwice.

(** ** The further properties on the sample world *)


Lemma no_clip_without_transformers_witness :
  EvClipFromLdm "CLIPTextModel" "text_encoder" (PStr "./models/sd/v1-5") PNone
    (PBool false) false
  ∉ trace (from_single_file (without_transformers (Sample.world true Sample.sd_manifest))
             Sample.StableDiffusionPipeline "./v1-5-pruned-emaonly"
             {[ "config" := PStr "./models/sd/v1-5" ]}).
Proof.
  refine (proj1 (no_clip_without_transformers
                   (without_transformers (Sample.world true Sample.sd_manifest))
                   Sample.StableDiffusionPipeline "./v1-5-pruned-emaonly"
                   {[ "config" := PStr "./models/sd/v1-5" ]} _) _ _ _ _ _ _).
  reflexivity.
Defined.

Lemma native_loader_gets_one_config_witness :
  ∃ p, PStr "./models/sd/v1-5" = PStr p ∧
    EvIsDir p ∈ trace (from_single_file (Sample.world true Sample.sd_manifest)
                         Sample.StableDiffusionPipeline "./v1-5-pruned-emaonly"
                         {[ "config" := PStr "./models/sd/v1-5" ]}).
Proof.
  refine (proj1 (proj2 (native_loader_gets_one_config
                          (Sample.world true Sample.sd_manifest)
                          Sample.StableDiffusionPipeline "./v1-5-pruned-emaonly"
                          {[ "config" := PStr "./models/sd/v1-5" ]}
                          "UNet2DConditionModel" "unet" PNone (PStr "./models/sd/v1-5")
                          PNone (PBool false) ∅ _)) _).
  - refine (bool_decide_unpack _ _). exact I.
  - reflexivity.
Defined.

Lemma forwarded_kwargs_are_the_unclaimed_ones_witness :
  remaining_kwargs
    (sel (Runs.the_plan (Sample.world true Sample.sd_manifest)
            {[ "torch_dtype" := PObj "float16"; "safety_checker" := PNone;
               "requires_safety_checker" := PBool false;
               "scheduler_type" := PStr "pndm"; "variant" := PStr "fp16" ]}))
  = {[ "scheduler_type" := PStr "pndm"; "variant" := PStr "fp16" ]}.
Proof.
  etrans.
  - refine (proj1 (forwarded_kwargs_are_the_unclaimed_ones
                     (Sample.world true Sample.sd_manifest)
                     Sample.StableDiffusionPipeline "./v1-5-pruned-emaonly"
                     {[ "torch_dtype" := PObj "float16"; "safety_checker" := PNone;
                        "requires_safety_checker" := PBool false;
                        "scheduler_type" := PStr "pndm"; "variant" := PStr "fp16" ]}
                     (trace (Runs.prepared (Sample.world true Sample.sd_manifest)
                               {[ "torch_dtype" := PObj "float16";
                                  "safety_checker" := PNone;
                                  "requires_safety_checker" := PBool false;
                                  "scheduler_type" := PStr "pndm";
                                  "variant" := PStr "fp16" ]}))
                     (Runs.the_plan (Sample.world true Sample.sd_manifest)
                               {[ "torch_dtype" := PObj "float16";
                                  "safety_checker" := PNone;
                                  "requires_safety_checker" := PBool false;
                                  "scheduler_type" := PStr "pndm";
                                  "variant" := PStr "fp16" ]}) _)).
    reflexivity.
  - reflexivity.
Defined.

Lemma components_load_in_manifest_order_witness :
  omap loaded_component
    (trace (from_single_file (Sample.world true Sample.sd_manifest)
              Sample.StableDiffusionPipeline "./v1-5-pruned-emaonly"
              {[ "tokenizer" := PObj "my_tokenizer" ]}))
  = ["feature_extractor"; "safety_checker"; "scheduler"; "text_encoder"; "unet"; "vae"].
Proof.
  etrans.
  - refine (proj2 (components_load_in_manifest_order
                     (Sample.world true Sample.sd_manifest)
                     Sample.StableDiffusionPipeline "./v1-5-pruned-emaonly"
                     {[ "tokenizer" := PObj "my_tokenizer" ]}
                     (trace (Runs.prepared (Sample.world true Sample.sd_manifest)
                               {[ "tokenizer" := PObj "my_tokenizer" ]}))
                     (Runs.the_plan (Sample.world true Sample.sd_manifest)
                        {[ "tokenizer" := PObj "my_tokenizer" ]}) _)
              (PObj "StableDiffusionPipeline") _); reflexivity.
  - reflexivity.
Defined.

Lemma ignore_files_is_stripped_witness :
  "_ignore_files" ∉ Dict.keys (Dict.remove "_ignore_files" Sample.sd_manifest).
Proof.
  refine (ignore_files_is_stripped (Sample.world true Sample.sd_manifest)
            Sample.StableDiffusionPipeline "./v1-5-pruned-emaonly" ∅
            (Dict.remove "_ignore_files" Sample.sd_manifest) ∅ _).
  refine (bool_decide_unpack _ _). exact I.
Defined.


Lemma hub_errors_propagate_witness :
  outcome (from_single_file
             (with_hub_error (OtherError "HTTPError") (Sample.world true Sample.sd_manifest))
             Sample.StableDiffusionPipeline "./v1-5-pruned-emaonly" ∅)
  = inl (OtherError "HTTPError").
Proof.
  destruct (hub_errors_propagate
              (with_hub_error (OtherError "HTTPError")
                 (Sample.world true Sample.sd_manifest))
              Sample.StableDiffusionPipeline "./v1-5-pruned-emaonly" ∅
              [EvLoadCheckpoint "./v1-5-pruned-emaonly"
                 (checkpoint_transport (parse_arguments ∅))]
              PNone Sample.StableDiffusionPipeline Sample.sd_checkpoint
              [EvFetchDiffusersConfig] "runwayml/stable-diffusion-v1-5"
              (OtherError "HTTPError")) as [Hrun _].
  - reflexivity.
  - reflexivity.
  - reflexivity.
  - apply Nat.leb_le. reflexivity.
  - reflexivity.
  - discriminate.
  - exact (f_equal outcome Hrun).
Defined.

Lemma success_ends_with_constructor_witness :
  ∃ before pc init_kwargs,
    get_pipeline_class (Sample.world true Sample.sd_manifest)
      Sample.StableDiffusionPipeline = inr pc ∧
    trace (from_single_file (Sample.world true Sample.sd_manifest)
             Sample.StableDiffusionPipeline "./v1-5-pruned-emaonly"
             {[ "torch_dtype" := PObj "float16" ]})
    = before ++ [EvConstruct (pipe_name pc) init_kwargs; EvTo (PObj "float16")].
Proof.
  destruct (success_ends_with_constructor (Sample.world true Sample.sd_manifest)
              Sample.StableDiffusionPipeline "./v1-5-pruned-emaonly"
              {[ "torch_dtype" := PObj "float16" ]} (PObj "StableDiffusionPipeline"))
    as (before & pc & init_kwargs & Hpc & Htrace & _).
  - reflexivity.
  - exists before, pc, init_kwargs. split; [exact Hpc|exact Htrace].
Defined.

Lemma constructor_gets_every_expected_module_witness :
  Sample.sd_expected
  ⊆ dom (default ∅
           (head (constructed
                    (trace (from_single_file (Sample.world true Sample.sd_manifest)
                              Sample.StableDiffusionPipeline "./v1-5-pruned-emaonly" ∅))))).
Proof.
  refine (proj2 (proj2 (constructor_gets_every_expected_module
                          (Sample.world true Sample.sd_manifest)
                          Sample.StableDiffusionPipeline "./v1-5-pruned-emaonly" ∅
                          (trace (Runs.prepared (Sample.world true Sample.sd_manifest) ∅))
                          (Runs.the_plan (Sample.world true Sample.sd_manifest) ∅)
                          "StableDiffusionPipeline"
                          (default ∅
                             (head (constructed
                                      (trace (from_single_file
                                                (Sample.world true Sample.sd_manifest)
                                                Sample.StableDiffusionPipeline
                                                "./v1-5-pruned-emaonly" ∅)))))
                          _ _))).
  - reflexivity.
  - refine (bool_decide_unpack _ _). exact I.
Defined.

Lemma scheduler_type_without_components_raises_witness :
  outcome (from_single_file (Sample.world false Sample.sd_manifest)
             Sample.StableDiffusionPipeline "./v1-5-pruned-emaonly"
             {[ "vae" := PNone; "text_encoder" := PNone; "tokenizer" := PNone;
                "unet" := PNone; "scheduler" := PNone;
                "scheduler_type" := PStr "pndm" ]})
  = inl (NameError "class_name").
Proof.
  pose (w := Sample.world false Sample.sd_manifest).
  pose (kw := ({[ "vae" := PNone; "text_encoder" := PNone; "tokenizer" := PNone;
                  "unet" := PNone; "scheduler" := PNone;
                  "scheduler_type" := PStr "pndm" ]} : gmap string pyval)).
  assert (from_single_file w Sample.StableDiffusionPipeline "./v1-5-pruned-emaonly" kw
          = (trace (Runs.prepared w kw) ++ [] ++ [EvDeprecate "scheduler_type"],
             inl (NameError "class_name"))) as Hrun.
  { apply (scheduler_type_without_components_raises w Sample.StableDiffusionPipeline
             "./v1-5-pruned-emaonly" kw (trace (Runs.prepared w kw)) (Runs.the_plan w kw)
             (Runs.checked_kwargs w kw) [] (Runs.checked_kwargs w kw)).
    - reflexivity.
    - reflexivity.
    - reflexivity.
    - reflexivity.
    - match goal with
      | |- ?x ≠ _ => assert (x = PStr "pndm") as -> by reflexivity
      end.
      discriminate. }
  exact (f_equal outcome Hrun).
Defined.

Lemma offline_flag_reaches_every_call_witness :
  hub_transport (parse_arguments {[ "local_files_only" := PBool true ]})
    !! "local_files_only" = Some (PBool true).
Proof.
  refine (offline_flag_reaches_every_call (Sample.world true Sample.sd_manifest)
            Sample.StableDiffusionPipeline "./v1-5-pruned-emaonly"
            {[ "local_files_only" := PBool true ]}
            (EvHubDownload "runwayml/stable-diffusion-v1-5" "model_index.json"
               (hub_transport (parse_arguments {[ "local_files_only" := PBool true ]})))
            _ _).
  - refine (bool_decide_unpack _ _). exact I.
  - reflexivity.
Defined.

